(** * Mythic Mixology Lab: the Apps Script backend, embedded and verified

    The script generates a drink blueprint from a validated request, either
    with one of five table-driven generators fed by a seeded pseudo-random
    source or from a remote completion normalised to the same shape, stores
    it as a spreadsheet row and counts votes on stored rows.

    Conventions of the embedding.
    - A script string is the list of its UTF-16 code units ([list Z]), so
      [length], indexing, [charCodeAt] and one-unit separators mean what
      they mean in the script.  Case conversion is the one of the Unicode
      character database, code point by code point.
    - 32-bit integer operators are written on [Z] with the wrap-around
      spelled out ([toInt32], [toUint32]).
    - A number drawn from the pseudo-random source is the exact rational
      [u / 2^32]; every product and sum the script forms from it is exactly
      representable in binary64, so [Q] arithmetic is the script's.
    - An exception is a value of type [error]; a function that can throw
      returns [result]. *)

From Stdlib Require Import ZArith QArith Qabs Qround String Ascii List Lia Lqa.
From Stdlib Require Import DecimalFacts DecimalPos.
From Equations Require Import Equations.
From stdpp Require Import base list.
Import ListNotations.
Local Open Scope Z_scope.

(** ** Unicode case conversion

    [toUpperCase] and [toLowerCase] convert a string code point by code
    point with the full case mappings of the Unicode Character Database
    ([UnicodeData.txt], and the rules of [SpecialCasing.txt] that depend on
    no language), here in version 14.0.  The tables hold the code points
    beyond Basic Latin, which has the 26 pairs a-z / A-Z and nothing else. *)

Module Unicode.

(** A run [(first, last, step, delta)] maps each of the code points [first],
    [first + step], ..., [last] to the code point [delta] further on. *)
Definition inRun (cp : Z) (run : Z * Z * Z * Z) : bool :=
  let '(first, last, step, _) := run in
  (first <=? cp) && (cp <=? last) && ((cp - first) mod step =? 0).

(** The mapping of a code point under a table of runs and a table of code
    points mapped to several; a code point in neither is mapped to itself. *)
Definition mapped (runs : list (Z * Z * Z * Z)) (special : list (Z * list Z))
  (cp : Z) : list Z :=
  match List.find (fun entry => fst entry =? cp) special with
  | Some entry => snd entry
  | None =>
      match List.find (inRun cp) runs with
      | Some (_, _, _, delta) => [cp + delta]
      | None => [cp]
      end
  end.

Definition inRanges (ranges : list (Z * Z)) (cp : Z) : bool :=
  existsb (fun range => (fst range <=? cp) && (cp <=? snd range)) ranges.

(** Upper case, one code point to one. *)
Definition upperCaseRuns : list (Z * Z * Z * Z) := [
  (181, 181, 1, 743); (224, 246, 1, -32); (248, 254, 1, -32);
  (255, 255, 1, 121); (257, 303, 2, -1); (305, 305, 1, -232);
  (307, 311, 2, -1); (314, 328, 2, -1); (331, 375, 2, -1); (378, 382, 2, -1);
  (383, 383, 1, -300); (384, 384, 1, 195); (387, 389, 2, -1);
  (392, 392, 1, -1); (396, 396, 1, -1); (402, 402, 1, -1); (405, 405, 1, 97);
  (409, 409, 1, -1); (410, 410, 1, 163); (414, 414, 1, 130);
  (417, 421, 2, -1); (424, 424, 1, -1); (429, 429, 1, -1); (432, 432, 1, -1);
  (436, 438, 2, -1); (441, 441, 1, -1); (445, 445, 1, -1); (447, 447, 1, 56);
  (453, 453, 1, -1); (454, 454, 1, -2); (456, 456, 1, -1); (457, 457, 1, -2);
  (459, 459, 1, -1); (460, 460, 1, -2); (462, 476, 2, -1); (477, 477, 1, -79);
  (479, 495, 2, -1); (498, 498, 1, -1); (499, 499, 1, -2); (501, 501, 1, -1);
  (505, 543, 2, -1); (547, 563, 2, -1); (572, 572, 1, -1);
  (575, 576, 1, 10815); (578, 578, 1, -1); (583, 591, 2, -1);
  (592, 592, 1, 10783); (593, 593, 1, 10780); (594, 594, 1, 10782);
  (595, 595, 1, -210); (596, 596, 1, -206); (598, 599, 1, -205);
  (601, 601, 1, -202); (603, 603, 1, -203); (604, 604, 1, 42319);
  (608, 608, 1, -205); (609, 609, 1, 42315); (611, 611, 1, -207);
  (613, 613, 1, 42280); (614, 614, 1, 42308); (616, 616, 1, -209);
  (617, 617, 1, -211); (618, 618, 1, 42308); (619, 619, 1, 10743);
  (620, 620, 1, 42305); (623, 623, 1, -211); (625, 625, 1, 10749);
  (626, 626, 1, -213); (629, 629, 1, -214); (637, 637, 1, 10727);
  (640, 640, 1, -218); (642, 642, 1, 42307); (643, 643, 1, -218);
  (647, 647, 1, 42282); (648, 648, 1, -218); (649, 649, 1, -69);
  (650, 651, 1, -217); (652, 652, 1, -71); (658, 658, 1, -219);
  (669, 669, 1, 42261); (670, 670, 1, 42258); (837, 837, 1, 84);
  (881, 883, 2, -1); (887, 887, 1, -1); (891, 893, 1, 130);
  (940, 940, 1, -38); (941, 943, 1, -37); (945, 961, 1, -32);
  (962, 962, 1, -31); (963, 971, 1, -32); (972, 972, 1, -64);
  (973, 974, 1, -63); (976, 976, 1, -62); (977, 977, 1, -57);
  (981, 981, 1, -47); (982, 982, 1, -54); (983, 983, 1, -8);
  (985, 1007, 2, -1); (1008, 1008, 1, -86); (1009, 1009, 1, -80);
  (1010, 1010, 1, 7); (1011, 1011, 1, -116); (1013, 1013, 1, -96);
  (1016, 1016, 1, -1); (1019, 1019, 1, -1); (1072, 1103, 1, -32);
  (1104, 1119, 1, -80); (1121, 1153, 2, -1); (1163, 1215, 2, -1);
  (1218, 1230, 2, -1); (1231, 1231, 1, -15); (1233, 1327, 2, -1);
  (1377, 1414, 1, -48); (4304, 4346, 1, 3008); (4349, 4351, 1, 3008);
  (5112, 5117, 1, -8); (7296, 7296, 1, -6254); (7297, 7297, 1, -6253);
  (7298, 7298, 1, -6244); (7299, 7300, 1, -6242); (7301, 7301, 1, -6243);
  (7302, 7302, 1, -6236); (7303, 7303, 1, -6181); (7304, 7304, 1, 35266);
  (7545, 7545, 1, 35332); (7549, 7549, 1, 3814); (7566, 7566, 1, 35384);
  (7681, 7829, 2, -1); (7835, 7835, 1, -59); (7841, 7935, 2, -1);
  (7936, 7943, 1, 8); (7952, 7957, 1, 8); (7968, 7975, 1, 8);
  (7984, 7991, 1, 8); (8000, 8005, 1, 8); (8017, 8023, 2, 8);
  (8032, 8039, 1, 8); (8048, 8049, 1, 74); (8050, 8053, 1, 86);
  (8054, 8055, 1, 100); (8056, 8057, 1, 128); (8058, 8059, 1, 112);
  (8060, 8061, 1, 126); (8112, 8113, 1, 8); (8126, 8126, 1, -7205);
  (8144, 8145, 1, 8); (8160, 8161, 1, 8); (8165, 8165, 1, 7);
  (8526, 8526, 1, -28); (8560, 8575, 1, -16); (8580, 8580, 1, -1);
  (9424, 9449, 1, -26); (11312, 11359, 1, -48); (11361, 11361, 1, -1);
  (11365, 11365, 1, -10795); (11366, 11366, 1, -10792); (11368, 11372, 2, -1);
  (11379, 11379, 1, -1); (11382, 11382, 1, -1); (11393, 11491, 2, -1);
  (11500, 11502, 2, -1); (11507, 11507, 1, -1); (11520, 11557, 1, -7264);
  (11559, 11559, 1, -7264); (11565, 11565, 1, -7264); (42561, 42605, 2, -1);
  (42625, 42651, 2, -1); (42787, 42799, 2, -1); (42803, 42863, 2, -1);
  (42874, 42876, 2, -1); (42879, 42887, 2, -1); (42892, 42892, 1, -1);
  (42897, 42899, 2, -1); (42900, 42900, 1, 48); (42903, 42921, 2, -1);
  (42933, 42947, 2, -1); (42952, 42954, 2, -1); (42961, 42961, 1, -1);
  (42967, 42969, 2, -1); (42998, 42998, 1, -1); (43859, 43859, 1, -928);
  (43888, 43967, 1, -38864); (65345, 65370, 1, -32); (66600, 66639, 1, -40);
  (66776, 66811, 1, -40); (66967, 67003, 2, -39); (66968, 66976, 2, -39);
  (66980, 66992, 2, -39); (66996, 67000, 2, -39); (67004, 67004, 1, -39);
  (68800, 68850, 1, -64); (71872, 71903, 1, -32); (93792, 93823, 1, -32);
  (125218, 125251, 1, -34)
].

(** Upper case, one code point to several: U+00DF gives SS, U+FB01 FI, ... *)
Definition upperCaseSpecial : list (Z * list Z) := [
  (223, [83; 83]); (329, [700; 78]); (496, [74; 780]); (912, [921; 776; 769]);
  (944, [933; 776; 769]); (1415, [1333; 1362]); (7830, [72; 817]);
  (7831, [84; 776]); (7832, [87; 778]); (7833, [89; 778]); (7834, [65; 702]);
  (8016, [933; 787]); (8018, [933; 787; 768]); (8020, [933; 787; 769]);
  (8022, [933; 787; 834]); (8064, [7944; 921]); (8065, [7945; 921]);
  (8066, [7946; 921]); (8067, [7947; 921]); (8068, [7948; 921]);
  (8069, [7949; 921]); (8070, [7950; 921]); (8071, [7951; 921]);
  (8072, [7944; 921]); (8073, [7945; 921]); (8074, [7946; 921]);
  (8075, [7947; 921]); (8076, [7948; 921]); (8077, [7949; 921]);
  (8078, [7950; 921]); (8079, [7951; 921]); (8080, [7976; 921]);
  (8081, [7977; 921]); (8082, [7978; 921]); (8083, [7979; 921]);
  (8084, [7980; 921]); (8085, [7981; 921]); (8086, [7982; 921]);
  (8087, [7983; 921]); (8088, [7976; 921]); (8089, [7977; 921]);
  (8090, [7978; 921]); (8091, [7979; 921]); (8092, [7980; 921]);
  (8093, [7981; 921]); (8094, [7982; 921]); (8095, [7983; 921]);
  (8096, [8040; 921]); (8097, [8041; 921]); (8098, [8042; 921]);
  (8099, [8043; 921]); (8100, [8044; 921]); (8101, [8045; 921]);
  (8102, [8046; 921]); (8103, [8047; 921]); (8104, [8040; 921]);
  (8105, [8041; 921]); (8106, [8042; 921]); (8107, [8043; 921]);
  (8108, [8044; 921]); (8109, [8045; 921]); (8110, [8046; 921]);
  (8111, [8047; 921]); (8114, [8122; 921]); (8115, [913; 921]);
  (8116, [902; 921]); (8118, [913; 834]); (8119, [913; 834; 921]);
  (8124, [913; 921]); (8130, [8138; 921]); (8131, [919; 921]);
  (8132, [905; 921]); (8134, [919; 834]); (8135, [919; 834; 921]);
  (8140, [919; 921]); (8146, [921; 776; 768]); (8147, [921; 776; 769]);
  (8150, [921; 834]); (8151, [921; 776; 834]); (8162, [933; 776; 768]);
  (8163, [933; 776; 769]); (8164, [929; 787]); (8166, [933; 834]);
  (8167, [933; 776; 834]); (8178, [8186; 921]); (8179, [937; 921]);
  (8180, [911; 921]); (8182, [937; 834]); (8183, [937; 834; 921]);
  (8188, [937; 921]); (64256, [70; 70]); (64257, [70; 73]); (64258, [70; 76]);
  (64259, [70; 70; 73]); (64260, [70; 70; 76]); (64261, [83; 84]);
  (64262, [83; 84]); (64275, [1348; 1350]); (64276, [1348; 1333]);
  (64277, [1348; 1339]); (64278, [1358; 1350]); (64279, [1348; 1341])
].

(** Lower case, one code point to one. *)
Definition lowerCaseRuns : list (Z * Z * Z * Z) := [
  (192, 214, 1, 32); (216, 222, 1, 32); (256, 302, 2, 1); (306, 310, 2, 1);
  (313, 327, 2, 1); (330, 374, 2, 1); (376, 376, 1, -121); (377, 381, 2, 1);
  (385, 385, 1, 210); (386, 388, 2, 1); (390, 390, 1, 206); (391, 391, 1, 1);
  (393, 394, 1, 205); (395, 395, 1, 1); (398, 398, 1, 79); (399, 399, 1, 202);
  (400, 400, 1, 203); (401, 401, 1, 1); (403, 403, 1, 205);
  (404, 404, 1, 207); (406, 406, 1, 211); (407, 407, 1, 209);
  (408, 408, 1, 1); (412, 412, 1, 211); (413, 413, 1, 213);
  (415, 415, 1, 214); (416, 420, 2, 1); (422, 422, 1, 218); (423, 423, 1, 1);
  (425, 425, 1, 218); (428, 428, 1, 1); (430, 430, 1, 218); (431, 431, 1, 1);
  (433, 434, 1, 217); (435, 437, 2, 1); (439, 439, 1, 219); (440, 440, 1, 1);
  (444, 444, 1, 1); (452, 452, 1, 2); (453, 453, 1, 1); (455, 455, 1, 2);
  (456, 456, 1, 1); (458, 458, 1, 2); (459, 475, 2, 1); (478, 494, 2, 1);
  (497, 497, 1, 2); (498, 500, 2, 1); (502, 502, 1, -97); (503, 503, 1, -56);
  (504, 542, 2, 1); (544, 544, 1, -130); (546, 562, 2, 1);
  (570, 570, 1, 10795); (571, 571, 1, 1); (573, 573, 1, -163);
  (574, 574, 1, 10792); (577, 577, 1, 1); (579, 579, 1, -195);
  (580, 580, 1, 69); (581, 581, 1, 71); (582, 590, 2, 1); (880, 882, 2, 1);
  (886, 886, 1, 1); (895, 895, 1, 116); (902, 902, 1, 38); (904, 906, 1, 37);
  (908, 908, 1, 64); (910, 911, 1, 63); (913, 929, 1, 32); (931, 939, 1, 32);
  (975, 975, 1, 8); (984, 1006, 2, 1); (1012, 1012, 1, -60);
  (1015, 1015, 1, 1); (1017, 1017, 1, -7); (1018, 1018, 1, 1);
  (1021, 1023, 1, -130); (1024, 1039, 1, 80); (1040, 1071, 1, 32);
  (1120, 1152, 2, 1); (1162, 1214, 2, 1); (1216, 1216, 1, 15);
  (1217, 1229, 2, 1); (1232, 1326, 2, 1); (1329, 1366, 1, 48);
  (4256, 4293, 1, 7264); (4295, 4295, 1, 7264); (4301, 4301, 1, 7264);
  (5024, 5103, 1, 38864); (5104, 5109, 1, 8); (7312, 7354, 1, -3008);
  (7357, 7359, 1, -3008); (7680, 7828, 2, 1); (7838, 7838, 1, -7615);
  (7840, 7934, 2, 1); (7944, 7951, 1, -8); (7960, 7965, 1, -8);
  (7976, 7983, 1, -8); (7992, 7999, 1, -8); (8008, 8013, 1, -8);
  (8025, 8031, 2, -8); (8040, 8047, 1, -8); (8072, 8079, 1, -8);
  (8088, 8095, 1, -8); (8104, 8111, 1, -8); (8120, 8121, 1, -8);
  (8122, 8123, 1, -74); (8124, 8124, 1, -9); (8136, 8139, 1, -86);
  (8140, 8140, 1, -9); (8152, 8153, 1, -8); (8154, 8155, 1, -100);
  (8168, 8169, 1, -8); (8170, 8171, 1, -112); (8172, 8172, 1, -7);
  (8184, 8185, 1, -128); (8186, 8187, 1, -126); (8188, 8188, 1, -9);
  (8486, 8486, 1, -7517); (8490, 8490, 1, -8383); (8491, 8491, 1, -8262);
  (8498, 8498, 1, 28); (8544, 8559, 1, 16); (8579, 8579, 1, 1);
  (9398, 9423, 1, 26); (11264, 11311, 1, 48); (11360, 11360, 1, 1);
  (11362, 11362, 1, -10743); (11363, 11363, 1, -3814);
  (11364, 11364, 1, -10727); (11367, 11371, 2, 1); (11373, 11373, 1, -10780);
  (11374, 11374, 1, -10749); (11375, 11375, 1, -10783);
  (11376, 11376, 1, -10782); (11378, 11378, 1, 1); (11381, 11381, 1, 1);
  (11390, 11391, 1, -10815); (11392, 11490, 2, 1); (11499, 11501, 2, 1);
  (11506, 11506, 1, 1); (42560, 42604, 2, 1); (42624, 42650, 2, 1);
  (42786, 42798, 2, 1); (42802, 42862, 2, 1); (42873, 42875, 2, 1);
  (42877, 42877, 1, -35332); (42878, 42886, 2, 1); (42891, 42891, 1, 1);
  (42893, 42893, 1, -42280); (42896, 42898, 2, 1); (42902, 42920, 2, 1);
  (42922, 42922, 1, -42308); (42923, 42923, 1, -42319);
  (42924, 42924, 1, -42315); (42925, 42925, 1, -42305);
  (42926, 42926, 1, -42308); (42928, 42928, 1, -42258);
  (42929, 42929, 1, -42282); (42930, 42930, 1, -42261);
  (42931, 42931, 1, 928); (42932, 42946, 2, 1); (42948, 42948, 1, -48);
  (42949, 42949, 1, -42307); (42950, 42950, 1, -35384); (42951, 42953, 2, 1);
  (42960, 42960, 1, 1); (42966, 42968, 2, 1); (42997, 42997, 1, 1);
  (65313, 65338, 1, 32); (66560, 66599, 1, 40); (66736, 66771, 1, 40);
  (66928, 66964, 2, 39); (66929, 66937, 2, 39); (66941, 66953, 2, 39);
  (66957, 66961, 2, 39); (66965, 66965, 1, 39); (68736, 68786, 1, 64);
  (71840, 71871, 1, 32); (93760, 93791, 1, 32); (125184, 125217, 1, 34)
].

(** Lower case, one code point to several: U+0130 gives i and U+0307. *)
Definition lowerCaseSpecial : list (Z * list Z) := [
  (304, [105; 775])
].

(** The ranges of the code points with the property Case_Ignorable. *)
Definition caseIgnorable : list (Z * Z) := [
  (39, 39); (46, 46); (58, 58); (94, 94); (96, 96); (168, 168); (173, 173);
  (175, 175); (180, 180); (183, 184); (688, 879); (884, 885); (890, 890);
  (900, 901); (903, 903); (1155, 1161); (1369, 1369); (1375, 1375);
  (1425, 1469); (1471, 1471); (1473, 1474); (1476, 1477); (1479, 1479);
  (1524, 1524); (1536, 1541); (1552, 1562); (1564, 1564); (1600, 1600);
  (1611, 1631); (1648, 1648); (1750, 1757); (1759, 1768); (1770, 1773);
  (1807, 1807); (1809, 1809); (1840, 1866); (1958, 1968); (2027, 2037);
  (2042, 2042); (2045, 2045); (2070, 2093); (2137, 2139); (2184, 2184);
  (2192, 2193); (2200, 2207); (2249, 2306); (2362, 2362); (2364, 2364);
  (2369, 2376); (2381, 2381); (2385, 2391); (2402, 2403); (2417, 2417);
  (2433, 2433); (2492, 2492); (2497, 2500); (2509, 2509); (2530, 2531);
  (2558, 2558); (2561, 2562); (2620, 2620); (2625, 2626); (2631, 2632);
  (2635, 2637); (2641, 2641); (2672, 2673); (2677, 2677); (2689, 2690);
  (2748, 2748); (2753, 2757); (2759, 2760); (2765, 2765); (2786, 2787);
  (2810, 2815); (2817, 2817); (2876, 2876); (2879, 2879); (2881, 2884);
  (2893, 2893); (2901, 2902); (2914, 2915); (2946, 2946); (3008, 3008);
  (3021, 3021); (3072, 3072); (3076, 3076); (3132, 3132); (3134, 3136);
  (3142, 3144); (3146, 3149); (3157, 3158); (3170, 3171); (3201, 3201);
  (3260, 3260); (3263, 3263); (3270, 3270); (3276, 3277); (3298, 3299);
  (3328, 3329); (3387, 3388); (3393, 3396); (3405, 3405); (3426, 3427);
  (3457, 3457); (3530, 3530); (3538, 3540); (3542, 3542); (3633, 3633);
  (3636, 3642); (3654, 3662); (3761, 3761); (3764, 3772); (3782, 3782);
  (3784, 3789); (3864, 3865); (3893, 3893); (3895, 3895); (3897, 3897);
  (3953, 3966); (3968, 3972); (3974, 3975); (3981, 3991); (3993, 4028);
  (4038, 4038); (4141, 4144); (4146, 4151); (4153, 4154); (4157, 4158);
  (4184, 4185); (4190, 4192); (4209, 4212); (4226, 4226); (4229, 4230);
  (4237, 4237); (4253, 4253); (4348, 4348); (4957, 4959); (5906, 5908);
  (5938, 5939); (5970, 5971); (6002, 6003); (6068, 6069); (6071, 6077);
  (6086, 6086); (6089, 6099); (6103, 6103); (6109, 6109); (6155, 6159);
  (6211, 6211); (6277, 6278); (6313, 6313); (6432, 6434); (6439, 6440);
  (6450, 6450); (6457, 6459); (6679, 6680); (6683, 6683); (6742, 6742);
  (6744, 6750); (6752, 6752); (6754, 6754); (6757, 6764); (6771, 6780);
  (6783, 6783); (6823, 6823); (6832, 6862); (6912, 6915); (6964, 6964);
  (6966, 6970); (6972, 6972); (6978, 6978); (7019, 7027); (7040, 7041);
  (7074, 7077); (7080, 7081); (7083, 7085); (7142, 7142); (7144, 7145);
  (7149, 7149); (7151, 7153); (7212, 7219); (7222, 7223); (7288, 7293);
  (7376, 7378); (7380, 7392); (7394, 7400); (7405, 7405); (7412, 7412);
  (7416, 7417); (7468, 7530); (7544, 7544); (7579, 7679); (8125, 8125);
  (8127, 8129); (8141, 8143); (8157, 8159); (8173, 8175); (8189, 8190);
  (8203, 8207); (8216, 8217); (8228, 8228); (8231, 8231); (8234, 8238);
  (8288, 8292); (8294, 8303); (8305, 8305); (8319, 8319); (8336, 8348);
  (8400, 8432); (11388, 11389); (11503, 11505); (11631, 11631);
  (11647, 11647); (11744, 11775); (11823, 11823); (12293, 12293);
  (12330, 12333); (12337, 12341); (12347, 12347); (12441, 12446);
  (12540, 12542); (40981, 40981); (42232, 42237); (42508, 42508);
  (42607, 42610); (42612, 42621); (42623, 42623); (42652, 42655);
  (42736, 42737); (42752, 42785); (42864, 42864); (42888, 42890);
  (42994, 42996); (43000, 43001); (43010, 43010); (43014, 43014);
  (43019, 43019); (43045, 43046); (43052, 43052); (43204, 43205);
  (43232, 43249); (43263, 43263); (43302, 43309); (43335, 43345);
  (43392, 43394); (43443, 43443); (43446, 43449); (43452, 43453);
  (43471, 43471); (43493, 43494); (43561, 43566); (43569, 43570);
  (43573, 43574); (43587, 43587); (43596, 43596); (43632, 43632);
  (43644, 43644); (43696, 43696); (43698, 43700); (43703, 43704);
  (43710, 43711); (43713, 43713); (43741, 43741); (43756, 43757);
  (43763, 43764); (43766, 43766); (43867, 43871); (43881, 43883);
  (44005, 44005); (44008, 44008); (44013, 44013); (64286, 64286);
  (64434, 64450); (65024, 65039); (65043, 65043); (65056, 65071);
  (65106, 65106); (65109, 65109); (65279, 65279); (65287, 65287);
  (65294, 65294); (65306, 65306); (65342, 65342); (65344, 65344);
  (65392, 65392); (65438, 65439); (65507, 65507); (65529, 65531);
  (66045, 66045); (66272, 66272); (66422, 66426); (67456, 67461);
  (67463, 67504); (67506, 67514); (68097, 68099); (68101, 68102);
  (68108, 68111); (68152, 68154); (68159, 68159); (68325, 68326);
  (68900, 68903); (69291, 69292); (69446, 69456); (69506, 69509);
  (69633, 69633); (69688, 69702); (69744, 69744); (69747, 69748);
  (69759, 69761); (69811, 69814); (69817, 69818); (69821, 69821);
  (69826, 69826); (69837, 69837); (69888, 69890); (69927, 69931);
  (69933, 69940); (70003, 70003); (70016, 70017); (70070, 70078);
  (70089, 70092); (70095, 70095); (70191, 70193); (70196, 70196);
  (70198, 70199); (70206, 70206); (70367, 70367); (70371, 70378);
  (70400, 70401); (70459, 70460); (70464, 70464); (70502, 70508);
  (70512, 70516); (70712, 70719); (70722, 70724); (70726, 70726);
  (70750, 70750); (70835, 70840); (70842, 70842); (70847, 70848);
  (70850, 70851); (71090, 71093); (71100, 71101); (71103, 71104);
  (71132, 71133); (71219, 71226); (71229, 71229); (71231, 71232);
  (71339, 71339); (71341, 71341); (71344, 71349); (71351, 71351);
  (71453, 71455); (71458, 71461); (71463, 71467); (71727, 71735);
  (71737, 71738); (71995, 71996); (71998, 71998); (72003, 72003);
  (72148, 72151); (72154, 72155); (72160, 72160); (72193, 72202);
  (72243, 72248); (72251, 72254); (72263, 72263); (72273, 72278);
  (72281, 72283); (72330, 72342); (72344, 72345); (72752, 72758);
  (72760, 72765); (72767, 72767); (72850, 72871); (72874, 72880);
  (72882, 72883); (72885, 72886); (73009, 73014); (73018, 73018);
  (73020, 73021); (73023, 73029); (73031, 73031); (73104, 73105);
  (73109, 73109); (73111, 73111); (73459, 73460); (78896, 78904);
  (92912, 92916); (92976, 92982); (92992, 92995); (94031, 94031);
  (94095, 94111); (94176, 94177); (94179, 94180); (110576, 110579);
  (110581, 110587); (110589, 110590); (113821, 113822); (113824, 113827);
  (118528, 118573); (118576, 118598); (119143, 119145); (119155, 119170);
  (119173, 119179); (119210, 119213); (119362, 119364); (121344, 121398);
  (121403, 121452); (121461, 121461); (121476, 121476); (121499, 121503);
  (121505, 121519); (122880, 122886); (122888, 122904); (122907, 122913);
  (122915, 122916); (122918, 122922); (123184, 123197); (123566, 123566);
  (123628, 123631); (125136, 125142); (125252, 125259); (127995, 127999);
  (917505, 917505); (917536, 917631); (917760, 917999)
].

(** The ranges of the code points that are Cased and not Case_Ignorable. *)
Definition casedLetters : list (Z * Z) := [
  (65, 90); (97, 122); (170, 170); (181, 181); (186, 186); (192, 214);
  (216, 246); (248, 442); (444, 447); (452, 659); (661, 687); (880, 883);
  (886, 887); (891, 893); (895, 895); (902, 902); (904, 906); (908, 908);
  (910, 929); (931, 1013); (1015, 1153); (1162, 1327); (1329, 1366);
  (1376, 1416); (4256, 4293); (4295, 4295); (4301, 4301); (4304, 4346);
  (4349, 4351); (5024, 5109); (5112, 5117); (7296, 7304); (7312, 7354);
  (7357, 7359); (7424, 7467); (7531, 7543); (7545, 7578); (7680, 7957);
  (7960, 7965); (7968, 8005); (8008, 8013); (8016, 8023); (8025, 8025);
  (8027, 8027); (8029, 8029); (8031, 8061); (8064, 8116); (8118, 8124);
  (8126, 8126); (8130, 8132); (8134, 8140); (8144, 8147); (8150, 8155);
  (8160, 8172); (8178, 8180); (8182, 8188); (8450, 8450); (8455, 8455);
  (8458, 8467); (8469, 8469); (8473, 8477); (8484, 8484); (8486, 8486);
  (8488, 8488); (8490, 8493); (8495, 8500); (8505, 8505); (8508, 8511);
  (8517, 8521); (8526, 8526); (8544, 8575); (8579, 8580); (9398, 9449);
  (11264, 11387); (11390, 11492); (11499, 11502); (11506, 11507);
  (11520, 11557); (11559, 11559); (11565, 11565); (42560, 42605);
  (42624, 42651); (42786, 42863); (42865, 42887); (42891, 42894);
  (42896, 42954); (42960, 42961); (42963, 42963); (42965, 42969);
  (42997, 42998); (43002, 43002); (43824, 43866); (43872, 43880);
  (43888, 43967); (64256, 64262); (64275, 64279); (65313, 65338);
  (65345, 65370); (66560, 66639); (66736, 66771); (66776, 66811);
  (66928, 66938); (66940, 66954); (66956, 66962); (66964, 66965);
  (66967, 66977); (66979, 66993); (66995, 67001); (67003, 67004);
  (68736, 68786); (68800, 68850); (71840, 71903); (93760, 93823);
  (119808, 119892); (119894, 119964); (119966, 119967); (119970, 119970);
  (119973, 119974); (119977, 119980); (119982, 119993); (119995, 119995);
  (119997, 120003); (120005, 120069); (120071, 120074); (120077, 120084);
  (120086, 120092); (120094, 120121); (120123, 120126); (120128, 120132);
  (120134, 120134); (120138, 120144); (120146, 120485); (120488, 120512);
  (120514, 120538); (120540, 120570); (120572, 120596); (120598, 120628);
  (120630, 120654); (120656, 120686); (120688, 120712); (120714, 120744);
  (120746, 120770); (120772, 120779); (122624, 122633); (122635, 122654);
  (125184, 125251); (127280, 127305); (127312, 127337); (127344, 127369)
].

End Unicode.

(** ** Script strings *)

Module Js.

Abbreviation jsstring := (list Z).

(** The code units of an ASCII literal. *)
Definition js (s : string) : jsstring :=
  List.map (fun a => Z.of_N (N_of_ascii a)) (list_ascii_of_string s).
Arguments js s%_string.

Fixpoint jsstring_eqb (a b : jsstring) : bool :=
  match a, b with
  | [], [] => true
  | x :: a', y :: b' => (x =? y) && jsstring_eqb a' b'
  | _, _ => false
  end.

(** [String.prototype.trim] removes WhiteSpace and LineTerminator code
    units from both ends. *)
Definition isWhiteSpace (c : Z) : bool :=
  ((9 <=? c) && (c <=? 13)) || (c =? 32) || (c =? 160) || (c =? 5760)
  || ((8192 <=? c) && (c <=? 8202)) || (c =? 8232) || (c =? 8233)
  || (c =? 8239) || (c =? 8287) || (c =? 12288) || (c =? 65279).

Fixpoint trimStart (s : jsstring) : jsstring :=
  match s with
  | c :: s' => if isWhiteSpace c then trimStart s' else s
  | [] => []
  end.

Definition trimEnd (s : jsstring) : jsstring := rev (trimStart (rev s)).

Definition trim (s : jsstring) : jsstring := trimEnd (trimStart s).

Definition isUpperAZ (c : Z) : bool := (65 <=? c) && (c <=? 90).
Definition isLowerAZ (c : Z) : bool := (97 <=? c) && (c <=? 122).

(** The code points of a string: a high surrogate followed by a low one is
    one code point, any other code unit is a code point of its own. *)
Definition isHighSurrogate (c : Z) : bool := (55296 <=? c) && (c <=? 56319).
Definition isLowSurrogate (c : Z) : bool := (56320 <=? c) && (c <=? 57343).

Fixpoint codePoints (s : jsstring) : list Z :=
  match s with
  | [] => []
  | c :: s' =>
      match s' with
      | d :: s'' =>
          if isHighSurrogate c && isLowSurrogate d
          then (65536 + (c - 55296) * 1024 + (d - 56320)) :: codePoints s''
          else c :: codePoints s'
      | [] => [c]
      end
  end.

Definition codeUnits (cp : Z) : jsstring :=
  if cp <? 65536 then [cp]
  else [55296 + (cp - 65536) / 1024; 56320 + (cp - 65536) mod 1024].

Definition upperCasePoint (cp : Z) : list Z :=
  if cp <? 128 then [if isLowerAZ cp then cp - 32 else cp]
  else Unicode.mapped Unicode.upperCaseRuns Unicode.upperCaseSpecial cp.

Definition lowerCasePoint (cp : Z) : list Z :=
  if cp <? 128 then [if isUpperAZ cp then cp + 32 else cp]
  else Unicode.mapped Unicode.lowerCaseRuns Unicode.lowerCaseSpecial cp.

(** [s.toUpperCase()]: every code point is replaced by its upper case,
    which can be several code points. *)
Definition toUpperCase (s : jsstring) : jsstring :=
  flat_map codeUnits (flat_map upperCasePoint (codePoints s)).

(** Skipping case-ignorable code points, the next one is a cased letter. *)
Fixpoint casedLetterNext (points : list Z) : bool :=
  match points with
  | [] => false
  | cp :: rest =>
      if Unicode.inRanges Unicode.caseIgnorable cp then casedLetterNext rest
      else Unicode.inRanges Unicode.casedLetters cp
  end.

(** [before] holds the code points already converted, the nearest first.
    A capital sigma (U+03A3) after a cased letter and not before one becomes
    the final sigma (U+03C2). *)
Fixpoint lowerCasePoints (before points : list Z) : list Z :=
  match points with
  | [] => []
  | cp :: rest =>
      (if (cp =? 931) && casedLetterNext before && negb (casedLetterNext rest)
       then [962] else lowerCasePoint cp)
      ++ lowerCasePoints (cp :: before) rest
  end.

(** [s.toLowerCase()] *)
Definition toLowerCase (s : jsstring) : jsstring :=
  flat_map codeUnits (lowerCasePoints [] (codePoints s)).

(** [s.charAt(0)]: the first code unit as a string, or the empty string. *)
Definition charAt0 (s : jsstring) : jsstring :=
  match s with c :: _ => [c] | [] => [] end.

(** [array.join(sep)] on an array of strings. *)
Fixpoint join (sep : jsstring) (l : list jsstring) : jsstring :=
  match l with
  | [] => []
  | [x] => x
  | x :: rest => x ++ sep ++ join sep rest
  end.

(** [s.split(c)] for a separator of one code unit; the accumulator holds
    the piece being read, reversed. *)
Fixpoint splitAcc (c : Z) (piece : jsstring) (s : jsstring) : list jsstring :=
  match s with
  | [] => [rev piece]
  | x :: s' =>
      if x =? c then rev piece :: splitAcc c [] s'
      else splitAcc c (x :: piece) s'
  end.

Definition split (c : Z) (s : jsstring) : list jsstring := splitAcc c [] s.

(** [s.split('')]: one string per code unit. *)
Definition chars (s : jsstring) : list jsstring := List.map (fun c => [c]) s.

Fixpoint startsWith (p s : jsstring) : bool :=
  match p, s with
  | [], _ => true
  | x :: p', y :: s' => (x =? y) && startsWith p' s'
  | _ :: _, [] => false
  end.

Definition endsWith (p s : jsstring) : bool := startsWith (rev p) (rev s).

(** Decimal digits, most significant first. *)
Fixpoint digitsOf (d : Decimal.uint) : jsstring :=
  match d with
  | Decimal.Nil => []
  | Decimal.D0 d' => 48 :: digitsOf d'
  | Decimal.D1 d' => 49 :: digitsOf d'
  | Decimal.D2 d' => 50 :: digitsOf d'
  | Decimal.D3 d' => 51 :: digitsOf d'
  | Decimal.D4 d' => 52 :: digitsOf d'
  | Decimal.D5 d' => 53 :: digitsOf d'
  | Decimal.D6 d' => 54 :: digitsOf d'
  | Decimal.D7 d' => 55 :: digitsOf d'
  | Decimal.D8 d' => 56 :: digitsOf d'
  | Decimal.D9 d' => 57 :: digitsOf d'
  end.

(** [String(n)] for an integer [n]. *)
Definition toStringZ (n : Z) : jsstring :=
  match n with
  | Z0 => [48]
  | Zpos p => digitsOf (Pos.to_uint p)
  | Zneg p => 45 :: digitsOf (Pos.to_uint p)
  end.

(** [Number(d)] for a one-digit string [d]. *)
Definition numberOfDigit (d : jsstring) : Z :=
  match d with
  | [c] => c - 48
  | _ => 0
  end.

(** The integer [n] with [toFixed(f)] applied to a value [x >= 0]:
    the integer nearest to [x * 10^f], the larger one on a tie. *)
Definition fixedUnits (f : nat) (x : Q) : Z :=
  Qfloor (x * inject_Z (10 ^ Z.of_nat f) + (1 # 2)).

(** The last [f] decimal digits of [n], zero padded. *)
Fixpoint fractionDigits (f : nat) (n : Z) : jsstring :=
  match f with
  | O => []
  | S f' => fractionDigits f' (n / 10) ++ [48 + n mod 10]
  end.

(** [x.toFixed(f)] for [f >= 1]: a negative [x] is formatted as its
    absolute value behind a minus sign. *)
Definition toFixed (f : nat) (x : Q) : jsstring :=
  let n := fixedUnits f (Qabs x) in
  (if Qlt_le_dec x 0 then [45] else [])
  ++ toStringZ (n / 10 ^ Z.of_nat f) ++ [46] ++ fractionDigits f n.

(** [Math.round(x)] is [floor(x + 0.5)]. *)
Definition mathRound (x : Q) : Z := Qfloor (x + (1 # 2)).

End Js.
Import Js.

(** ** 32-bit integer operators *)

Module Int32.

Definition toUint32 (x : Z) : Z := x mod 2 ^ 32.

Definition toInt32 (x : Z) : Z :=
  let u := x mod 2 ^ 32 in
  if u <? 2 ^ 31 then u else u - 2 ^ 32.

(** [Math.imul(a, b)] *)
Definition imul (a b : Z) : Z := toInt32 (toInt32 a * toInt32 b).

(** [a ^ b] *)
Definition xor (a b : Z) : Z := toInt32 (Z.lxor (toInt32 a) (toInt32 b)).

(** [a | b] *)
Definition or (a b : Z) : Z := toInt32 (Z.lor (toInt32 a) (toInt32 b)).

(** [a << n] *)
Definition shl (a n : Z) : Z := toInt32 (Z.shiftl (toInt32 a) (n mod 32)).

(** [a >>> n]: the result is an unsigned 32-bit number. *)
Definition ushr (a n : Z) : Z := Z.shiftr (toUint32 a) (n mod 32).

End Int32.

(** ** The seeded pseudo-random source *)

Section Prng.

(** One round of the seed loop of [createDeterministicRandom_]:
    [h = Math.imul(h ^ seed.charCodeAt(i), 3432918353);
     h = (h << 13) | (h >>> 19)]. *)
Definition mixSeedUnit (h c : Z) : Z :=
  let h1 := Int32.imul (Int32.xor h c) 3432918353 in
  Int32.or (Int32.shl h1 13) (Int32.ushr h1 19).

(** The value of [h] when [createDeterministicRandom_(seed)] returns. *)
Definition seedState (seed : jsstring) : Z :=
  fold_left mixSeedUnit seed (Int32.xor 1779033703 (Z.of_nat (length seed))).

(** The three assignments to [h] made by one call of the closure. *)
Definition advance (h : Z) : Z :=
  let h1 := Int32.imul (Int32.xor h (Int32.ushr h 16)) 2246822507 in
  let h2 := Int32.imul (Int32.xor h1 (Int32.ushr h1 13)) 3266489909 in
  Int32.xor h2 (Int32.ushr h2 16).

(** [(h >>> 0) / 4294967296] *)
Definition output (h : Z) : Q := Int32.ushr h 0 # 4294967296.

(** One call of the closure, on the value of its captured [h]. *)
Definition random (h : Z) : Q * Z := (output (advance h), advance h).

(** The first [n] values of a closure whose captured variable holds [h]. *)
Fixpoint draws (n : nat) (h : Z) : list Q :=
  match n with
  | O => []
  | S n' => let (v, h') := random h in v :: draws n' h'
  end.

(** Closures live in a store: entry [g] is the captured [h] of the
    closure with reference [g].  [createDeterministicRandom_] allocates a
    new entry; calling a closure rewrites its own entry only. *)
Abbreviation closures := (list Z).

Definition createDeterministicRandom_ (seed : jsstring) (σ : closures)
  : nat * closures :=
  (length σ, σ ++ [seedState seed]).

Definition callRandom (g : nat) (σ : closures) : Q * closures :=
  match σ !! g with
  | Some h => let (v, h') := random h in (v, <[g := h']> σ)
  | None => (0%Q, σ)
  end.

(** A run in which two closures are called in an arbitrary interleaving:
    [true] calls the first, [false] the second.  The result is what each
    of them returned, in call order. *)
Fixpoint interleave (sched : list bool) (g1 g2 : nat) (σ : closures)
  : list Q * list Q :=
  match sched with
  | [] => ([], [])
  | true :: sched' =>
      let (v, σ') := callRandom g1 σ in
      let (r1, r2) := interleave sched' g1 g2 σ' in (v :: r1, r2)
  | false :: sched' =>
      let (v, σ') := callRandom g2 σ in
      let (r1, r2) := interleave sched' g1 g2 σ' in (r1, v :: r2)
  end.

End Prng.

(** ** Values that may be missing *)

(** What an array read, a property read or [randomPick_] can give: a value,
    [null] or [undefined]. *)
Inductive slot (A : Type) : Type :=
| Value (a : A)
| Null
| Undefined.
Arguments Value {A} a.
Arguments Null {A}.
Arguments Undefined {A}.

(** A slot in a string concatenation: [x + ' ...']. *)
Definition textOf (x : slot jsstring) : jsstring :=
  match x with
  | Value s => s
  | Null => js "null"
  | Undefined => js "undefined"
  end.

(** A slot as an element of [array.join(sep)]: [null] and [undefined] give
    the empty string. *)
Definition joinText (x : slot jsstring) : jsstring :=
  match x with
  | Value s => s
  | Null | Undefined => []
  end.

(** [array[i]] for a number [i] that is an integer. *)
Definition at_ {A : Type} (l : list A) (i : Z) : slot A :=
  if i <? 0 then Undefined
  else match l !! Z.to_nat i with
       | Some a => Value a
       | None => Undefined
       end.

(** [x || fallback] for a slot holding a non-empty string or an array. *)
Definition orElse {A : Type} (x : slot A) (fallback : A) : A :=
  match x with
  | Value a => a
  | Null | Undefined => fallback
  end.

(** ** Selection utilities *)

Section Selection.

Context {St A : Type}.

(** The [random] argument: any function with state. *)
Variable random : St -> Q * St.

(** [Math.floor(random() * n)] *)
Definition drawIndex (n : nat) (s : St) : Z * St :=
  let (r, s') := random s in
  (Qfloor (r * inject_Z (Z.of_nat n)), s').

(** [randomPick_(random, collection)]: [null] for an empty collection,
    without a draw. *)
Definition randomPick_ (collection : list A) (s : St) : slot A * St :=
  match collection with
  | [] => (Null, s)
  | _ :: _ =>
      let (index, s') := drawIndex (length collection) s in
      (at_ collection index, s')
  end.

(** [available.splice(index, 1)[0]] and what is left of [available].  A
    negative index counts from the end; an index past the end removes
    nothing and the read gives [undefined]. *)
Definition spliceOne (available : list A) (index : Z) : slot A * list A :=
  let len := Z.of_nat (length available) in
  let start := if index <? 0 then Z.max (len + index) 0 else Z.min index len in
  match available !! Z.to_nat start with
  | Some a => (Value a, delete (Z.to_nat start) available)
  | None => (Undefined, available)
  end.

(** The loop of [buildUniqueSelection_], by the number of elements still
    wanted, [count - selection.length]; the result is what the loop pushes,
    in order. *)
Fixpoint selectionLoop (wanted : nat) (available : list A) (s : St)
  : list (slot A) * St :=
  match wanted, available with
  | O, _ => ([], s)
  | _, [] => ([], s)
  | S wanted', _ :: _ =>
      let (index, s1) := drawIndex (length available) s in
      let (picked, available') := spliceOne available index in
      let (rest, s2) := selectionLoop wanted' available' s1 in
      (picked :: rest, s2)
  end.

Definition buildUniqueSelection_ (options : list A) (count : Z) (s : St)
  : list (slot A) * St :=
  selectionLoop (Z.to_nat count) options s.

End Selection.

(** ** Dates

    A [Date] is its time value, milliseconds since the epoch.  The script's
    time zone is taken to be UTC, so local fields are the UTC fields. *)

Module JsDate.

Definition msPerDay : Z := 1000 * 60 * 60 * 24.

(** Day number of the civil date [y]-[m]-[d], [m] in 1..12; [d] may run
    past the end of the month. *)
Definition daysFromCivil (y m d : Z) : Z :=
  let y' := if m <=? 2 then y - 1 else y in
  let era := y' / 400 in
  let yoe := y' - era * 400 in
  let mp := if 2 <? m then m - 3 else m + 9 in
  let doy := (153 * mp + 2) / 5 + d - 1 in
  let doe := yoe * 365 + yoe / 4 - yoe / 100 + doy in
  era * 146097 + doe - 719468.

(** The civil date (year, month in 1..12, day) of a day number. *)
Definition civilFromDays (z : Z) : Z * Z * Z :=
  let z' := z + 719468 in
  let era := z' / 146097 in
  let doe := z' - era * 146097 in
  let yoe := (doe - doe / 1460 + doe / 36524 - doe / 146096) / 365 in
  let doy := doe - (365 * yoe + yoe / 4 - yoe / 100) in
  let mp := (5 * doy + 2) / 153 in
  let d := doy - (153 * mp + 2) / 5 + 1 in
  let m := if mp <? 10 then mp + 3 else mp - 9 in
  let y := yoe + era * 400 in
  (if m <=? 2 then y + 1 else y, m, d).

(** [new Date(year, monthIndex, day)]: years 0..99 mean 1900..1999, and a
    month index outside 0..11 carries into the year. *)
Definition newDate (year monthIndex day : Z) : Z :=
  let year' := if (0 <=? year) && (year <=? 99) then 1900 + year else year in
  let y := year' + monthIndex / 12 in
  let m := monthIndex mod 12 + 1 in
  daysFromCivil y m day * msPerDay.

Definition getFullYear (t : Z) : Z := fst (fst (civilFromDays (t / msPerDay))).

(** [getMonth()] is zero-based. *)
Definition getMonth (t : Z) : Z := snd (fst (civilFromDays (t / msPerDay))) - 1.

Definition getDate (t : Z) : Z := snd (civilFromDays (t / msPerDay)).

End JsDate.

(** ** Context builder *)

(** [Number(s)] for a string of decimal digits. *)
Definition numberOfDigits (s : jsstring) : Z :=
  fold_left (fun acc c => acc * 10 + (c - 48)) s 0.

Record ZodiacProfile : Type := {
  sign : jsstring;
  start : jsstring;
  end_ : jsstring;
  element : jsstring;
  signatureSpirit : jsstring;
  accentNotes : list jsstring;
  garnishes : list jsstring
}.

Definition profiles : list ZodiacProfile := [
  {| sign := js "Capricorn"; start := js "12-22"; end_ := js "01-19";
     element := js "Earth"; signatureSpirit := js "smoky scotch";
     accentNotes := [js "black walnut"; js "roasted barley"; js "cocoa bitters"];
     garnishes := [js "candied ginger"; js "charred rosemary"] |};
  {| sign := js "Aquarius"; start := js "01-20"; end_ := js "02-18";
     element := js "Air"; signatureSpirit := js "aquavit";
     accentNotes := [js "violet liqueur"; js "sparkling sake"; js "blue citrus"];
     garnishes := [js "edible flower constellation"; js "citrus spiral"] |};
  {| sign := js "Pisces"; start := js "02-19"; end_ := js "03-20";
     element := js "Water"; signatureSpirit := js "silver rum";
     accentNotes := [js "elderflower"; js "sea-salt caramel"; js "cucumber essence"];
     garnishes := [js "lotus petal"; js "sea mist"] |};
  {| sign := js "Aries"; start := js "03-21"; end_ := js "04-19";
     element := js "Fire"; signatureSpirit := js "pepper tequila";
     accentNotes := [js "ancho chile"; js "blood orange"; js "ginger fire"];
     garnishes := [js "flamed citrus peel"; js "piment" ++ [243] ++ js "n rim"] |};
  {| sign := js "Taurus"; start := js "04-20"; end_ := js "05-20";
     element := js "Earth"; signatureSpirit := js "bourbon";
     accentNotes := [js "vanilla bean"; js "toasted pecan"; js "fig syrup"];
     garnishes := [js "cocoa-dusted leaf"; js "torched thyme"] |};
  {| sign := js "Gemini"; start := js "05-21"; end_ := js "06-20";
     element := js "Air"; signatureSpirit := js "gin";
     accentNotes := [js "citrus mist"; js "white tea"; js "champagne cordial"];
     garnishes := [js "lemon twist"; js "sugar shard"] |};
  {| sign := js "Cancer"; start := js "06-21"; end_ := js "07-22";
     element := js "Water"; signatureSpirit := js "dark rum";
     accentNotes := [js "coconut cream"; js "hibiscus"; js "molasses"];
     garnishes := [js "tropical flower"; js "toasted coconut"] |};
  {| sign := js "Leo"; start := js "07-23"; end_ := js "08-22";
     element := js "Fire"; signatureSpirit := js "spiced rum";
     accentNotes := [js "passionfruit"; js "saffron honey"; js "cinnamon blaze"];
     garnishes := [js "golden mango fan"; js "sparkler sugar rim"] |};
  {| sign := js "Virgo"; start := js "08-23"; end_ := js "09-22";
     element := js "Earth"; signatureSpirit := js "herbal vermouth";
     accentNotes := [js "green apple"; js "sage dew"; js "white pepper"];
     garnishes := [js "apple ribbon"; js "sage leaf"] |};
  {| sign := js "Libra"; start := js "09-23"; end_ := js "10-22";
     element := js "Air"; signatureSpirit := js "sparkling ros" ++ [233];
     accentNotes := [js "lavender"; js "pink peppercorn"; js "pear nectar"];
     garnishes := [js "rose petal"; js "sugar lace"] |};
  {| sign := js "Scorpio"; start := js "10-23"; end_ := js "11-21";
     element := js "Water"; signatureSpirit := js "mezcal";
     accentNotes := [js "blackberry smoke"; js "cocoa nib"; js "charred citrus"];
     garnishes := [js "obsidian salt rim"; js "cocoa mist"] |};
  {| sign := js "Sagittarius"; start := js "11-22"; end_ := js "12-21";
     element := js "Fire"; signatureSpirit := js "rye whiskey";
     accentNotes := [js "spiced maple"; js "cranberry flame"; js "ginger snap"];
     garnishes := [js "sparked cinnamon stick"; js "dried orange wheel"] |}
].

(** [new Date(2000, Number(parts[0]) - 1, Number(parts[1]))] for
    [parts = text.split('-')]. *)
Definition boundaryDate (text : jsstring) : Z :=
  let parts := split 45 text in
  JsDate.newDate 2000
    (numberOfDigits (orElse (at_ parts 0) []) - 1)
    (numberOfDigits (orElse (at_ parts 1) [])).

(** The test made on one profile in the loop of [getZodiacProfile_]. *)
Definition profileMatches (target : Z) (profile : ZodiacProfile) : bool :=
  let startDate := boundaryDate (start profile) in
  let endDate := boundaryDate (end_ profile) in
  if startDate <=? endDate
  then (startDate <=? target) && (target <=? endDate)
  else (startDate <=? target) || (target <=? endDate).

Definition capricorn : ZodiacProfile := nth 0 profiles
  {| sign := []; start := []; end_ := []; element := [];
     signatureSpirit := []; accentNotes := []; garnishes := [] |}.

Definition getZodiacProfile_ (month day : Z) : ZodiacProfile :=
  let target := JsDate.newDate 2000 (month - 1) day in
  match List.find (profileMatches target) profiles with
  | Some profile => profile
  | None => capricorn
  end.

(** The sum accumulated by the [for] loop of [computeNumerologyValue_]. *)
Definition letterTotal (sanitized : jsstring) : Z :=
  fold_left (fun total c => total + (c - 64)) sanitized 0.

(** [total.toString().split('').reduce((acc, digit) => acc + Number(digit), 0)] *)
Definition digitSum (total : Z) : Z :=
  fold_left (fun acc digit => acc + numberOfDigit digit) (chars (toStringZ total)) 0.

(** The [while (total > 9)] loop, with a bound on the number of rounds. *)
Fixpoint reduceTotal (rounds : nat) (total : Z) : Z :=
  match rounds with
  | O => total
  | S rounds' =>
      if 9 <? total then reduceTotal rounds' (digitSum total) else total
  end.

Definition computeNumerologyValue_ (text : jsstring) : Z :=
  let sanitized := List.filter isUpperAZ (toUpperCase text) in
  let total := letterTotal sanitized in
  Z.max 1 (reduceTotal (Z.to_nat total) total).

Inductive Lineage : Type :=
| italian | irish | spanish | japanese | french | nordic | default_.

Definition lineageTag (l : Lineage) : jsstring :=
  match l with
  | italian => js "italian"
  | irish => js "irish"
  | spanish => js "spanish"
  | japanese => js "japanese"
  | french => js "french"
  | nordic => js "nordic"
  | default_ => js "default"
  end.

Definition inferLineage_ (lastName : jsstring) : Lineage :=
  let lower := toLowerCase lastName in
  if endsWith (js "ini") lower || endsWith (js "one") lower
     || endsWith (js "etti") lower then italian
  else if startsWith (js "o'") lower || startsWith (js "mc") lower
     || startsWith (js "mac") lower || endsWith (js "han") lower then irish
  else if endsWith (js "ez") lower || endsWith (js "es") lower
     || endsWith (js "ado") lower || endsWith (js "illo") lower then spanish
  else if jsstring_eqb lower (js "ito") || jsstring_eqb lower (js "shi")
     || endsWith (js "moto") lower || endsWith (js "sato") lower
     || endsWith (js "-san") lower then japanese
  else if endsWith (js "eau") lower || endsWith (js "ette") lower
     || endsWith (js "mont") lower || endsWith (js "eux") lower then french
  else if endsWith (js "sen") lower || endsWith (js "son") lower
     || endsWith (js "gaard") lower || endsWith (js "strom") lower then nordic
  else default_.

Inductive Season : Type := winter | spring | summer | autumn.

Definition seasonName (s : Season) : jsstring :=
  match s with
  | winter => js "winter"
  | spring => js "spring"
  | summer => js "summer"
  | autumn => js "autumn"
  end.

Definition inferBirthSeason_ (month : Z) : Season :=
  if (month =? 12) || (month =? 1) || (month =? 2) then winter
  else if (month =? 3) || (month =? 4) || (month =? 5) then spring
  else if (month =? 6) || (month =? 7) || (month =? 8) then summer
  else autumn.

(** ** Errors *)

(** [Thrown m] is [new Error(m)]; [TypeError] is the engine's error for a
    property read on [null] or [undefined] and for an object that cannot be
    converted to a string. *)
Inductive error : Type :=
| Thrown (message : jsstring)
| TypeError.

Inductive result (A : Type) : Type :=
| Ok (a : A)
| Err (e : error).
Arguments Ok {A} a.
Arguments Err {A} e.

(** Evaluation in sequence: the first exception ends it. *)
Definition bind {A B : Type} (r : result A) (k : A -> result B) : result B :=
  match r with
  | Ok a => k a
  | Err e => Err e
  end.

Notation "x <- r ;; k" := (bind r (fun x => k))
  (at level 100, r at next level, right associativity).

Section Traverse.

Context {A B : Type} (f : A -> result B).

(** [array.map(f)] with a callback that can throw. *)
Fixpoint traverse (l : list A) : result (list B) :=
  match l with
  | [] => Ok []
  | a :: l' => b <- f a ;; rest <- traverse l' ;; Ok (b :: rest)
  end.

End Traverse.

(** ** Requests and contexts *)

(** A property read [object[key]] on an object literal: an own property,
    a member inherited from [Object.prototype], or [undefined]. *)
Inductive property : Type :=
| Own (text : jsstring)
| Inherited (name : jsstring)
| Missing.

Definition truthyProperty (p : property) : bool :=
  match p with
  | Own text => negb (jsstring_eqb text [])
  | Inherited _ => true
  | Missing => false
  end.

(** The text of a property value in a concatenation.  The inherited
    members are functions named as the key, but for [constructor], which is
    the function [Object], and [__proto__], which is the object
    [Object.prototype]. *)
Definition propertyText (p : property) : jsstring :=
  match p with
  | Own text => text
  | Inherited name =>
      if jsstring_eqb name (js "__proto__") then js "[object Object]"
      else if jsstring_eqb name (js "constructor")
      then js "function Object() { [native code] }"
      else js "function " ++ name ++ js "() { [native code] }"
  | Missing => js "undefined"
  end.

Definition objectPrototypeMembers : list jsstring := [
  js "constructor"; js "hasOwnProperty"; js "isPrototypeOf";
  js "propertyIsEnumerable"; js "toLocaleString"; js "toString";
  js "valueOf"; js "__proto__"; js "__defineGetter__";
  js "__defineSetter__"; js "__lookupGetter__"; js "__lookupSetter__"
].

(** Own properties of an object literal with string values. *)
Fixpoint ownProperty (table : list (jsstring * jsstring)) (key : jsstring)
  : option jsstring :=
  match table with
  | [] => None
  | (k, v) :: table' => if jsstring_eqb k key then Some v else ownProperty table' key
  end.

Definition readProperty (table : list (jsstring * jsstring)) (key : jsstring)
  : property :=
  match ownProperty table key with
  | Some v => Own v
  | None =>
      if existsb (jsstring_eqb key) objectPrototypeMembers
      then Inherited key else Missing
  end.

Definition GENERATOR_LABELS : list (jsstring * jsstring) := [
  (js "astro", js "Astrological Elixir Generator");
  (js "numerology", js "Name Numerology Mixer");
  (js "chrono", js "Birthday Chrono-Cocktail");
  (js "oracle", js "Personalized Palate Oracle");
  (js "dynasty", js "Dynastic Drink Dynasty")
].

Record Request : Type := {
  generatorKey : jsstring;
  birthMonth : Z;
  birthDay : Z;
  birthYear : Z;
  firstName : jsstring;
  lastName : jsstring
}.

(** The context object.  [ctx_random] is the value captured by the closure
    [context.random] when the context is built; the context holds the only
    reference to that closure. *)
Record Context : Type := {
  ctx_generatorKey : jsstring;
  ctx_generatorLabel : property;
  ctx_birthMonth : Z;
  ctx_birthDay : Z;
  ctx_birthYear : Z;
  ctx_firstName : jsstring;
  ctx_lastName : jsstring;
  ctx_zodiac : ZodiacProfile;
  ctx_numerology : Z;
  ctx_initials : jsstring;
  ctx_lineage : Lineage;
  ctx_random : Z;
  ctx_seed : jsstring
}.

Definition buildGenerationContext_ (request : Request) : Context :=
  let seed := join (js "|") [
    generatorKey request;
    toStringZ (birthMonth request);
    toStringZ (birthDay request);
    toStringZ (birthYear request);
    firstName request;
    lastName request ] in
  {| ctx_generatorKey := generatorKey request;
     ctx_generatorLabel := readProperty GENERATOR_LABELS (generatorKey request);
     ctx_birthMonth := birthMonth request;
     ctx_birthDay := birthDay request;
     ctx_birthYear := birthYear request;
     ctx_firstName := firstName request;
     ctx_lastName := lastName request;
     ctx_zodiac := getZodiacProfile_ (birthMonth request) (birthDay request);
     ctx_numerology :=
       computeNumerologyValue_ (firstName request ++ js " " ++ lastName request);
     ctx_initials :=
       toUpperCase (charAt0 (firstName request))
       ++ toUpperCase (charAt0 (lastName request));
     ctx_lineage := inferLineage_ (lastName request);
     ctx_random := seedState seed;
     ctx_seed := seed |}.

Record Blueprint : Type := {
  drinkName : jsstring;
  reason : jsstring;
  ingredients : list jsstring;
  instructions : list jsstring;
  compatibility : jsstring
}.

(** ** Generator table *)

Definition flavorProfiles : list (jsstring * jsstring) := [
  (js "A", js "amber agave warmth"); (js "B", js "botanical brightness");
  (js "C", js "citrus sparkle"); (js "D", js "dusky spice");
  (js "E", js "effervescent elegance"); (js "F", js "forest herb whisper");
  (js "G", js "ginger glow"); (js "H", js "honeyed harmony");
  (js "I", js "icy intrigue"); (js "J", js "juicy jubilance");
  (js "K", js "kaleidoscopic kick"); (js "L", js "lush luxe layers");
  (js "M", js "midnight mystique"); (js "N", js "nectar nuance");
  (js "O", js "opulent orange zest"); (js "P", js "plush petal softness");
  (js "Q", js "quartz-clear crispness"); (js "R", js "radiant rouge");
  (js "S", js "simmering sour starlight"); (js "T", js "twilight tonic");
  (js "U", js "utopian umami"); (js "V", js "velvet verdant vibes");
  (js "W", js "whispering woodland"); (js "X", js "xenial exotic energy");
  (js "Y", js "yonder citrus yawn"); (js "Z", js "zenithal zest")
].

(** [table[key] || fallback] for a table of non-empty strings and a key
    that names no member of [Object.prototype]. *)
Definition lookupOr (table : list (jsstring * jsstring)) (key fallback : jsstring)
  : jsstring :=
  match ownProperty table key with
  | Some v => v
  | None => fallback
  end.

Definition mixerOptions : list jsstring := [
  js "sparkling tonic"; js "hibiscus tea"; js "charred pineapple juice";
  js "lunar lychee nectar"; js "smoked maple water"
].

(** Generator 1.  [context.firstName[0].toUpperCase()] throws on an empty
    first name, after the draws have been made. *)
Definition generateAstrologicalElixir_ (context : Context) : result Blueprint :=
  let zodiac := ctx_zodiac context in
  let complexity :=
    Z.min 5 (Z.max 3 ((Z.of_nat (length (ctx_lastName context)) + 2) / 3)) in
  let baseSpirit := signatureSpirit zodiac in
  let '(accent, h1) := randomPick_ random (accentNotes zodiac) (ctx_random context) in
  let '(garnish, h2) := randomPick_ random (garnishes zodiac) h1 in
  let '(mixers, h3) := buildUniqueSelection_ random mixerOptions (complexity - 2) h2 in
  let ingredients :=
    [ baseSpirit ++ js " - 2 oz";
      textOf accent ++ js " liqueur - 0.75 oz" ]
    ++ List.map (fun item => textOf item ++ js " - 1 oz") mixers
    ++ [ textOf garnish ++ js " for garnish" ] in
  let '(r, _) := random h3 in
  let compatibilityScore := mathRound (78 + r * 20) in
  match ctx_firstName context with
  | [] => Err TypeError
  | c :: _ =>
      let reason :=
        js "The " ++ sign zodiac ++ js " constellation crowns you with "
        ++ element zodiac ++ js " energy, so your elixir leans on " ++ baseSpirit
        ++ js ". " ++ js "Your first initial invites "
        ++ lookupOr flavorProfiles (toUpperCase [c]) (js "stellar balance")
        ++ js ", while the length of the " ++ ctx_lastName context
        ++ js " lineage calls for " ++ toStringZ complexity ++ js " cosmic layers." in
      let instructions := [
        js "Stir the " ++ baseSpirit ++ js " and " ++ textOf accent
        ++ js " with ice to honor your celestial patience.";
        js "Cascade in " ++ join (js ", ") (List.map joinText mixers)
        ++ js " to echo the " ++ toLowerCase (element zodiac) ++ js " element.";
        js "Strain into a chilled coupe and float " ++ textOf garnish
        ++ js " as your guiding star." ] in
      Ok {| drinkName :=
              sign zodiac ++ js " Starfall "
              ++ toUpperCase (charAt0 (ctx_firstName context));
            reason := reason;
            ingredients := ingredients;
            instructions := instructions;
            compatibility :=
              js "Cosmic compatibility: " ++ toStringZ compatibilityScore ++ js "%" |}
  end.

(** [spiritMap[n] || 'artisan vodka'] *)
Definition spiritMap (n : Z) : jsstring :=
  if n =? 1 then js "crystal vodka"
  else if n =? 2 then js "botanical gin"
  else if n =? 3 then js "aged rum"
  else if n =? 4 then js "silky tequila"
  else if n =? 5 then js "smoked whisky"
  else if n =? 6 then js "velvet brandy"
  else if n =? 7 then js "sapphire gin"
  else if n =? 8 then js "amber bourbon"
  else if n =? 9 then js "elegant sake"
  else js "artisan vodka".

Definition randomGarnishes : list jsstring := [
  js "lucky starfruit twist"; js "destiny-dusted cocoa nibs";
  js "fortune basil crown"; js "prophecy orchid petal"
].

(** Generator 2.  [%] is the remainder that takes the sign of the dividend. *)
Definition generateNameNumerologyMixer_ (context : Context) : result Blueprint :=
  let numerology := ctx_numerology context in
  let baseSpirit := spiritMap numerology in
  let monthMeasure := Z.rem (ctx_birthMonth context) 3 + 1 in
  let dayMeasure := toFixed 1 (inject_Z (ctx_birthDay context) / 10) in
  let yearSeed := Z.rem (ctx_birthYear context) 100 in
  let '(garnish, h1) := randomPick_ random randomGarnishes (ctx_random context) in
  let reason :=
    js "Numerology total " ++ toStringZ numerology ++ js " aligns you with "
    ++ baseSpirit ++ js ", while your birth timing sets the measures to "
    ++ toStringZ monthMeasure ++ js " oz of inspiration and " ++ dayMeasure
    ++ js " oz of intuition. A birth-year seed of " ++ toStringZ yearSeed
    ++ js " sprinkles mystical garnish." in
  let '(r, _) := random h1 in
  let ingredients := [
    baseSpirit ++ js " - " ++ toStringZ monthMeasure ++ js " oz";
    js "illuminated citrus cordial - " ++ dayMeasure ++ js " oz";
    js "moonlit jasmine tea - " ++ toStringZ (1 + Z.rem yearSeed 3) ++ js " dashes";
    js "starlit honey syrup - " ++ toFixed 2 ((1 # 2) + r * (1 # 2)) ++ js " oz";
    textOf garnish ] in
  let instructions := [
    js "Combine " ++ baseSpirit
    ++ js ", citrus cordial, and jasmine tea over sacred crushed ice.";
    js "Whisper your life path number while stirring exactly "
    ++ toStringZ (numerology + 2) ++ js " times.";
    js "Strain into a chilled highball and finish with " ++ textOf garnish ++ js "." ] in
  Ok {| drinkName := js "Life Path Libation " ++ toStringZ numerology;
        reason := reason;
        ingredients := ingredients;
        instructions := instructions;
        compatibility :=
          js "Destined harmony: infuse for "
          ++ toStringZ (Z.rem (ctx_birthDay context) 5 + 2) ++ js " breaths." |}.

Definition initialsMapping : list (jsstring * jsstring) := [
  (js "A", js "almond and apricot spark"); (js "B", js "bourbon bark balance");
  (js "C", js "cacao and citrus pop"); (js "D", js "dragonfruit dynamism");
  (js "E", js "elderflower echo"); (js "F", js "fig and fennel warmth");
  (js "G", js "grapefruit glow"); (js "H", js "hibiscus hum");
  (js "I", js "iris ice intrigue"); (js "J", js "juniper jazz");
  (js "K", js "kumquat kick"); (js "L", js "lemongrass lift");
  (js "M", js "minted meteor trail"); (js "N", js "nutmeg nuance");
  (js "O", js "orchid opulence"); (js "P", js "peppercorn pulse");
  (js "Q", js "quince quickstep"); (js "R", js "rosewater radiance");
  (js "S", js "saffron spark"); (js "T", js "tamarind twist");
  (js "U", js "ume uplift"); (js "V", js "vermouth velvet");
  (js "W", js "walnut wonder"); (js "X", js "xocolatl excitement");
  (js "Y", js "yuzu yearn"); (js "Z", js "zest zenith")
].

Definition buildInitialsFlavor_ (initials : jsstring) : jsstring :=
  join (js " & ")
    (List.map (fun initial => lookupOr initialsMapping initial (js "starlit surprise"))
       (chars initials)).

Definition decadeSpiritMap : list jsstring := [
  js "yuzu shochu"; js "silver tequila"; js "barrel-aged gin"; js "rye whisky";
  js "caribbean rum"; js "cognac"; js "mezcal"; js "plum brandy"; js "aquavit";
  js "amarone vermouth"
].

Definition mixerMap : list jsstring := [
  js "crimson campari"; js "sakura syrup"; js "smoked pear nectar";
  js "coconut water"; js "charcoal tonic"; js "cacao cold brew";
  js "vermouth mist"; js "passionfruit cloud"
].

(** [Math.floor((today.getTime() - birthDate.getTime()) / (1000 * 60 * 60 * 24))] *)
Definition ageInDaysAt (context : Context) (today : Z) : Z :=
  let birthDate :=
    JsDate.newDate (ctx_birthYear context) (ctx_birthMonth context - 1)
      (ctx_birthDay context) in
  (today - birthDate) / JsDate.msPerDay.

(** Generator 3.  [today] is the value of [new Date()] when the generator
    runs. *)
Definition generateBirthdayChronoCocktail_ (context : Context) (today : Z)
  : result Blueprint :=
  let ageInDays := ageInDaysAt context today in
  let spiritIndex :=
    Z.min (Z.of_nat (length decadeSpiritMap) - 1) (ageInDays / 3650) in
  let spirit := textOf (at_ decadeSpiritMap spiritIndex) in
  let '(mixer, _) := randomPick_ random mixerMap (ctx_random context) in
  let mutationIndex :=
    Z.rem (JsDate.getMonth today + 1 + JsDate.getDate today)
      (Z.of_nat (length mixerMap)) in
  let mutation := textOf (at_ mixerMap mutationIndex) in
  let initialsFlavor := buildInitialsFlavor_ (ctx_initials context) in
  let reason :=
    js "A lifetime of " ++ toStringZ ageInDays
    ++ js " days seeds this chrono-cocktail. Your decade spirit is " ++ spirit
    ++ js ", initials spark " ++ initialsFlavor
    ++ js ", and today's temporal mutation invites a swap to " ++ mutation ++ js "." in
  let ingredients := [
    spirit ++ js " - 1.75 oz";
    textOf mixer ++ js " - 1 oz";
    mutation ++ js " - 0.5 oz (rebirth twist)";
    js "temporal bitters - " ++ toStringZ (Z.rem (ctx_birthDay context) 4 + 1)
    ++ js " dashes";
    js "evolving citrus zest mist" ] in
  let instructions := [
    js "Shake spirits and mixers with glacial cubes to honor the days gone by.";
    js "Double strain into a chilled rocks glass over a single sphere of ice.";
    js "Express the evolving zest and announce the rebirth variation aloud." ] in
  Ok {| drinkName := js "Chrono Cascade " ++ ctx_initials context;
        reason := reason;
        ingredients := ingredients;
        instructions := instructions;
        compatibility :=
          js "Evolves again in "
          ++ toStringZ (Z.rem (ctx_birthMonth context * ctx_birthDay context) 9 + 1)
          ++ js " days." |}.

Definition archetypes : list jsstring := [
  js "bold"; js "silken"; js "herbaceous"; js "radiant"; js "smoky";
  js "effervescent"
].

Definition seasonalIngredients (season : Season) : list jsstring :=
  match season with
  | winter => [js "frosted rosemary"; js "candied cranberry"; js "smoked vanilla"]
  | spring => [js "green strawberry"; js "basil blossom"; js "matcha honey"]
  | summer => [js "grilled mango"; js "coconut foam"; js "tamarind breeze"]
  | autumn => [js "caramelized fig"; js "sage syrup"; js "pecan spice dust"]
  end.

Definition baseSpirits : list jsstring := [
  js "white rum"; js "aged cacha" ++ [231] ++ js "a"; js "botanical aquavit";
  js "citrus gin"; js "rice vodka"
].

Definition pairings : list jsstring := [
  js "saffron brittle"; js "sea-salt dark chocolate"; js "citrus madeleine"
].

(** Generator 4. *)
Definition generatePersonalizedPalateOracle_ (context : Context) : result Blueprint :=
  let '(archetype, h1) := randomPick_ random archetypes (ctx_random context) in
  let season := inferBirthSeason_ (ctx_birthMonth context) in
  let ingredientSet := seasonalIngredients season in
  let '(baseSpirit, h2) := randomPick_ random baseSpirits h1 in
  let '(pairing, _) := randomPick_ random pairings h2 in
  let reason :=
    js "Oracle reading: the cadence of " ++ ctx_firstName context ++ js " "
    ++ ctx_lastName context ++ js " resonates as " ++ textOf archetype
    ++ js ". Birth season " ++ seasonName season ++ js " blesses you with "
    ++ join (js ", ") ingredientSet ++ js " and the name's rhythm chooses "
    ++ textOf baseSpirit ++ js "." in
  let ingredients := [
    textOf baseSpirit ++ js " - 2 oz";
    textOf (at_ ingredientSet 0) ++ js " puree - 1 oz";
    textOf (at_ ingredientSet 1) ++ js " cordial - 0.5 oz";
    textOf (at_ ingredientSet 2) ++ js " tincture - 3 drops";
    js "oracle foam - 1 scoop" ] in
  let instructions := [
    js "Dry shake all ingredients to awaken the oracle foam.";
    js "Add ice, shake vigorously, and strain into a stemmed glass.";
    js "Serve alongside " ++ textOf pairing ++ js " for harmonious alignment." ] in
  Ok {| drinkName :=
          js "Oracle Reverie " ++ toUpperCase (charAt0 (seasonName season));
        reason := reason;
        ingredients := ingredients;
        instructions := instructions;
        compatibility := js "Oracle pairing: " ++ textOf pairing |}.

(** [lineageBase[context.lineage] || lineageBase.default] *)
Definition lineageBase (lineage : Lineage) : list jsstring :=
  match lineage with
  | italian => [js "amaro"; js "lambrusco reduction"]
  | irish => [js "triple-distilled whiskey"; js "heather honey"]
  | spanish => [js "oloroso sherry"; js "blood orange cordial"]
  | japanese => [js "ume plum sake"; js "yuzu kosho syrup"]
  | french => [js "cognac"; js "lavender syrup"]
  | nordic => [js "aquavit"; js "cloudberry jam"]
  | default_ => [js "heritage rum"; js "spiced panela"]
  end.

Definition evolutionOptions : list jsstring := [
  js "Ancestor Edition"; js "Sibling Spin"; js "Heirloom Remix"; js "Legacy Lift"
].

(** Generator 5.  The measures [1.5 + spiceLevel * 0.1] and
    [1 + spiceLevel * 0.05] are whole hundredths, so [toFixed(2)] prints
    them as they are. *)
Definition generateDynasticDrinkDynasty_ (context : Context) : result Blueprint :=
  let baseSet := lineageBase (ctx_lineage context) in
  let ratioSeed :=
    Z.rem (ctx_birthMonth context * 100 + ctx_birthDay context) 10 in
  let spiceLevel := Z.rem ratioSeed 5 in
  let '(evolution, _) := randomPick_ random evolutionOptions (ctx_random context) in
  let reason :=
    js "Family lineage detected as " ++ lineageTag (ctx_lineage context)
    ++ js ", guiding the base to " ++ textOf (at_ baseSet 0)
    ++ js ". Birthday digits craft ratio seed " ++ toStringZ ratioSeed
    ++ js " and spice level " ++ toStringZ spiceLevel ++ js ", birthing the "
    ++ textOf evolution ++ js " branch." in
  let ingredients := [
    textOf (at_ baseSet 0) ++ js " - "
    ++ toFixed 2 ((3 # 2) + inject_Z spiceLevel * (1 # 10)) ++ js " oz";
    textOf (at_ baseSet 1) ++ js " - "
    ++ toFixed 2 (1 + inject_Z spiceLevel * (5 # 100)) ++ js " oz";
    js "ancestral spice tincture - " ++ toStringZ spiceLevel ++ js " drops";
    js "heritage citrus oil mist";
    js "lineage bitters - " ++ toStringZ (Z.rem ratioSeed 4 + 1) ++ js " shakes" ] in
  let instructions := [
    js "Build the dynasty layers over an engraved ice column.";
    js "Stir clockwise for the elders, counter-clockwise for new heirs.";
    js "Crown with heritage citrus oil and pronounce the " ++ textOf evolution
    ++ js " title." ] in
  Ok {| drinkName := ctx_lastName context ++ js " Dynasty Draught";
        reason := reason;
        ingredients := ingredients;
        instructions := instructions;
        compatibility := js "Spice lineage: level " ++ toStringZ spiceLevel |}.

(** A generator function: it is given the context and reads the clock
    through [today], the value [new Date()] has when it runs. *)
Definition Generator : Type := Context -> Z -> result Blueprint.

Definition getGeneratorByKey_ (key : jsstring) : result Generator :=
  if jsstring_eqb key (js "astro")
  then Ok (fun context _ => generateAstrologicalElixir_ context)
  else if jsstring_eqb key (js "numerology")
  then Ok (fun context _ => generateNameNumerologyMixer_ context)
  else if jsstring_eqb key (js "chrono")
  then Ok generateBirthdayChronoCocktail_
  else if jsstring_eqb key (js "oracle")
  then Ok (fun context _ => generatePersonalizedPalateOracle_ context)
  else if jsstring_eqb key (js "dynasty")
  then Ok (fun context _ => generateDynasticDrinkDynasty_ context)
  else Err (Thrown (js "Unsupported generator key: " ++ key)).

(** ** Values parsed from JSON *)

(** A number is kept as the two things the script observes of it: whether
    it is zero (the only falsy number [JSON.parse] can give) and the text
    [String] gives for it. *)
Record jsnumber : Type := {
  isZero : bool;
  numberText : jsstring
}.

Definition numberOfZ (n : Z) : jsnumber :=
  {| isZero := n =? 0; numberText := toStringZ n |}.

#[warnings="-register-all"]
Inductive json : Type :=
| JNull
| JBool (b : bool)
| JNumber (n : jsnumber)
| JString (s : jsstring)
| JArray (items : list json)
| JObject (members : list (jsstring * json)).

(** A value or [undefined]. *)
Abbreviation jsvalue := (option json).

Definition truthy (v : jsvalue) : bool :=
  match v with
  | None => false
  | Some JNull => false
  | Some (JBool b) => b
  | Some (JNumber n) => negb (isZero n)
  | Some (JString s) => negb (jsstring_eqb s [])
  | Some (JArray _) => true
  | Some (JObject _) => true
  end.

Fixpoint ownMember (members : list (jsstring * json)) (key : jsstring) : jsvalue :=
  match members with
  | [] => None
  | (k, v) :: members' => if jsstring_eqb k key then Some v else ownMember members' key
  end.

(** The keys the script reads. *)
Inductive key : Type :=
| k_choices | k_length | k_index0 | k_message | k_content
| k_drinkName | k_reason | k_ingredients | k_instructions | k_compatibility.

Definition keyName (k : key) : jsstring :=
  match k with
  | k_choices => js "choices"
  | k_length => js "length"
  | k_index0 => js "0"
  | k_message => js "message"
  | k_content => js "content"
  | k_drinkName => js "drinkName"
  | k_reason => js "reason"
  | k_ingredients => js "ingredients"
  | k_instructions => js "instructions"
  | k_compatibility => js "compatibility"
  end.

(** [v.k] or [v[0]]: a [TypeError] on [null] and [undefined]; strings and
    arrays have a length and a first element; no other key of the list above
    is found on a string, an array, a number or a boolean. *)
Definition getMember (v : jsvalue) (k : key) : result jsvalue :=
  match v with
  | None => Err TypeError
  | Some JNull => Err TypeError
  | Some (JObject members) => Ok (ownMember members (keyName k))
  | Some (JArray items) =>
      match k with
      | k_length => Ok (Some (JNumber (numberOfZ (Z.of_nat (length items)))))
      | k_index0 => Ok (List.head items)
      | _ => Ok None
      end
  | Some (JString s) =>
      match k with
      | k_length => Ok (Some (JNumber (numberOfZ (Z.of_nat (length s)))))
      | k_index0 => Ok (match s with c :: _ => Some (JString [c]) | [] => None end)
      | _ => Ok None
      end
  | Some (JBool _) | Some (JNumber _) => Ok None
  end.

(** [String(v)].  An array is printed as its elements joined by commas,
    with [null] printed as the empty string.  An object is printed by its
    [toString] method: the one of [Object.prototype] gives
    [[object Object]]; an object with a member of its own under that name
    has no such method, since no parsed value is a function, and no
    [valueOf] helps, so the conversion throws. *)
Fixpoint stringOf (v : json) : result jsstring :=
  match v with
  | JNull => Ok (js "null")
  | JBool true => Ok (js "true")
  | JBool false => Ok (js "false")
  | JNumber n => Ok (numberText n)
  | JString s => Ok s
  | JArray items =>
      pieces <- traverse
                  (fun item => match item with JNull => Ok [] | _ => stringOf item end)
                  items ;;
      Ok (join (js ",") pieces)
  | JObject members =>
      match ownMember members (js "toString") with
      | Some _ => Err TypeError
      | None => Ok (js "[object Object]")
      end
  end.

(** The message of the [TypeError] of a failed conversion. *)
Definition conversionMessage : jsstring :=
  js "Cannot convert object to primitive value".

(** ** Remote override *)

Definition buildOpenAiPrompt_ (request : Request) (context : Context) : jsstring :=
  let zodiac := ctx_zodiac context in
  let lines := [
    js "Create a cocktail concept inspired by the following individual details.";
    js "Generator label: " ++ propertyText (ctx_generatorLabel context) ++ js ".";
    js "Name: " ++ ctx_firstName context ++ js " " ++ ctx_lastName context ++ js ".";
    js "Birth date: " ++ toStringZ (birthMonth request) ++ js "/"
    ++ toStringZ (birthDay request) ++ js "/" ++ toStringZ (birthYear request)
    ++ js ".";
    js "Zodiac sign: " ++ sign zodiac ++ js " (" ++ element zodiac ++ js ").";
    js "Signature spirit: " ++ signatureSpirit zodiac ++ js ".";
    js "Accent notes: " ++ join (js ", ") (accentNotes zodiac) ++ js ".";
    js "Garnish inspirations: " ++ join (js ", ") (garnishes zodiac) ++ js ".";
    js "Numerology value: " ++ toStringZ (ctx_numerology context) ++ js ".";
    js "Lineage inspiration: " ++ lineageTag (ctx_lineage context) ++ js ".";
    js "Deterministic seed: " ++ ctx_seed context ++ js ".";
    js "Provide ingredients and instructions that can be executed at home.";
    js "Compatibility should be a friendly string summarizing why the drink suits the recipient."
  ] in
  join [10] lines.

(** [blueprint && blueprint.k]: a falsy [blueprint] is the value of the
    conjunction; a truthy one is not [null], so the read cannot throw. *)
Definition guardedMember (blueprint : json) (k : key) : jsvalue :=
  if truthy (Some blueprint)
  then match getMember (Some blueprint) k with
       | Ok v => v
       | Err _ => None
       end
  else Some blueprint.

(** [String(v).trim()] *)
Definition trimmedString (v : json) : result jsstring :=
  text <- stringOf v ;; Ok (trim text).

(** [blueprint && blueprint.k ? String(blueprint.k).trim() : fallback] *)
Definition textField (blueprint : json) (k : key) (fallback : jsstring)
  : result jsstring :=
  match guardedMember blueprint k with
  | Some v => if truthy (Some v) then trimmedString v else Ok fallback
  | None => Ok fallback
  end.

(** [Array.isArray(blueprint && blueprint.k)
      ? blueprint.k.map(entry => String(entry).trim()) : []] *)
Definition listField (blueprint : json) (k : key) : result (list jsstring) :=
  match guardedMember blueprint k with
  | Some (JArray items) => traverse trimmedString items
  | _ => Ok []
  end.

(** The five fields are computed in this order; the first conversion that
    throws ends the call. *)
Definition normalizeOpenAiBlueprint_ (blueprint : json) (context : Context)
  : result Blueprint :=
  drinkName <- textField blueprint k_drinkName
                 (ctx_firstName context ++ js " Signature Sip") ;;
  reason <- textField blueprint k_reason
              (js "A bespoke creation blending celestial and personal motifs.") ;;
  ingredients <- listField blueprint k_ingredients ;;
  instructions <- listField blueprint k_instructions ;;
  compatibility <- textField blueprint k_compatibility
                     (js "Tailored compatibility insight unavailable.") ;;
  Ok {| drinkName := drinkName;
        reason := reason;
        ingredients := ingredients;
        instructions := instructions;
        compatibility := compatibility |}.

(** What is outside the script. *)
Record HttpResponse : Type := {
  status : Z;
  bodyText : jsstring
}.

Record Env : Type := {
  (** [new Date()] as read by the validation, by the generator and by the
      persistence step of one request *)
  validationTime : Z;
  generationTime : Z;
  persistTime : Z;
  (** [Utilities.getUuid()] *)
  uuid : jsstring;
  (** [getProperty('OPENAI_API_KEY')]: it may throw, give [null] or a text *)
  openAiKeyProperty : result (slot jsstring);
  (** [UrlFetchApp.fetch] with the given key and prompt: it throws or
      gives a response *)
  fetch : jsstring -> jsstring -> result HttpResponse;
  (** [JSON.parse]: a value, or the message of the error it throws *)
  parse : jsstring -> json + jsstring
}.

Definition getOpenAiApiKey_ (env : Env) : slot jsstring :=
  match openAiKeyProperty env with
  | Ok property =>
      let value := trim (orElse property []) in
      match value with
      | [] => Null
      | _ :: _ => Value value
      end
  | Err _ => Null
  end.

(** The end of [generateDrinkWithOpenAI_]: [JSON.parse(content)] in its
    [try], which converts a content that is not a string to a string
    first, and the normalisation of what it gives. *)
Definition parseContent (env : Env) (content : json) (context : Context)
  : result Blueprint :=
  match stringOf content with
  | Err _ =>
      Err (Thrown (js "OpenAI message content is not valid JSON: "
                   ++ conversionMessage))
  | Ok text =>
      match parse env text with
      | inr message =>
          Err (Thrown (js "OpenAI message content is not valid JSON: " ++ message))
      | inl parsed => normalizeOpenAiBlueprint_ parsed context
      end
  end.

Definition generateDrinkWithOpenAI_ (env : Env) (request : Request)
  (context : Context) (apiKey : jsstring) : result Blueprint :=
  let prompt := buildOpenAiPrompt_ request context in
  match fetch env apiKey prompt with
  | Err e => Err e
  | Ok httpResponse =>
      let status := status httpResponse in
      let bodyText := bodyText httpResponse in
      if (status <? 200) || (300 <=? status)
      then Err (Thrown (js "OpenAI API returned status " ++ toStringZ status
                        ++ js ": " ++ bodyText))
      else
        match parse env bodyText with
        | inr message =>
            Err (Thrown (js "Failed to parse OpenAI response JSON: " ++ message))
        | inl responseObject =>
            match getMember (Some responseObject) k_choices with
            | Err e => Err e
            | Ok choices =>
                if negb (truthy choices)
                   || negb (truthy (match getMember choices k_length with
                                    | Ok l => l
                                    | Err _ => None
                                    end))
                then Err (Thrown (js "OpenAI response missing choices array."))
                else
                  match getMember choices k_index0 with
                  | Err e => Err e
                  | Ok first =>
                      match getMember first k_message with
                      | Err e => Err e
                      | Ok message =>
                          let content :=
                            if truthy message
                            then match getMember message k_content with
                                 | Ok c => c
                                 | Err _ => None
                                 end
                            else message in
                          match content with
                          | Some c =>
                              if truthy content
                              then parseContent env c context
                              else Err (Thrown (js "OpenAI response missing message content."))
                          | None =>
                              Err (Thrown (js "OpenAI response missing message content."))
                          end
                      end
                  end
            end
        end
  end.

(** ** Spreadsheet store

    The store is the data rows of the two sheets, below their header rows.
    [ensureSpreadsheetStructure_] creates a missing sheet with its header
    row and never touches a data row, so it is the identity here.  A cell
    holds the value that was written to it, a vote count is an integer, and
    a range of zero rows, which [registerVote] asks for on a sheet without
    data rows, has no values. *)

Record Row : Type := {
  row_drinkId : jsstring;
  row_timestamp : Z;
  row_generatorKey : jsstring;
  row_generatorLabel : property;
  row_firstName : jsstring;
  row_lastName : jsstring;
  row_birthMonth : Z;
  row_birthDay : Z;
  row_birthYear : Z;
  row_reason : jsstring;
  row_drinkName : jsstring;
  row_ingredients : jsstring;
  row_instructions : jsstring;
  row_compatibility : jsstring;
  row_voteCount : Z
}.

Record AuditRow : Type := {
  audit_timestamp : Z;
  audit_drinkId : jsstring;
  audit_previousVotes : Z;
  audit_newVotes : Z;
  audit_action : jsstring
}.

Record Store : Type := {
  primarySheet : list Row;
  votesSheet : list AuditRow
}.

Definition ensureSpreadsheetStructure_ (store : Store) : Store := store.

(** The bullet, U+2022. *)
Definition bullet : Z := 8226.

Record Persisted : Type := {
  p_drinkId : jsstring;
  p_drinkName : jsstring;
  p_reason : jsstring;
  p_ingredients : list jsstring;
  p_instructions : list jsstring;
  p_compatibility : jsstring;
  p_generatorLabel : property;
  p_voteCount : Z
}.

Definition persistBlueprint_ (env : Env) (request : Request) (blueprint : Blueprint)
  (store : Store) : Persisted * Store :=
  let drinkId := uuid env in
  let timestamp := persistTime env in
  let ingredientsCell := join (js " " ++ [bullet] ++ js " ") (ingredients blueprint) in
  let instructionsCell := join (js " " ++ [bullet] ++ js " ") (instructions blueprint) in
  let row :=
    {| row_drinkId := drinkId;
       row_timestamp := timestamp;
       row_generatorKey := generatorKey request;
       row_generatorLabel := readProperty GENERATOR_LABELS (generatorKey request);
       row_firstName := firstName request;
       row_lastName := lastName request;
       row_birthMonth := birthMonth request;
       row_birthDay := birthDay request;
       row_birthYear := birthYear request;
       row_reason := reason blueprint;
       row_drinkName := drinkName blueprint;
       row_ingredients := ingredientsCell;
       row_instructions := instructionsCell;
       row_compatibility := compatibility blueprint;
       row_voteCount := 0 |} in
  ({| p_drinkId := drinkId;
      p_drinkName := drinkName blueprint;
      p_reason := reason blueprint;
      p_ingredients := ingredients blueprint;
      p_instructions := instructions blueprint;
      p_compatibility := compatibility blueprint;
      p_generatorLabel := readProperty GENERATOR_LABELS (generatorKey request);
      p_voteCount := 0 |},
   {| primarySheet := primarySheet store ++ [row];
      votesSheet := votesSheet store |}).

Record StoredDrink : Type := {
  drink_drinkId : jsstring;
  drink_timestamp : Z;
  drink_generatorKey : jsstring;
  drink_generatorLabel : property;
  drink_firstName : jsstring;
  drink_lastName : jsstring;
  drink_birthMonth : Z;
  drink_birthDay : Z;
  drink_birthYear : Z;
  drink_reason : jsstring;
  drink_drinkName : jsstring;
  drink_ingredients : list jsstring;
  drink_instructions : list jsstring;
  drink_compatibility : jsstring;
  drink_voteCount : Z
}.

(** [cell ? cell.split('•').map(entry => entry.trim()) : []] *)
Definition readLines (cell : jsstring) : list jsstring :=
  match cell with
  | [] => []
  | _ :: _ => List.map trim (split bullet cell)
  end.

Definition drinkOfRow (row : Row) : StoredDrink :=
  {| drink_drinkId := row_drinkId row;
     drink_timestamp := row_timestamp row;
     drink_generatorKey := row_generatorKey row;
     drink_generatorLabel := row_generatorLabel row;
     drink_firstName := row_firstName row;
     drink_lastName := row_lastName row;
     drink_birthMonth := row_birthMonth row;
     drink_birthDay := row_birthDay row;
     drink_birthYear := row_birthYear row;
     drink_reason := row_reason row;
     drink_drinkName := row_drinkName row;
     drink_ingredients := readLines (row_ingredients row);
     drink_instructions := readLines (row_instructions row);
     drink_compatibility := row_compatibility row;
     drink_voteCount := row_voteCount row |}.

Definition getStoredDrinks (store : Store) : list StoredDrink * Store :=
  let store := ensureSpreadsheetStructure_ store in
  (List.map drinkOfRow (primarySheet store), store).

(** The [for] loop of [registerVote]: the index of the first row whose
    identifier is [drinkId], and that row's vote count. *)
Fixpoint findVotes (values : list Row) (drinkId : jsstring) (i : nat)
  : option (nat * Z) :=
  match values with
  | [] => None
  | row :: values' =>
      if jsstring_eqb (row_drinkId row) drinkId
      then Some (i, row_voteCount row)
      else findVotes values' drinkId (S i)
  end.

Definition setVoteCount (newVotes : Z) (row : Row) : Row :=
  {| row_drinkId := row_drinkId row;
     row_timestamp := row_timestamp row;
     row_generatorKey := row_generatorKey row;
     row_generatorLabel := row_generatorLabel row;
     row_firstName := row_firstName row;
     row_lastName := row_lastName row;
     row_birthMonth := row_birthMonth row;
     row_birthDay := row_birthDay row;
     row_birthYear := row_birthYear row;
     row_reason := row_reason row;
     row_drinkName := row_drinkName row;
     row_ingredients := row_ingredients row;
     row_instructions := row_instructions row;
     row_compatibility := row_compatibility row;
     row_voteCount := newVotes |}.

Record VoteResult : Type := {
  vote_drinkId : jsstring;
  vote_voteCount : Z
}.

(** [registerVote(drinkId)], run at the instant [now]. *)
Definition registerVote (now : Z) (drinkId : jsstring) (store : Store)
  : result VoteResult * Store :=
  let store := ensureSpreadsheetStructure_ store in
  match drinkId with
  | [] =>
      (Err (Thrown (js "A valid drink identifier is required to register a vote.")),
       store)
  | _ :: _ =>
      match findVotes (primarySheet store) drinkId 0 with
      | None => (Err (Thrown (js "The requested drink could not be located.")), store)
      | Some (index, currentVotes) =>
          let newVotes := currentVotes + 1 in
          (Ok {| vote_drinkId := drinkId; vote_voteCount := newVotes |},
           {| primarySheet := alter (setVoteCount newVotes) index (primarySheet store);
              votesSheet :=
                votesSheet store
                ++ [ {| audit_timestamp := now;
                        audit_drinkId := drinkId;
                        audit_previousVotes := currentVotes;
                        audit_newVotes := newVotes;
                        audit_action := js "increment" |} ] |})
      end
  end.

(** ** Request validation *)

(** [Number(v)] as the checks see it: an integer, or a number that
    [Number.isInteger] refuses (a fraction, [NaN], an infinity). *)
Inductive jsnum : Type :=
| Integer (n : Z)
| NotInteger.

(** The fields of a payload after the coercions applied at the head of the
    validation: [String(v || '')] for the texts, [Number(v)] for the
    numbers. *)
Record Payload : Type := {
  payload_generatorKey : jsstring;
  payload_birthMonth : jsnum;
  payload_birthDay : jsnum;
  payload_birthYear : jsnum;
  payload_firstName : jsstring;
  payload_lastName : jsstring
}.

(** [!Number.isInteger(n) || n < lo || n > hi] *)
Definition outside (n : jsnum) (lo hi : Z) : bool :=
  match n with
  | Integer n => (n <? lo) || (hi <? n)
  | NotInteger => true
  end.

Definition integerValue (n : jsnum) : Z :=
  match n with
  | Integer n => n
  | NotInteger => 0
  end.

(** [sanitizeGenerationRequest_(payload)]; [None] is a missing payload and
    [now] the value of [new Date()] at the year check. *)
Definition sanitizeGenerationRequest_ (now : Z) (payload : option Payload)
  : result Request :=
  match payload with
  | None => Err (Thrown (js "Generation payload is missing."))
  | Some payload =>
      let generatorKey := trim (payload_generatorKey payload) in
      if negb (truthyProperty (readProperty GENERATOR_LABELS generatorKey))
      then Err (Thrown (js "An unsupported generator was selected."))
      else
        let birthMonth := payload_birthMonth payload in
        let birthDay := payload_birthDay payload in
        let birthYear := payload_birthYear payload in
        if outside birthMonth 1 12
        then Err (Thrown (js "Birth month must be an integer between 1 and 12."))
        else if outside birthDay 1 31
        then Err (Thrown (js "Birth day must be an integer between 1 and 31."))
        else if outside birthYear 1900 (JsDate.getFullYear now)
        then Err (Thrown (js "Birth year is invalid or not provided."))
        else
          let firstName := trim (payload_firstName payload) in
          let lastName := trim (payload_lastName payload) in
          match firstName, lastName with
          | _ :: _, _ :: _ =>
              Ok {| generatorKey := generatorKey;
                    birthMonth := integerValue birthMonth;
                    birthDay := integerValue birthDay;
                    birthYear := integerValue birthYear;
                    firstName := firstName;
                    lastName := lastName |}
          | _, _ =>
              Err (Thrown
                     (js "First name and last name are required for drink generation."))
          end
  end.

(** ** Boundary handler *)

Definition generateDrink (env : Env) (payload : option Payload) (store : Store)
  : result Persisted * Store :=
  let store := ensureSpreadsheetStructure_ store in
  match sanitizeGenerationRequest_ (validationTime env) payload with
  | Err e => (Err e, store)
  | Ok request =>
      let context := buildGenerationContext_ request in
      match getGeneratorByKey_ (generatorKey request) with
      | Err e => (Err e, store)
      | Ok generator =>
          let remote :=
            match getOpenAiApiKey_ env with
            | Value openAiKey =>
                match generateDrinkWithOpenAI_ env request context openAiKey with
                | Ok blueprint => Some blueprint
                | Err _ => None
                end
            | Null | Undefined => None
            end in
          let generated :=
            match remote with
            | Some blueprint => Ok blueprint
            | None => generator context (generationTime env)
            end in
          match generated with
          | Err e => (Err e, store)
          | Ok blueprint =>
              let (persisted, store') := persistBlueprint_ env request blueprint store in
              (Ok persisted, store')
          end
      end
  end.

(** * Vocabulary of the statements

    Readings of the specification to compare the script with, and sample
    values. *)

(** ** Keys and sample values *)

(** The five recognised generator keys. *)
Definition recognizedKeys : list jsstring :=
  [js "astro"; js "numerology"; js "chrono"; js "oracle"; js "dynasty"].

Definition isRecognizedKey (key : jsstring) : bool :=
  existsb (jsstring_eqb key) recognizedKeys.

(** 2 November 2026, 10:00. *)
Definition sampleNow : Z := JsDate.newDate 2026 10 2 + 36000000.

Definition samplePayload (key : jsstring) : Payload :=
  {| payload_generatorKey := key;
     payload_birthMonth := Integer 6;
     payload_birthDay := Integer 15;
     payload_birthYear := Integer 1990;
     payload_firstName := js "Ada";
     payload_lastName := js "Lovelace" |}.

Definition sampleRequest : Request :=
  {| generatorKey := js "astro";
     birthMonth := 6;
     birthDay := 15;
     birthYear := 1990;
     firstName := js "Ada";
     lastName := js "Lovelace" |}.

Definition emptyStore : Store := {| primarySheet := []; votesSheet := [] |}.

(** ** Numerology *)

(** The claim's reading of the computation, to compare with the script's.
    The position of a letter in the alphabet, upper or lower case; any
    other code unit counts for nothing. *)
Definition alphabetPosition (c : Z) : Z :=
  if isUpperAZ c then c - 64
  else if isLowerAZ c then c - 96
  else 0.

Definition positionSum (name : jsstring) : Z :=
  fold_right (fun c acc => alphabetPosition c + acc) 0 name.

(** The letters the script sums: the code units A-Z of the upper-cased
    name. *)
Definition upperCaseLetters (name : jsstring) : jsstring :=
  List.filter isUpperAZ (toUpperCase name).

(** The characters beyond Basic Latin whose upper case holds a letter A-Z:
    U+00DF (SS), U+0131 (I), U+0149 (N after U+02BC), U+017F (S), U+01F0,
    U+1E96, U+1E97, U+1E98, U+1E99, U+1E9A (J, H, T, W, Y, A with a
    combining mark) and the ligatures U+FB00 to U+FB06 (FF, FI, FL, FFI,
    FFL, ST, ST). *)
Definition letterSources : list Z :=
  [223; 305; 329; 383; 496; 7830; 7831; 7832; 7833; 7834;
   64256; 64257; 64258; 64259; 64260; 64261; 64262].

(** "Strasse" written with U+00DF, and a name of two characters, a and
    U+00DF. *)
Definition strasse : jsstring := [83; 116; 114; 97; 223; 101].

Definition sharpName : jsstring := [97; 223].

(** The sum of the decimal digits of a number, by arithmetic. *)
Equations? decimalDigitSum (n : Z) : Z by wf (Z.to_nat n) lt :=
  decimalDigitSum n with Z_lt_dec 0 n := {
    | left _ := n mod 10 + decimalDigitSum (n / 10);
    | right _ := 0 }.
Proof.
  apply Z2Nat.inj_lt; [apply Z.div_pos; lia | lia | apply Z.div_lt; lia].
Qed.

(** "Repeatedly digit-sum the total until a single digit remains". *)
Inductive ReducesTo : Z -> Z -> Prop :=
| reduces_done (n : Z) : n <= 9 -> ReducesTo n n
| reduces_step (n r : Z) :
    9 < n -> ReducesTo (decimalDigitSum n) r -> ReducesTo n r.

(** Digits in little-endian order, as a number and as a sum. *)
Fixpoint luValue (d : Decimal.uint) : Z :=
  match d with
  | Decimal.Nil => 0
  | Decimal.D0 d => 10 * luValue d
  | Decimal.D1 d => 1 + 10 * luValue d
  | Decimal.D2 d => 2 + 10 * luValue d
  | Decimal.D3 d => 3 + 10 * luValue d
  | Decimal.D4 d => 4 + 10 * luValue d
  | Decimal.D5 d => 5 + 10 * luValue d
  | Decimal.D6 d => 6 + 10 * luValue d
  | Decimal.D7 d => 7 + 10 * luValue d
  | Decimal.D8 d => 8 + 10 * luValue d
  | Decimal.D9 d => 9 + 10 * luValue d
  end.

Fixpoint uintSum (d : Decimal.uint) : Z :=
  match d with
  | Decimal.Nil => 0
  | Decimal.D0 d => uintSum d
  | Decimal.D1 d => 1 + uintSum d
  | Decimal.D2 d => 2 + uintSum d
  | Decimal.D3 d => 3 + uintSum d
  | Decimal.D4 d => 4 + uintSum d
  | Decimal.D5 d => 5 + uintSum d
  | Decimal.D6 d => 6 + uintSum d
  | Decimal.D7 d => 7 + uintSum d
  | Decimal.D8 d => 8 + uintSum d
  | Decimal.D9 d => 9 + uintSum d
  end.

(** ** Zodiac lookup *)

(** The month and the day a boundary text such as "12-22" names. *)
Definition boundaryMonthDay (text : jsstring) : Z * Z :=
  let parts := split 45 text in
  (numberOfDigits (orElse (at_ parts 0) []),
   numberOfDigits (orElse (at_ parts 1) [])).

(** Some interval of the table holds the date: the loop returns from
    inside, not through the fallback after it. *)
Definition matchedByInterval (month day : Z) : bool :=
  match List.find (profileMatches (JsDate.newDate 2000 (month - 1) day)) profiles with
  | Some _ => true
  | None => false
  end.

(** Both boundary dates of a profile resolve to that profile. *)
Definition boundariesInclusive (profile : ZodiacProfile) : bool :=
  let (sm, sd) := boundaryMonthDay (start profile) in
  let (em, ed) := boundaryMonthDay (end_ profile) in
  jsstring_eqb (sign (getZodiacProfile_ sm sd)) (sign profile)
  && jsstring_eqb (sign (getZodiacProfile_ em ed)) (sign profile).

(** The integers [lo], [lo + 1], ..., [n] of them. *)
Definition zrange (lo : Z) (n : nat) : list Z :=
  List.map (fun k => lo + Z.of_nat k) (seq 0 n).

(** ** Remote override: normalisation *)

(** A value that [String] converts: it is not an object with a member of
    its own named [toString], nor an array that holds, at any depth, a value
    that is not converted. *)
Fixpoint convertible (v : json) : bool :=
  match v with
  | JArray items => forallb convertible items
  | JObject members =>
      match ownMember members (js "toString") with
      | Some _ => false
      | None => true
      end
  | _ => true
  end.

(** The text [String] makes of a value it converts. *)
Fixpoint printed (v : json) : jsstring :=
  match v with
  | JNull => js "null"
  | JBool true => js "true"
  | JBool false => js "false"
  | JNumber n => numberText n
  | JString s => s
  | JArray items =>
      join (js ",")
        (List.map (fun item => match item with JNull => [] | _ => printed item end)
           items)
  | JObject _ => js "[object Object]"
  end.

(** The rule for a text field, stated on the raw member: a non-empty string
    gives its trimmed text; a missing member, [null], [false], zero and the
    empty string give the fallback; any other value gives the trimmed text
    [String] makes of it. *)
Definition normalizedText (raw : jsvalue) (fallback : jsstring) : jsstring :=
  match raw with
  | None => fallback
  | Some JNull => fallback
  | Some (JBool false) => fallback
  | Some (JBool true) => js "true"
  | Some (JNumber n) => if isZero n then fallback else trim (numberText n)
  | Some (JString []) => fallback
  | Some (JString (c :: s)) => trim (c :: s)
  | Some (JArray items) => trim (printed (JArray items))
  | Some (JObject _) => js "[object Object]"
  end.

(** The rule for a list field: an array gives its elements as trimmed
    strings, anything else the empty sequence. *)
Definition normalizedList (raw : jsvalue) : list jsstring :=
  match raw with
  | Some (JArray items) => List.map (fun entry => trim (printed entry)) items
  | _ => []
  end.

(** The values the rule of a text field converts to a string are the truthy
    ones; the rule of a list field converts the elements of an array. *)
Definition textConvertible (raw : jsvalue) : bool :=
  match raw with
  | Some v => if truthy raw then convertible v else true
  | None => true
  end.

Definition listConvertible (raw : jsvalue) : bool :=
  match raw with
  | Some (JArray items) => forallb convertible items
  | _ => true
  end.

(** The five fields of a raw object can be converted. *)
Definition fieldsConvertible (members : list (jsstring * json)) : bool :=
  textConvertible (ownMember members (js "drinkName"))
  && textConvertible (ownMember members (js "reason"))
  && listConvertible (ownMember members (js "ingredients"))
  && listConvertible (ownMember members (js "instructions"))
  && textConvertible (ownMember members (js "compatibility")).

(** The blueprint the rules give for a raw object. *)
Definition normalizedBlueprint (members : list (jsstring * json)) (context : Context)
  : Blueprint :=
  {| drinkName :=
       normalizedText (ownMember members (js "drinkName"))
         (ctx_firstName context ++ js " Signature Sip");
     reason :=
       normalizedText (ownMember members (js "reason"))
         (js "A bespoke creation blending celestial and personal motifs.");
     ingredients := normalizedList (ownMember members (js "ingredients"));
     instructions := normalizedList (ownMember members (js "instructions"));
     compatibility :=
       normalizedText (ownMember members (js "compatibility"))
         (js "Tailored compatibility insight unavailable.") |}.

(** The blueprint of a raw value without any of the five members. *)
Definition defaultBlueprint (context : Context) : Blueprint :=
  {| drinkName := ctx_firstName context ++ js " Signature Sip";
     reason := js "A bespoke creation blending celestial and personal motifs.";
     ingredients := [];
     instructions := [];
     compatibility := js "Tailored compatibility insight unavailable." |}.

(** The rule the claim states for a text field: the trimmed string when
    the member is a string, the fallback otherwise. *)
Definition claimedText (raw : jsvalue) (fallback : jsstring) : jsstring :=
  match raw with
  | Some (JString s) => trim s
  | _ => fallback
  end.

(** A raw value that is not an object has none of the five members. *)
Definition notAnObject (raw : json) : bool :=
  match raw with
  | JObject _ => false
  | _ => true
  end.

(** ** Request validation *)

(** The checks of the validation in their order, each with its message;
    the first is the one the claim asks for: the key is one of the five. *)
Definition firstViolation (now : Z) (payload : Payload) : option jsstring :=
  if negb (isRecognizedKey (trim (payload_generatorKey payload)))
  then Some (js "An unsupported generator was selected.")
  else if outside (payload_birthMonth payload) 1 12
  then Some (js "Birth month must be an integer between 1 and 12.")
  else if outside (payload_birthDay payload) 1 31
  then Some (js "Birth day must be an integer between 1 and 31.")
  else if outside (payload_birthYear payload) 1900 (JsDate.getFullYear now)
  then Some (js "Birth year is invalid or not provided.")
  else if jsstring_eqb (trim (payload_firstName payload)) []
          || jsstring_eqb (trim (payload_lastName payload)) []
  then Some (js "First name and last name are required for drink generation.")
  else None.

Definition sanitizedFields (payload : Payload) : Request :=
  {| generatorKey := trim (payload_generatorKey payload);
     birthMonth := integerValue (payload_birthMonth payload);
     birthDay := integerValue (payload_birthDay payload);
     birthYear := integerValue (payload_birthYear payload);
     firstName := trim (payload_firstName payload);
     lastName := trim (payload_lastName payload) |}.

(** ** Vote registration *)

Definition notFound : error :=
  Thrown (js "The requested drink could not be located.").

Definition identifierRequired : error :=
  Thrown (js "A valid drink identifier is required to register a vote.").

(** The audit row of one increment. *)
Definition incrementAudit (now : Z) (drinkId : jsstring) (previous : Z) : AuditRow :=
  {| audit_timestamp := now;
     audit_drinkId := drinkId;
     audit_previousVotes := previous;
     audit_newVotes := previous + 1;
     audit_action := js "increment" |}.

Definition sampleRow (drinkId : jsstring) (votes : Z) : Row :=
  {| row_drinkId := drinkId;
     row_timestamp := 0;
     row_generatorKey := js "astro";
     row_generatorLabel := Own (js "Astrological Elixir Generator");
     row_firstName := js "Ada";
     row_lastName := js "Lovelace";
     row_birthMonth := 6;
     row_birthDay := 15;
     row_birthYear := 1990;
     row_reason := js "reason";
     row_drinkName := js "name";
     row_ingredients := js "gin - 2 oz";
     row_instructions := js "Stir.";
     row_compatibility := js "fine";
     row_voteCount := votes |}.

(** ** Persist, then list *)

(** The separator written between two line items: space, bullet, space. *)
Definition separator : jsstring := js " " ++ [bullet] ++ js " ".

(** A line item as the claim wants it: no bullet inside, and equal to its
    own trimmed form. *)
Definition cleanEntry (entry : jsstring) : Prop :=
  ~ In bullet entry /\ trim entry = entry.

Definition sampleBlueprint (lines : list jsstring) : Blueprint :=
  {| drinkName := js "Nebula";
     reason := js "reason";
     ingredients := lines;
     instructions := [js "Stir."];
     compatibility := js "fine" |}.

Definition sampleEnv : Env :=
  {| validationTime := sampleNow;
     generationTime := sampleNow;
     persistTime := sampleNow;
     uuid := js "id-1";
     openAiKeyProperty := Ok Null;
     fetch := fun _ _ => Err (Thrown (js "unreachable"));
     parse := fun _ => inr (js "unexpected token") |}.

(** The lists the catalogue shows for the row just persisted. *)
Definition listedAfterPersist (env : Env) (request : Request) (blueprint : Blueprint)
  (store : Store) : option (list jsstring * list jsstring) :=
  let (_, store') := persistBlueprint_ env request blueprint store in
  match last (fst (getStoredDrinks store')) with
  | Some drink => Some (drink_ingredients drink, drink_instructions drink)
  | None => None
  end.

(** ** Remote override: fallback *)

Definition missingChoices : error :=
  Thrown (js "OpenAI response missing choices array.").

Definition missingContent : error :=
  Thrown (js "OpenAI response missing message content.").

(** The walk of [generateDrinkWithOpenAI_] from the parsed response to the
    content of the first choice's message, on its own. *)
Definition envelopeContent (responseObject : json) : result json :=
  match getMember (Some responseObject) k_choices with
  | Err e => Err e
  | Ok choices =>
      if negb (truthy choices)
         || negb (truthy (match getMember choices k_length with
                          | Ok l => l
                          | Err _ => None
                          end))
      then Err missingChoices
      else
        match getMember choices k_index0 with
        | Err e => Err e
        | Ok first =>
            match getMember first k_message with
            | Err e => Err e
            | Ok message =>
                let content :=
                  if truthy message
                  then match getMember message k_content with
                       | Ok c => c
                       | Err _ => None
                       end
                  else message in
                match content with
                | Some c => if truthy content then Ok c else Err missingContent
                | None => Err missingContent
                end
            end
        end
  end.

(** A response that got as far as a message content. *)
Definition contentOfReply (env : Env) (apiKey prompt : jsstring) (content : json)
  : Prop :=
  exists response responseObject,
    fetch env apiKey prompt = Ok response
    /\ 200 <= status response < 300
    /\ parse env (bodyText response) = inl responseObject
    /\ envelopeContent responseObject = Ok content.

(** The ways the remote path fails: the failure of the request itself, the
    ones the claim lists, and a content or a field of the parsed content
    that cannot be converted to a string. *)
Inductive RemoteFailure (env : Env) (apiKey prompt : jsstring) : Prop :=
| fails_on_fetch (e : error) :
    fetch env apiKey prompt = Err e -> RemoteFailure env apiKey prompt
| fails_on_status (response : HttpResponse) :
    fetch env apiKey prompt = Ok response ->
    status response < 200 \/ 300 <= status response ->
    RemoteFailure env apiKey prompt
| fails_on_body (response : HttpResponse) (message : jsstring) :
    fetch env apiKey prompt = Ok response ->
    parse env (bodyText response) = inr message ->
    RemoteFailure env apiKey prompt
| fails_on_envelope (response : HttpResponse) (responseObject : json) (e : error) :
    fetch env apiKey prompt = Ok response ->
    parse env (bodyText response) = inl responseObject ->
    envelopeContent responseObject = Err e ->
    RemoteFailure env apiKey prompt
| fails_on_content_conversion (content : json) :
    contentOfReply env apiKey prompt content ->
    convertible content = false ->
    RemoteFailure env apiKey prompt
| fails_on_content (content : json) (message : jsstring) :
    contentOfReply env apiKey prompt content ->
    convertible content = true ->
    parse env (printed content) = inr message ->
    RemoteFailure env apiKey prompt
| fails_on_field_conversion (content : json) (members : list (jsstring * json)) :
    contentOfReply env apiKey prompt content ->
    convertible content = true ->
    parse env (printed content) = inl (JObject members) ->
    fieldsConvertible members = false ->
    RemoteFailure env apiKey prompt.

(** What [generateDrink] stores and returns when the blueprint comes from
    the generator table. *)
Definition deterministicOutcome (env : Env) (request : Request) (store : Store)
  : result Persisted * Store :=
  match getGeneratorByKey_ (generatorKey request) with
  | Err e => (Err e, store)
  | Ok generator =>
      match generator (buildGenerationContext_ request) (generationTime env) with
      | Err e => (Err e, store)
      | Ok blueprint =>
          let (persisted, store') := persistBlueprint_ env request blueprint store in
          (Ok persisted, store')
      end
  end.

(** An environment whose remote service answers with status 500. *)
Definition failingEnv : Env :=
  {| validationTime := sampleNow;
     generationTime := sampleNow;
     persistTime := sampleNow;
     uuid := js "id-1";
     openAiKeyProperty := Ok (Value (js " sk-test "));
     fetch := fun _ _ => Ok {| status := 500; bodyText := js "oops" |};
     parse := fun _ => inr (js "unexpected token") |}.

(** An environment whose remote service answers with status 200 and a body
    that parses to an envelope; the content of its message parses to the
    object with the one member [drinkName], itself an object with the one
    member [toString], the number 1. *)
Definition unconvertibleReplyEnv : Env :=
  {| validationTime := sampleNow;
     generationTime := sampleNow;
     persistTime := sampleNow;
     uuid := js "id-1";
     openAiKeyProperty := Ok (Value (js " sk-test "));
     fetch := fun _ _ => Ok {| status := 200; bodyText := js "envelope" |};
     parse := fun text =>
       if jsstring_eqb text (js "envelope")
       then inl (JObject
                   [(js "choices",
                     JArray [JObject
                               [(js "message",
                                 JObject [(js "content", JString (js "reply"))])]])])
       else if jsstring_eqb text (js "reply")
       then inl (JObject
                   [(js "drinkName",
                     JObject [(js "toString", JNumber (numberOfZ 1))])])
       else inr (js "unexpected token") |}.

Definition oracleRequest : Request :=
  {| generatorKey := js "oracle";
     birthMonth := 6;
     birthDay := 15;
     birthYear := 1990;
     firstName := js "Ada";
     lastName := js "Lovelace" |}.

(** ** Generator table: reproducibility *)

(** One invocation: build the context from the request's fields, select the
    generator by the request's key, and call it while the clock reads
    [today]. *)
Definition runGenerator (request : Request) (today : Z) : result Blueprint :=
  match getGeneratorByKey_ (generatorKey request) with
  | Ok generator => generator (buildGenerationContext_ request) today
  | Err e => Err e
  end.

Definition chronoRequest : Request :=
  {| generatorKey := js "chrono";
     birthMonth := 6;
     birthDay := 15;
     birthYear := 1990;
     firstName := js "Ada";
     lastName := js "Lovelace" |}.

(** The keys of the generators that do not read the clock. *)
Definition clockFreeKeys : list jsstring :=
  [js "astro"; js "numerology"; js "oracle"; js "dynasty"].

(** ** Further properties: boundary handler and store *)

(** The votes registered one after the other at the instants [times]. *)
Fixpoint registerVotes (times : list Z) (drinkId : jsstring) (store : Store) : Store :=
  match times with
  | [] => store
  | now :: times' => registerVotes times' drinkId (snd (registerVote now drinkId store))
  end.

(** An environment whose remote service answers with status 200 and a body
    that parses to an envelope; the content of its message parses to an
    object with a name and one ingredient. *)
Definition replyEnv : Env :=
  {| validationTime := sampleNow;
     generationTime := sampleNow;
     persistTime := sampleNow;
     uuid := js "id-1";
     openAiKeyProperty := Ok (Value (js " sk-test "));
     fetch := fun _ _ => Ok {| status := 200; bodyText := js "envelope" |};
     parse := fun text =>
       if jsstring_eqb text (js "envelope")
       then inl (JObject
                   [(js "choices",
                     JArray [JObject
                               [(js "message",
                                 JObject [(js "content", JString (js "reply"))])]])])
       else if jsstring_eqb text (js "reply")
       then inl (JObject
                   [(js "drinkName", JString (js " Nebula "));
                    (js "ingredients", JArray [JString (js "gin "); JNumber (numberOfZ 2)])])
       else inr (js "unexpected token") |}.

Definition nebulaBlueprint : Blueprint :=
  {| drinkName := js "Nebula";
     reason := js "A bespoke creation blending celestial and personal motifs.";
     ingredients := [js "gin"; js "2"];
     instructions := [];
     compatibility := js "Tailored compatibility insight unavailable." |}.

(** ** Further properties: generators *)

(** The value captured by the closure after [k] calls. *)
Definition afterDraws (k : nat) (h : Z) : Z :=
  Nat.iter k (fun h' => snd (random h')) h.


(** The spirits of the numerology mixer, by value 1 to 9. *)
Definition namedSpirits : list jsstring := List.map spiritMap (zrange 1 9).

(** * Facts on script strings *)

Section StringFacts.

Lemma jsstring_eqb_eq (a b : jsstring) : jsstring_eqb a b = true <-> a = b.
Proof.
  revert b. induction a as [|x a IH]; intros [|y b]; simpl; split;
    try discriminate; try reflexivity.
  - intros H. apply andb_prop in H as [Hx Hab].
    apply Z.eqb_eq in Hx. apply IH in Hab. congruence.
  - intros H. injection H as -> ->.
    rewrite Z.eqb_refl. simpl. apply IH. reflexivity.
Qed.

Lemma jsstring_eqb_refl (a : jsstring) : jsstring_eqb a a = true.
Proof. apply jsstring_eqb_eq. reflexivity. Qed.

Lemma jsstring_eqb_neq (a b : jsstring) : jsstring_eqb a b = false <-> a <> b.
Proof.
  split.
  - intros H E. apply jsstring_eqb_eq in E. congruence.
  - intros H. destruct (jsstring_eqb a b) eqn:E; [|reflexivity].
    apply jsstring_eqb_eq in E. contradiction.
Qed.

Lemma jsstring_eqb_sym (a b : jsstring) : jsstring_eqb a b = jsstring_eqb b a.
Proof.
  destruct (jsstring_eqb b a) eqn:E.
  - apply jsstring_eqb_eq in E. subst. apply jsstring_eqb_refl.
  - apply jsstring_eqb_neq. apply jsstring_eqb_neq in E. congruence.
Qed.

(** Case conversion beyond Basic Latin: U+00E9 and U+00C9; U+00DF gives
    SS; U+0130 gives i and U+0307; a capital sigma ends a word as U+03C2
    and is U+03C3 elsewhere; the Deseret letter U+10428, a surrogate pair,
    becomes U+10400; a lone surrogate is left as it is. *)
Example case_conversion_beyond_basic_latin :
  toUpperCase [233] = [201]
  /\ toUpperCase strasse = js "STRASSE"
  /\ toLowerCase [304] = [105; 775]
  /\ toLowerCase [913; 931] = [945; 962]
  /\ toLowerCase [913; 931; 913] = [945; 963; 945]
  /\ toUpperCase [55297; 56360] = [55297; 56320]
  /\ toUpperCase [55297] = [55297].
Proof. vm_compute. repeat split; reflexivity. Qed.

End StringFacts.

(** * The pseudo-random source *)

Section PrngFacts.

Lemma toUint32_range (x : Z) : 0 <= Int32.toUint32 x < 2 ^ 32.
Proof. unfold Int32.toUint32. apply Z.mod_pos_bound. lia. Qed.

Lemma ushr_0 (h : Z) : Int32.ushr h 0 = Int32.toUint32 h.
Proof. unfold Int32.ushr. change (0 mod 32) with 0. apply Z.shiftr_0_r. Qed.

(** Every value is an unsigned 32-bit number over 2^32. *)
Lemma output_unit_interval (h : Z) : (0 <= output h /\ output h < 1)%Q.
Proof.
  unfold output. rewrite ushr_0.
  pose proof (toUint32_range h) as Hr.
  unfold Qle, Qlt. simpl. lia.
Qed.

Lemma draws_unit_interval (n : nat) (h : Z) :
  Forall (fun v => (0 <= v /\ v < 1)%Q) (draws n h).
Proof.
  revert h. induction n as [|n IH]; intros h; simpl.
  - constructor.
  - constructor; [apply output_unit_interval | apply IH].
Qed.

Lemma draws_unsigned (n : nat) (h : Z) :
  Forall (fun v => exists u, 0 <= u < 2 ^ 32 /\ v = u # 4294967296) (draws n h).
Proof.
  revert h. induction n as [|n IH]; intros h; simpl.
  - constructor.
  - constructor; [|apply IH].
    exists (Int32.toUint32 (advance h)). split; [apply toUint32_range|].
    unfold output. rewrite ushr_0. reflexivity.
Qed.

Lemma callRandom_lookup (g : nat) (σ : list Z) (h : Z) :
  σ !! g = Some h ->
  callRandom g σ = (output (advance h), <[g := advance h]> σ).
Proof. intros Hg. unfold callRandom. rewrite Hg. reflexivity. Qed.

(** Two closures with distinct references do not disturb each other: each
    returns the stream of its own captured value, whatever the order of the
    calls. *)
Lemma interleave_streams (sched : list bool) (g1 g2 : nat) :
  g1 <> g2 ->
  forall (σ : list Z) (h1 h2 : Z),
    σ !! g1 = Some h1 -> σ !! g2 = Some h2 ->
    interleave sched g1 g2 σ
    = (draws (count_occ bool_dec sched true) h1,
       draws (count_occ bool_dec sched false) h2).
Proof.
  intros Hne. induction sched as [|[|] sched IH]; intros σ h1 h2 H1 H2.
  - reflexivity.
  - cbn [interleave]. rewrite (callRandom_lookup _ _ _ H1).
    rewrite (IH (<[g1 := advance h1]> σ) (advance h1) h2).
    + reflexivity.
    + apply list_lookup_insert_eq. eapply lookup_lt_Some; eassumption.
    + rewrite list_lookup_insert_ne by assumption. assumption.
  - cbn [interleave]. rewrite (callRandom_lookup _ _ _ H2).
    rewrite (IH (<[g2 := advance h2]> σ) h1 (advance h2)).
    + reflexivity.
    + rewrite list_lookup_insert_ne by (intros E; apply Hne; symmetry; exact E).
      assumption.
    + apply list_lookup_insert_eq. eapply lookup_lt_Some; eassumption.
Qed.

Lemma draws_take (n m : nat) (h : Z) :
  (n <= m)%nat -> take n (draws m h) = draws n h.
Proof.
  revert m h. induction n as [|n IH]; intros m h Hle.
  - reflexivity.
  - destruct m as [|m]; [lia|]. simpl. f_equal. apply IH. lia.
Qed.

Lemma draws_length (n : nat) (h : Z) : length (draws n h) = n.
Proof. revert h. induction n as [|n IH]; intros h; simpl; [reflexivity | f_equal; apply IH]. Qed.

End PrngFacts.

(** C8. Two closures made by [createDeterministicRandom_] from one seed, in
    any store of closures and called in any interleaving, each return the
    stream of that seed: the first closure's values are the first values of
    [draws] from the seed's state, and so are the second's; on their common
    length the two sequences are equal; every value is an unsigned 32-bit
    number divided by 2^32, so it is in [0, 1). *)
Theorem createDeterministicRandom_same_seed_same_stream
  (seed : jsstring) (σ : list Z) (sched : list bool) :
  let n1 := count_occ bool_dec sched true in
  let n2 := count_occ bool_dec sched false in
  let created1 := createDeterministicRandom_ seed σ in
  let created2 := createDeterministicRandom_ seed (snd created1) in
  let returned := interleave sched (fst created1) (fst created2) (snd created2) in
  fst returned = draws n1 (seedState seed)
  /\ snd returned = draws n2 (seedState seed)
  /\ take (Nat.min n1 n2) (fst returned) = take (Nat.min n1 n2) (snd returned)
  /\ Forall (fun v => (0 <= v /\ v < 1)%Q) (fst returned ++ snd returned)
  /\ Forall (fun v => exists u, 0 <= u < 2 ^ 32 /\ v = u # 4294967296)
       (fst returned ++ snd returned).
Proof.
  intros n1 n2 created1 created2 returned.
  assert (Hret : returned = (draws n1 (seedState seed), draws n2 (seedState seed))).
  { subst returned created2 created1. unfold createDeterministicRandom_. simpl.
    apply interleave_streams.
    - rewrite length_app. simpl. lia.
    - rewrite lookup_app_l by (rewrite length_app; simpl; lia).
      rewrite lookup_app_r by lia. rewrite Nat.sub_diag. reflexivity.
    - rewrite lookup_app_r by lia. rewrite Nat.sub_diag. reflexivity. }
  rewrite Hret. simpl. repeat split.
  - rewrite !draws_take by lia. reflexivity.
  - apply Forall_app. split; apply draws_unit_interval.
  - apply Forall_app. split; apply draws_unsigned.
Qed.

Example createDeterministicRandom_first_values :
  draws 2 (seedState (js "astro|6|15|1990|Ada|Lovelace"))
  = [2244240035 # 4294967296; 3323731854 # 4294967296].
Proof. vm_compute. reflexivity. Qed.

(** * Selection utilities *)

Section SelectionFacts.

Context {St A : Type}.
Variable rand : St -> Q * St.

(** The source gives numbers in [0, 1). *)
Hypothesis rand_unit_interval :
  forall s, (0 <= fst (rand s) /\ fst (rand s) < 1)%Q.

Lemma drawIndex_in_range (n : nat) (s : St) :
  (0 < n)%nat -> 0 <= fst (drawIndex rand n s) < Z.of_nat n.
Proof.
  intros Hn. unfold drawIndex.
  pose proof (rand_unit_interval s) as [Hlo Hhi].
  destruct (rand s) as [r s']. cbn [fst] in *.
  assert (Hpos : (0 < inject_Z (Z.of_nat n))%Q).
  { change 0%Q with (inject_Z 0). rewrite <- Zlt_Qlt. lia. }
  split.
  - rewrite <- (Qfloor_Z 0). apply Qfloor_resp_le.
    change (inject_Z 0) with 0%Q.
    apply Qmult_le_0_compat; [exact Hlo | apply Qlt_le_weak; exact Hpos].
  - rewrite Zlt_Qlt.
    apply Qle_lt_trans with (r * inject_Z (Z.of_nat n))%Q; [apply Qfloor_le|].
    apply Qlt_le_trans with (1 * inject_Z (Z.of_nat n))%Q.
    + apply Qmult_lt_compat_r; assumption.
    + rewrite Qmult_1_l. apply Qle_refl.
Qed.

Lemma spliceOne_in_range (available : list A) (index : Z) (x : A) :
  0 <= index ->
  available !! Z.to_nat index = Some x ->
  spliceOne available index = (Value x, delete (Z.to_nat index) available).
Proof.
  intros Hlo Hx. unfold spliceOne.
  apply lookup_lt_Some in Hx as Hlt.
  destruct (index <? 0) eqn:Hneg; [apply Z.ltb_lt in Hneg; lia|].
  rewrite Z.min_l by lia. rewrite Hx. reflexivity.
Qed.

Lemma selectionLoop_step (wanted : nat) (a : A) (l : list A) (s : St) :
  selectionLoop rand (S wanted) (a :: l) s
  = let (index, s1) := drawIndex rand (length (a :: l)) s in
    let (picked, available') := spliceOne (a :: l) index in
    let (rest, s2) := selectionLoop rand wanted available' s1 in
    (picked :: rest, s2).
Proof. reflexivity. Qed.

(** What the loop pushes are elements of the pool, taken without
    replacement, as many as wanted or as the pool holds. *)
Lemma selectionLoop_spec (wanted : nat) :
  forall (available : list A) (s : St),
  exists sel rest : list A,
    fst (selectionLoop rand wanted available s) = List.map Value sel
    /\ sel ++ rest ≡ₚ available
    /\ length sel = Nat.min wanted (length available).
Proof.
  induction wanted as [|wanted IH]; intros available s.
  - exists [], available. simpl. repeat split; reflexivity.
  - destruct available as [|a available'].
    + exists [], []. simpl. repeat split; reflexivity.
    + rewrite selectionLoop_step.
      remember (a :: available') as available eqn:Hav.
      pose proof (drawIndex_in_range (length available) s) as Hidx.
      destruct (drawIndex rand (length available) s) as [index s1]. simpl in Hidx.
      assert (Hlen : (0 < length available)%nat) by (rewrite Hav; simpl; lia).
      specialize (Hidx Hlen).
      destruct (lookup_lt_is_Some_2 available (Z.to_nat index)) as [x Hx]; [lia|].
      rewrite (spliceOne_in_range available index x) by (lia || assumption).
      destruct (IH (delete (Z.to_nat index) available) s1) as (sel & rest & Hsel & Hperm & Hl).
      destruct (selectionLoop rand wanted (delete (Z.to_nat index) available) s1)
        as [pushed s2]. simpl in Hsel.
      exists (x :: sel), rest. cbn [fst List.map app length]. repeat split.
      * rewrite Hsel. reflexivity.
      * rewrite Hperm. symmetry. apply delete_Permutation. exact Hx.
      * rewrite Hl, length_delete by (eexists; exact Hx). lia.
Qed.

End SelectionFacts.

Lemma random_unit_interval (h : Z) :
  (0 <= fst (random h) /\ fst (random h) < 1)%Q.
Proof. apply output_unit_interval. Qed.

(** C9. With the script's pseudo-random source in any state,
    [buildUniqueSelection_] returns pool elements taken without replacement
    ([sel ++ rest] is a rearrangement of the options), so none is repeated
    when the options hold no repetition; their number is
    [min (max count 0) (length options)]; a count of zero or less gives the
    empty sequence and a count of at least the pool size gives the whole
    pool, rearranged by the draws: the first element is the option at the
    first index drawn, and the rest is drawn the same way from the options
    left. *)
Theorem buildUniqueSelection_unique_and_bounded
  {A : Type} (options : list A) (count : Z) (h : Z) :
  exists sel rest : list A,
    fst (buildUniqueSelection_ random options count h) = List.map Value sel
    /\ sel ++ rest ≡ₚ options
    /\ Z.of_nat (length sel) = Z.min (Z.max count 0) (Z.of_nat (length options))
    /\ (NoDup options -> NoDup sel)
    /\ (count <= 0 -> sel = [])
    /\ (Z.of_nat (length options) <= count -> sel ≡ₚ options)
    /\ (1 <= count -> options <> [] ->
        let drawn := drawIndex random (length options) h in
        let index := Z.to_nat (fst drawn) in
        exists first,
          options !! index = Some first
          /\ fst (buildUniqueSelection_ random options count h)
             = Value first
               :: fst (buildUniqueSelection_ random (delete index options)
                         (count - 1) (snd drawn))).
Proof.
  unfold buildUniqueSelection_.
  destruct (selectionLoop_spec random random_unit_interval (Z.to_nat count) options h)
    as (sel & rest & Hsel & Hperm & Hlen).
  exists sel, rest. split; [exact Hsel|]. split; [exact Hperm|].
  assert (Hlen' : Z.of_nat (length sel)
                  = Z.min (Z.max count 0) (Z.of_nat (length options))) by lia.
  split; [exact Hlen'|]. split; [|split; [|split]].
  - intros Hnd. rewrite <- Hperm in Hnd. apply NoDup_app in Hnd. tauto.
  - intros Hc. destruct sel; [reflexivity | simpl in Hlen'; lia].
  - intros Hc. rewrite <- Hperm.
    assert (Hrest : rest = []).
    { apply Permutation_length in Hperm. rewrite length_app in Hperm.
      destruct rest; [reflexivity | simpl in Hperm; lia]. }
    rewrite Hrest, app_nil_r. reflexivity.
  - intros Hcount Hne. cbv zeta.
    destruct options as [|a options']; [contradiction|].
    replace (Z.to_nat count) with (S (Z.to_nat (count - 1))) by lia.
    rewrite selectionLoop_step.
    remember (a :: options') as options eqn:Hoptions.
    pose proof (drawIndex_in_range random random_unit_interval (length options) h)
      as Hidx.
    destruct (drawIndex random (length options) h) as [index h1].
    cbn [fst snd] in *.
    assert (Hpos : (0 < length options)%nat) by (rewrite Hoptions; simpl; lia).
    specialize (Hidx Hpos).
    destruct (lookup_lt_is_Some_2 options (Z.to_nat index)) as [x Hx]; [lia|].
    exists x. split; [exact Hx|].
    rewrite (spliceOne_in_range options index x) by (lia || assumption).
    destruct (selectionLoop random (Z.to_nat (count - 1))
                (delete (Z.to_nat index) options) h1).
    reflexivity.
Qed.

Example buildUniqueSelection_two_of_five :
  fst (buildUniqueSelection_ random mixerOptions 2 (seedState (js "seed")))
  = [Value (js "sparkling tonic"); Value (js "lunar lychee nectar")].
Proof. vm_compute. reflexivity. Qed.

(** * Numerology *)

Section NumerologyFacts.

Lemma luValue_of_lu (d : Decimal.uint) :
  luValue d = Z.of_N (DecimalPos.Unsigned.of_lu d).
Proof. induction d; simpl luValue; simpl DecimalPos.Unsigned.of_lu; lia. Qed.

Lemma luValue_nonneg (d : Decimal.uint) : 0 <= luValue d.
Proof. rewrite luValue_of_lu. lia. Qed.

Lemma uintSum_revapp (d d' : Decimal.uint) :
  uintSum (Decimal.revapp d d') = uintSum d + uintSum d'.
Proof.
  revert d'. induction d; intros d'; simpl; try rewrite IHd; simpl; lia.
Qed.

Lemma uintSum_rev (d : Decimal.uint) : uintSum (Decimal.rev d) = uintSum d.
Proof. unfold Decimal.rev. rewrite uintSum_revapp. simpl. lia. Qed.

(** The script's reduction over the characters of the decimal text adds up
    the digits. *)
Lemma fold_digits (d : Decimal.uint) (acc : Z) :
  fold_left (fun acc digit => acc + numberOfDigit digit) (chars (digitsOf d)) acc
  = acc + uintSum d.
Proof.
  revert acc. induction d; intros acc; simpl; try rewrite IHd; simpl; lia.
Qed.

Lemma digitSum_pos (p : positive) :
  digitSum (Z.pos p) = uintSum (Pos.to_little_uint p).
Proof.
  unfold digitSum, toStringZ. rewrite fold_digits.
  unfold Pos.to_uint. rewrite uintSum_rev. lia.
Qed.

Lemma luValue_to_little_uint (p : positive) :
  luValue (Pos.to_little_uint p) = Z.pos p.
Proof.
  rewrite luValue_of_lu.
  rewrite <- (DecimalFacts.rev_rev (Pos.to_little_uint p)).
  rewrite <- DecimalPos.Unsigned.of_uint_alt.
  change (Decimal.rev (Pos.to_little_uint p)) with (Pos.to_uint p).
  rewrite DecimalPos.Unsigned.of_to. reflexivity.
Qed.

Lemma decimalDigitSum_step (k v : Z) :
  0 <= k < 10 -> 0 <= v -> decimalDigitSum (k + 10 * v) = k + decimalDigitSum v.
Proof.
  intros Hk Hv. rewrite decimalDigitSum_equation_1.
  destruct (Z_lt_dec 0 (k + 10 * v)) as [Hpos|Hzero];
    cbn [decimalDigitSum_unfold_clause_1].
  - replace ((k + 10 * v) mod 10) with k.
    + replace ((k + 10 * v) / 10) with v; [reflexivity|].
      apply Z.div_unique with k; lia.
    + apply Z.mod_unique with v; lia.
  - assert (k = 0) by lia. assert (v = 0) by lia. subst.
    rewrite decimalDigitSum_equation_1. reflexivity.
Qed.

(** The arithmetic digit sum of a number is the sum of its digits. *)
Lemma decimalDigitSum_luValue (d : Decimal.uint) :
  decimalDigitSum (luValue d) = uintSum d.
Proof.
  induction d; cbn [luValue uintSum].
  - reflexivity.
  - change (10 * luValue d) with (0 + 10 * luValue d).
    rewrite decimalDigitSum_step by (lia || apply luValue_nonneg).
    rewrite IHd. lia.
  - rewrite decimalDigitSum_step by (lia || apply luValue_nonneg). rewrite IHd. lia.
  - rewrite decimalDigitSum_step by (lia || apply luValue_nonneg). rewrite IHd. lia.
  - rewrite decimalDigitSum_step by (lia || apply luValue_nonneg). rewrite IHd. lia.
  - rewrite decimalDigitSum_step by (lia || apply luValue_nonneg). rewrite IHd. lia.
  - rewrite decimalDigitSum_step by (lia || apply luValue_nonneg). rewrite IHd. lia.
  - rewrite decimalDigitSum_step by (lia || apply luValue_nonneg). rewrite IHd. lia.
  - rewrite decimalDigitSum_step by (lia || apply luValue_nonneg). rewrite IHd. lia.
  - rewrite decimalDigitSum_step by (lia || apply luValue_nonneg). rewrite IHd. lia.
  - rewrite decimalDigitSum_step by (lia || apply luValue_nonneg). rewrite IHd. lia.
Qed.

Lemma digitSum_decimalDigitSum (n : Z) :
  0 < n -> digitSum n = decimalDigitSum n.
Proof.
  destruct n as [|p|p]; try lia. intros _.
  rewrite digitSum_pos.
  rewrite <- (luValue_to_little_uint p) at 1.
  symmetry. apply decimalDigitSum_luValue.
Qed.

Lemma uintSum_bounds (d : Decimal.uint) :
  0 <= uintSum d <= luValue d
  /\ (luValue d - uintSum d) mod 9 = 0
  /\ (1 <= luValue d -> 1 <= uintSum d)
  /\ (10 <= luValue d -> uintSum d < luValue d).
Proof.
  induction d; simpl luValue; simpl uintSum.
  1: repeat split; try lia; reflexivity.
  all: destruct IHd as (Hb & Hm & H1 & H10);
    repeat split; try lia;
    match goal with
    | |- (?a - ?b) mod 9 = 0 =>
        replace (a - b) with ((luValue d - uintSum d) + luValue d * 9) by lia;
        rewrite Z_mod_plus_full; exact Hm
    end.
Qed.

Lemma digitSum_bounds (n : Z) :
  0 < n ->
  1 <= digitSum n <= n
  /\ digitSum n mod 9 = n mod 9
  /\ (9 < n -> digitSum n < n).
Proof.
  destruct n as [|p|p]; try lia. intros _.
  rewrite digitSum_pos.
  pose proof (uintSum_bounds (Pos.to_little_uint p)) as (Hb & Hm & H1 & H10).
  rewrite luValue_to_little_uint in *.
  repeat split; try lia.
  apply Zmod_divides in Hm as [c Hc]; [|lia].
  replace (Z.pos p) with (uintSum (Pos.to_little_uint p) + c * 9) by lia.
  rewrite Z_mod_plus_full. reflexivity.
Qed.

(** The bound on the rounds is never what stops the loop: with at least
    [total] rounds it stops on [total <= 9], after digit-summing as the
    claim describes. *)
Lemma reduceTotal_spec (rounds : nat) :
  forall total : Z,
    0 <= total <= Z.of_nat rounds ->
    let r := reduceTotal rounds total in
    0 <= r <= 9
    /\ r mod 9 = total mod 9
    /\ (1 <= total -> 1 <= r)
    /\ ReducesTo total r.
Proof.
  induction rounds as [|rounds IH]; intros total Hrange r; subst r.
  - simpl. assert (total = 0) by lia. subst total.
    repeat split; try lia. constructor. lia.
  - simpl. destruct (9 <? total) eqn:Hgt.
    + apply Z.ltb_lt in Hgt.
      pose proof (digitSum_bounds total ltac:(lia)) as (Hb & Hm & Hlt).
      specialize (Hlt Hgt).
      destruct (IH (digitSum total) ltac:(lia)) as (Hr & Hmod & Hone & Hred).
      split; [lia|]. split; [rewrite Hmod; exact Hm|]. split; [lia|].
      apply reduces_step; [exact Hgt|].
      rewrite <- digitSum_decimalDigitSum by lia. exact Hred.
    + apply Z.ltb_ge in Hgt.
      repeat split; try lia. constructor. lia.
Qed.

Lemma letterTotal_acc (s : jsstring) (acc : Z) :
  fold_left (fun total c => total + (c - 64)) s acc = acc + letterTotal s.
Proof.
  unfold letterTotal. revert acc.
  induction s as [|c s IH]; intros acc; simpl; [lia|].
  rewrite IH, (IH (0 + (c - 64))). lia.
Qed.

Lemma letterTotal_cons (c : Z) (s : jsstring) :
  letterTotal (c :: s) = (c - 64) + letterTotal s.
Proof. unfold letterTotal at 1. simpl. rewrite letterTotal_acc. lia. Qed.

Lemma alphabetPosition_nonneg (c : Z) : 0 <= alphabetPosition c.
Proof.
  unfold alphabetPosition, isUpperAZ, isLowerAZ.
  destruct ((65 <=? c) && (c <=? 90)) eqn:H1;
    [|destruct ((97 <=? c) && (c <=? 122)) eqn:H2]; lia.
Qed.

Lemma positionSum_nonneg (name : jsstring) : 0 <= positionSum name.
Proof.
  induction name as [|c name IH]; simpl; [lia|].
  pose proof (alphabetPosition_nonneg c). lia.
Qed.

Lemma positionSum_app (a b : jsstring) :
  positionSum (a ++ b) = positionSum a + positionSum b.
Proof. induction a as [|c a IH]; simpl; [reflexivity|]. rewrite IH. lia. Qed.

Lemma positionSum_letter (name : jsstring) :
  Exists (fun c => isUpperAZ c || isLowerAZ c = true) name ->
  1 <= positionSum name.
Proof.
  induction 1 as [c name Hc | c name _ IH]; simpl.
  - pose proof (positionSum_nonneg name).
    unfold alphabetPosition, isUpperAZ, isLowerAZ in *.
    destruct ((65 <=? c) && (c <=? 90)) eqn:H1;
      [|destruct ((97 <=? c) && (c <=? 122)) eqn:H2]; simpl in Hc; lia.
  - pose proof (alphabetPosition_nonneg c). lia.
Qed.

(** The loop adds up the alphabet positions of the letters it is given. *)
Lemma letterTotal_letters (letters : jsstring) :
  letterTotal (List.filter isUpperAZ letters)
  = positionSum (List.filter isUpperAZ letters).
Proof.
  induction letters as [|c letters IH]; [reflexivity|].
  cbn [List.filter]. destruct (isUpperAZ c) eqn:Hup; [|exact IH].
  rewrite letterTotal_cons, IH. cbn [positionSum fold_right].
  unfold alphabetPosition. rewrite Hup. reflexivity.
Qed.

(** A surrogate pair is one code point beyond the letters, and so are its
    two code units: reading a name by code points keeps its letter sum. *)
Lemma positionSum_codePoints_le (n : nat) :
  forall name : jsstring,
    (length name <= n)%nat -> positionSum (codePoints name) = positionSum name.
Proof.
  induction n as [|n IH]; intros [|c [|d name]] Hlen; simpl in Hlen;
    try reflexivity; try lia.
  cbn [codePoints].
  destruct (isHighSurrogate c && isLowSurrogate d) eqn:Hpair.
  - cbn [positionSum fold_right]. fold (positionSum (codePoints name)).
    fold (positionSum name).
    rewrite IH by lia.
    unfold isHighSurrogate, isLowSurrogate in Hpair.
    unfold alphabetPosition, isUpperAZ, isLowerAZ.
    repeat match goal with
           | |- context [if ?b then _ else _] => destruct b eqn:?
           end; lia.
  - change (positionSum (c :: codePoints (d :: name))
            = positionSum (c :: d :: name)).
    cbn [positionSum fold_right]. fold (positionSum (codePoints (d :: name))).
    fold (positionSum (d :: name)).
    rewrite IH by (simpl; lia). reflexivity.
Qed.

Lemma positionSum_codePoints (name : jsstring) :
  positionSum (codePoints name) = positionSum name.
Proof. apply (positionSum_codePoints_le (length name)). lia. Qed.

(** The letters a code point of Basic Latin gives are the letter itself, in
    upper case. *)
Lemma upperCasePoint_basic (cp : Z) :
  cp < 128 ->
  flat_map codeUnits (upperCasePoint cp) = [if isLowerAZ cp then cp - 32 else cp].
Proof.
  intros Hcp. unfold upperCasePoint.
  replace (cp <? 128) with true by (symmetry; apply Z.ltb_lt; exact Hcp).
  cbn [flat_map]. rewrite app_nil_r. unfold codeUnits.
  replace (_ <? 65536) with true; [reflexivity|].
  symmetry. apply Z.ltb_lt. destruct (isLowerAZ cp); lia.
Qed.

Lemma upperCasePoint_letters (cp : Z) :
  alphabetPosition cp
  <= positionSum (List.filter isUpperAZ (flat_map codeUnits (upperCasePoint cp)))
  /\ (cp < 128 ->
      positionSum (List.filter isUpperAZ (flat_map codeUnits (upperCasePoint cp)))
      = alphabetPosition cp).
Proof.
  destruct (Z_lt_dec cp 128) as [Hcp|Hcp].
  - assert (Heq : positionSum
                    (List.filter isUpperAZ (flat_map codeUnits (upperCasePoint cp)))
                  = alphabetPosition cp).
    { rewrite upperCasePoint_basic by exact Hcp.
      cbn [List.filter]. unfold alphabetPosition.
      destruct (isLowerAZ cp) eqn:Hlow.
      - replace (isUpperAZ (cp - 32)) with true
          by (unfold isLowerAZ, isUpperAZ in *; lia).
        replace (isUpperAZ cp) with false
          by (unfold isLowerAZ, isUpperAZ in *; lia).
        cbn [positionSum fold_right]. unfold alphabetPosition.
        replace (isUpperAZ (cp - 32)) with true
          by (unfold isLowerAZ, isUpperAZ in *; lia).
        lia.
      - destruct (isUpperAZ cp) eqn:Hup; cbn [positionSum fold_right];
          unfold alphabetPosition; rewrite ?Hup; lia. }
    split; [lia|intros _; exact Heq].
  - split; [|lia].
    replace (alphabetPosition cp) with 0
      by (unfold alphabetPosition, isUpperAZ, isLowerAZ;
          repeat match goal with
                 | |- context [if ?b then _ else _] => destruct b eqn:?
                 end; lia).
    apply positionSum_nonneg.
Qed.

(** The code units of a code point beyond the Basic Multilingual Plane are
    surrogates, no letters. *)
Lemma codeUnits_letters (points : list Z) :
  List.filter isUpperAZ (flat_map codeUnits points) = List.filter isUpperAZ points.
Proof.
  induction points as [|cp points IH]; [reflexivity|].
  cbn [flat_map]. rewrite List.filter_app, IH. cbn [List.filter].
  unfold codeUnits. destruct (cp <? 65536) eqn:Hbmp.
  - cbn [List.filter]. destruct (isUpperAZ cp); reflexivity.
  - apply Z.ltb_ge in Hbmp.
    pose proof (Z.div_pos (cp - 65536) 1024 ltac:(lia) ltac:(lia)).
    pose proof (Z.mod_pos_bound (cp - 65536) 1024 ltac:(lia)).
    cbn [List.filter].
    replace (isUpperAZ (55296 + (cp - 65536) / 1024)) with false
      by (unfold isUpperAZ; lia).
    replace (isUpperAZ (56320 + (cp - 65536) mod 1024)) with false
      by (unfold isUpperAZ; lia).
    replace (isUpperAZ cp) with false by (unfold isUpperAZ; lia).
    reflexivity.
Qed.

Lemma no_letter_filter (l : list Z) :
  forallb (fun c => negb (isUpperAZ c)) l = true -> List.filter isUpperAZ l = [].
Proof.
  induction l as [|c l IH]; [reflexivity|].
  cbn [forallb List.filter]. destruct (isUpperAZ c); [discriminate|exact IH].
Qed.

Lemma letterSources_member (cp : Z) :
  existsb (Z.eqb cp) letterSources = true -> In cp letterSources.
Proof.
  intros H. apply existsb_exists in H as (x & Hin & Heq).
  apply Z.eqb_eq in Heq. subst. exact Hin.
Qed.

(** Beyond Basic Latin, only the upper case of a character of
    [letterSources] holds a letter: the two tables are gone through. *)
Lemma upperCasePoint_no_letter (cp : Z) :
  128 <= cp -> ~ In cp letterSources ->
  List.filter isUpperAZ (upperCasePoint cp) = [].
Proof.
  intros Hcp Hsource. unfold upperCasePoint.
  replace (cp <? 128) with false by (symmetry; apply Z.ltb_ge; exact Hcp).
  unfold Unicode.mapped.
  destruct (List.find _ Unicode.upperCaseSpecial) as [entry|] eqn:Hspecial.
  - apply List.find_some in Hspecial as [Hin Heq]. apply Z.eqb_eq in Heq.
    assert (Htable :
      forallb (fun entry =>
                 forallb (fun c => negb (isUpperAZ c)) (snd entry)
                 || existsb (Z.eqb (fst entry)) letterSources)
        Unicode.upperCaseSpecial = true) by (vm_compute; reflexivity).
    rewrite forallb_forall in Htable. specialize (Htable entry Hin).
    apply orb_true_iff in Htable as [Hnone|Hlisted].
    + apply no_letter_filter. exact Hnone.
    + apply letterSources_member in Hlisted. rewrite Heq in Hlisted. contradiction.
  - destruct (List.find _ Unicode.upperCaseRuns) as [[[[first last] step] delta]|]
      eqn:Hrun.
    + apply List.find_some in Hrun as [Hin Hinside].
      assert (Htable :
        forallb (fun '(first, last, _, delta) =>
                   (last + delta <? 65) || (90 <? first + delta)
                   || ((first =? last) && existsb (Z.eqb first) letterSources))
          Unicode.upperCaseRuns = true) by (vm_compute; reflexivity).
      rewrite forallb_forall in Htable. specialize (Htable _ Hin).
      cbv beta iota in Htable. unfold Unicode.inRun in Hinside.
      cbn [List.filter].
      destruct (isUpperAZ (cp + delta)) eqn:Hup; [|reflexivity].
      exfalso. unfold isUpperAZ in Hup.
      apply orb_true_iff in Htable as [Hout|Hsingle].
      * lia.
      * apply andb_true_iff in Hsingle as [Hone Hlisted].
        apply letterSources_member in Hlisted.
        replace first with cp in Hlisted by lia. contradiction.
    + cbn [List.filter].
      replace (isUpperAZ cp) with false by (unfold isUpperAZ; lia).
      reflexivity.
Qed.

Lemma letterSources_range (cp : Z) : In cp letterSources -> 223 <= cp < 65536.
Proof. unfold letterSources. cbn [In]. intuition lia. Qed.

Lemma upperCasePoint_other (cp : Z) :
  ~ In cp letterSources ->
  positionSum (List.filter isUpperAZ (flat_map codeUnits (upperCasePoint cp)))
  = alphabetPosition cp.
Proof.
  intros Hsource. destruct (Z_lt_dec cp 128) as [Hcp|Hcp].
  - apply upperCasePoint_letters. exact Hcp.
  - rewrite codeUnits_letters, upperCasePoint_no_letter by (lia || assumption).
    unfold alphabetPosition, isUpperAZ, isLowerAZ.
    repeat match goal with
           | |- context [if ?b then _ else _] => destruct b eqn:?
           end; cbn [positionSum fold_right]; lia.
Qed.

Lemma upperCaseLetters_points (points : list Z) :
  positionSum points
  <= positionSum
       (List.filter isUpperAZ (flat_map codeUnits (flat_map upperCasePoint points)))
  /\ (Forall (fun cp => ~ In cp letterSources) points ->
      positionSum
        (List.filter isUpperAZ (flat_map codeUnits (flat_map upperCasePoint points)))
      = positionSum points).
Proof.
  induction points as [|cp points [IHle IHeq]]; [split; [reflexivity|reflexivity]|].
  cbn [flat_map]. rewrite flat_map_app, List.filter_app, positionSum_app.
  destruct (upperCasePoint_letters cp) as [Hle _].
  cbn [positionSum fold_right]. fold (positionSum points).
  split; [lia|].
  intros Hall. inversion Hall as [|? ? Hcp Hrest]; subst.
  rewrite upperCasePoint_other, IHeq by assumption. reflexivity.
Qed.

(** A code point of a name is one of its code units or lies beyond the
    Basic Multilingual Plane. *)
Lemma codePoints_units_le (n : nat) :
  forall name : jsstring,
    (length name <= n)%nat ->
    Forall (fun cp => In cp name \/ 65536 <= cp) (codePoints name).
Proof.
  induction n as [|n IH]; intros [|c [|d name]] Hlen; simpl in Hlen;
    try (constructor; fail); try lia.
  - constructor; [left; left; reflexivity|constructor].
  - cbn [codePoints].
    destruct (isHighSurrogate c && isLowSurrogate d) eqn:Hpair.
    + constructor.
      * right. unfold isHighSurrogate, isLowSurrogate in Hpair. lia.
      * eapply Forall_impl; [apply IH; lia|]. cbv beta.
        intros cp [Hin|Hbig]; [left; right; right; exact Hin|right; exact Hbig].
    + constructor; [left; left; reflexivity|].
      eapply Forall_impl; [apply (IH (d :: name)); simpl; lia|]. cbv beta.
      intros cp [Hin|Hbig]; [left; right; exact Hin|right; exact Hbig].
Qed.

(** Upper-casing and stripping what is not A-Z keeps the letters of the
    name, and adds letters only for the characters of [letterSources]. *)
Lemma upperCaseLetters_positionSum (name : jsstring) :
  positionSum name <= positionSum (upperCaseLetters name)
  /\ (Forall (fun c => ~ In c letterSources) name ->
      positionSum (upperCaseLetters name) = positionSum name).
Proof.
  unfold upperCaseLetters, toUpperCase.
  destruct (upperCaseLetters_points (codePoints name)) as [Hle Heq].
  rewrite positionSum_codePoints in Hle. split; [exact Hle|].
  intros Hall. rewrite Heq; [apply positionSum_codePoints|].
  pose proof (codePoints_units_le (length name) name ltac:(lia)) as Hunits.
  rewrite Forall_forall in Hall, Hunits. apply Forall_forall.
  intros cp Hcp Hsource. apply letterSources_range in Hsource as Hrange.
  destruct (Hunits cp Hcp) as [Hin|Hbig]; [|lia].
  apply list_elem_of_In in Hin. exact (Hall cp Hin Hsource).
Qed.

(** The value is what the reduction of the letter sum ends on, raised to 1
    when there is no letter. *)
Lemma computeNumerologyValue_reduces (text : jsstring) :
  let total := positionSum (upperCaseLetters text) in
  let r := reduceTotal (Z.to_nat total) total in
  computeNumerologyValue_ text = Z.max 1 r
  /\ 0 <= r <= 9
  /\ r mod 9 = total mod 9
  /\ (1 <= total -> 1 <= r)
  /\ ReducesTo total r.
Proof.
  cbv zeta. pose proof (positionSum_nonneg (upperCaseLetters text)) as Hn.
  split.
  - unfold computeNumerologyValue_. fold (upperCaseLetters text).
    unfold upperCaseLetters at 1 2. rewrite letterTotal_letters. reflexivity.
  - apply reduceTotal_spec. lia.
Qed.

(** The value is a single digit from 1 to 9 for every text. *)
Lemma computeNumerologyValue_range (text : jsstring) :
  1 <= computeNumerologyValue_ text <= 9.
Proof.
  destruct (computeNumerologyValue_reduces text) as (-> & Hr & _). lia.
Qed.

End NumerologyFacts.

(** C6, as stated, fails: upper-casing turns U+00DF into SS, so the name
    made of a and U+00DF, whose letters sum to 1, gets the value 3 of ASS. *)
Lemma computeNumerologyValue_counts_sharp_s :
  Exists (fun c => isUpperAZ c || isLowerAZ c = true) sharpName
  /\ positionSum sharpName = 1
  /\ upperCaseLetters sharpName = js "ASS"
  /\ computeNumerologyValue_ sharpName = 3
  /\ ~ ReducesTo (positionSum sharpName) (computeNumerologyValue_ sharpName).
Proof.
  split; [apply Exists_cons_hd; reflexivity|].
  split; [reflexivity|]. split; [vm_compute; reflexivity|].
  split; [vm_compute; reflexivity|].
  replace (computeNumerologyValue_ sharpName) with 3 by (vm_compute; reflexivity).
  change (positionSum sharpName) with 1.
  intros Hred. inversion Hred; lia.
Qed.

(** C6, amended. For a name holding at least one Basic Latin letter,
    [computeNumerologyValue_] is an integer from 1 to 9, never 0: it is what
    repeated digit-summing ends on, that is [1 + (sum - 1) mod 9], for the
    sum of the alphabet positions of the letters A-Z of the upper-cased
    name, and a sum of exactly 10 gives 1.  The letters of the upper-cased
    name include the letters of the name.  They are the letters of the name
    and nothing else when the name has none of the seventeen characters of
    [letterSources], the ones beyond Basic Latin whose upper case holds a
    letter, such as U+00DF; a name of Basic Latin code units has none.
    "AB" gives 3. *)
Theorem computeNumerologyValue_digit_root (name : jsstring)
  (Hletter : Exists (fun c => isUpperAZ c || isLowerAZ c = true) name) :
  1 <= computeNumerologyValue_ name <= 9
  /\ computeNumerologyValue_ name <> 0
  /\ ReducesTo (positionSum (upperCaseLetters name)) (computeNumerologyValue_ name)
  /\ computeNumerologyValue_ name
     = 1 + (positionSum (upperCaseLetters name) - 1) mod 9
  /\ (positionSum (upperCaseLetters name) = 10 -> computeNumerologyValue_ name = 1)
  /\ positionSum name <= positionSum (upperCaseLetters name)
  /\ (Forall (fun c => ~ In c letterSources) name ->
      positionSum (upperCaseLetters name) = positionSum name)
  /\ (Forall (fun c => 0 <= c < 128) name ->
      positionSum (upperCaseLetters name) = positionSum name)
  /\ computeNumerologyValue_ (js "AB") = 3.
Proof.
  pose proof (positionSum_letter name Hletter) as Hone.
  destruct (upperCaseLetters_positionSum name) as [Hle Hbasic].
  destruct (computeNumerologyValue_reduces name) as (Hval & Hr & Hmod & H1 & Hred).
  cbv zeta in *.
  set (t := positionSum (upperCaseLetters name)) in *.
  specialize (H1 ltac:(lia)).
  rewrite Z.max_r in Hval by lia. rewrite <- Hval in *.
  set (v := computeNumerologyValue_ name) in *.
  assert (Hclosed : v = 1 + (t - 1) mod 9).
  { pose proof (Z.mod_pos_bound (t - 1) 9 ltac:(lia)) as Hb.
    assert (Hdiv : (v - 1) mod 9 = (t - 1) mod 9).
    { rewrite <- (Zminus_mod_idemp_l v), <- (Zminus_mod_idemp_l t), Hmod.
      reflexivity. }
    rewrite <- Hdiv. rewrite Z.mod_small by lia. lia. }
  split; [lia|]. split; [lia|]. split; [exact Hred|]. split; [exact Hclosed|].
  split; [intros H10; rewrite Hclosed, H10; reflexivity|].
  split; [exact Hle|]. split; [exact Hbasic|]. split.
  - intros Hall. apply Hbasic. eapply Forall_impl; [exact Hall|]. cbv beta.
    intros c Hc Hsource. apply letterSources_range in Hsource. lia.
  - vm_compute. reflexivity.
Qed.

Lemma computeNumerologyValue_digit_root_witness :
  Exists (fun c => isUpperAZ c || isLowerAZ c = true) strasse
  /\ upperCaseLetters strasse = js "STRASSE"
  /\ ReducesTo (positionSum (upperCaseLetters strasse))
       (computeNumerologyValue_ strasse)
  /\ computeNumerologyValue_ strasse
     = 1 + (positionSum (upperCaseLetters strasse) - 1) mod 9.
Proof.
  assert (Hletter : Exists (fun c => isUpperAZ c || isLowerAZ c = true) strasse).
  { apply Exists_cons_hd. reflexivity. }
  destruct (computeNumerologyValue_digit_root strasse Hletter)
    as (_ & _ & Hred & Hclosed & _).
  split; [exact Hletter|]. split; [vm_compute; reflexivity|].
  split; [exact Hred|exact Hclosed].
Defined.

Example numerology_ada : computeNumerologyValue_ (js "Ada Lovelace") = 9.
Proof. vm_compute. reflexivity. Qed.

Example numerology_sum_ten : computeNumerologyValue_ (js "J") = 1.
Proof. vm_compute. reflexivity. Qed.

Example numerology_no_letter : computeNumerologyValue_ (js "1234 !") = 1.
Proof. vm_compute. reflexivity. Qed.

(** U+00DF counts as SS, U+FB01 as FI, U+0131 as I; U+00E9 becomes U+00C9,
    which is no letter A-Z. *)
Example numerology_beyond_basic_latin :
  computeNumerologyValue_ strasse = 2
  /\ computeNumerologyValue_ [97; 64257] = 7
  /\ computeNumerologyValue_ [305] = 9
  /\ toUpperCase [233] = [201]
  /\ computeNumerologyValue_ [97; 233] = 1.
Proof. vm_compute. repeat split; reflexivity. Qed.

(** * Zodiac lookup *)

Section ZodiacFacts.

Lemma in_zrange (lo x : Z) (n : nat) :
  lo <= x < lo + Z.of_nat n -> In x (zrange lo n).
Proof.
  intros Hx. unfold zrange. apply in_map_iff.
  exists (Z.to_nat (x - lo)). split; [lia|].
  apply in_seq. lia.
Qed.

Lemma calendar_matched :
  forallb (fun month => forallb (matchedByInterval month) (zrange 1 31)) (zrange 1 12)
  = true.
Proof. vm_compute. reflexivity. Qed.

Lemma getZodiacProfile_in_table (month day : Z) :
  In (getZodiacProfile_ month day) profiles.
Proof.
  unfold getZodiacProfile_.
  destruct (List.find _ profiles) as [profile|] eqn:Hfind.
  - apply find_some in Hfind. tauto.
  - left. reflexivity.
Qed.

End ZodiacFacts.

(** C7. Every date with a month from 1 to 12 and a day from 1 to 31 falls
    in an interval of the table and gets one of its 12 profiles.  12-25 is
    Capricorn, 6-21 Cancer, 12-21 Sagittarius, 12-22 Capricorn.  The start
    date and the end date of every profile resolve to that profile, and the
    Capricorn interval starts later in the year than it ends, holding both
    12-31 and 1-1. *)
Theorem getZodiacProfile_table_lookup (month day : Z)
  (Hmonth : 1 <= month <= 12) (Hday : 1 <= day <= 31) :
  In (getZodiacProfile_ month day) profiles
  /\ matchedByInterval month day = true
  /\ length profiles = 12%nat
  /\ sign (getZodiacProfile_ 12 25) = js "Capricorn"
  /\ sign (getZodiacProfile_ 6 21) = js "Cancer"
  /\ sign (getZodiacProfile_ 12 21) = js "Sagittarius"
  /\ sign (getZodiacProfile_ 12 22) = js "Capricorn"
  /\ forallb boundariesInclusive profiles = true
  /\ boundaryDate (end_ capricorn) < boundaryDate (start capricorn)
  /\ sign (getZodiacProfile_ 12 31) = js "Capricorn"
  /\ sign (getZodiacProfile_ 1 1) = js "Capricorn".
Proof.
  split; [apply getZodiacProfile_in_table|]. split.
  - pose proof calendar_matched as Hall.
    rewrite forallb_forall in Hall.
    specialize (Hall month (in_zrange 1 month 12 ltac:(lia))).
    rewrite forallb_forall in Hall.
    exact (Hall day (in_zrange 1 day 31 ltac:(lia))).
  - repeat split; vm_compute; reflexivity.
Qed.

Lemma getZodiacProfile_table_lookup_witness :
  1 <= 2 <= 12 /\ 1 <= 29 <= 31
  /\ In (getZodiacProfile_ 2 29) profiles
  /\ matchedByInterval 2 29 = true.
Proof.
  split; [lia|]. split; [lia|].
  split; apply (getZodiacProfile_table_lookup 2 29); lia.
Defined.

Example zodiac_day_past_month_end :
  sign (getZodiacProfile_ 2 31) = js "Pisces".
Proof. vm_compute. reflexivity. Qed.

(** * Remote override: normalisation *)

Section NormalizeFacts.

(** Induction on a parsed value, with the property at hand for the items
    of an array. *)
Lemma json_items_ind (P : json -> Prop) :
  P JNull ->
  (forall b, P (JBool b)) ->
  (forall n, P (JNumber n)) ->
  (forall s, P (JString s)) ->
  (forall items, Forall P items -> P (JArray items)) ->
  (forall members, P (JObject members)) ->
  forall v, P v.
Proof.
  intros Hnull Hbool Hnumber Hstring Harray Hobject.
  fix IH 1. intros [| b | n | s | items | members].
  - exact Hnull.
  - apply Hbool.
  - apply Hnumber.
  - apply Hstring.
  - apply Harray. induction items as [|item items IHitems].
    + constructor.
    + constructor; [apply IH|exact IHitems].
  - apply Hobject.
Qed.

Lemma traverse_each {A B : Type} (f : A -> result B) (ok : A -> bool) (g : A -> B)
  (l : list A) :
  Forall (fun a => f a = if ok a then Ok (g a) else Err TypeError) l ->
  traverse f l = if forallb ok l then Ok (List.map g l) else Err TypeError.
Proof.
  induction 1 as [|a l Ha _ IH]; [reflexivity|].
  cbn [traverse forallb List.map]. rewrite Ha, IH.
  destruct (ok a); [|reflexivity].
  destruct (forallb ok l); reflexivity.
Qed.

(** [String] throws on the values that are not convertible, and gives the
    printed text of the others. *)
Lemma stringOf_convertible (v : json) :
  stringOf v = if convertible v then Ok (printed v) else Err TypeError.
Proof.
  induction v as [| b | n | s | items IH | members] using json_items_ind;
    try reflexivity.
  - destruct b; reflexivity.
  - cbn [stringOf convertible printed].
    rewrite (traverse_each _ convertible
               (fun item => match item with JNull => [] | _ => printed item end)).
    + destruct (forallb convertible items); reflexivity.
    + eapply Forall_impl; [exact IH|]. cbv beta.
      intros [| b | n | s | items' | members] Hitem; try reflexivity;
        exact Hitem.
  - cbn [stringOf convertible printed].
    destruct (ownMember members (js "toString")); reflexivity.
Qed.

Lemma trimmedString_convertible (v : json) :
  trimmedString v = if convertible v then Ok (trim (printed v)) else Err TypeError.
Proof.
  unfold trimmedString. rewrite stringOf_convertible.
  destruct (convertible v); reflexivity.
Qed.

Lemma textField_object (members : list (jsstring * json)) (k : key)
  (fallback : jsstring) :
  textField (JObject members) k fallback
  = if textConvertible (ownMember members (keyName k))
    then Ok (normalizedText (ownMember members (keyName k)) fallback)
    else Err TypeError.
Proof.
  unfold textField, guardedMember. cbn [truthy getMember].
  destruct (ownMember members (keyName k)) as [v|]; [|reflexivity].
  unfold textConvertible. destruct (truthy (Some v)) eqn:Htruthy.
  - rewrite trimmedString_convertible.
    destruct v as [| [|] | n | [|c s] | items | ms]; try discriminate;
      try reflexivity.
    cbn [truthy] in Htruthy. cbn [convertible normalizedText].
    destruct (isZero n); [discriminate|reflexivity].
  - destruct v as [| [|] | n | [|c s] | items | ms]; try discriminate;
      try reflexivity.
    cbn [truthy] in Htruthy. cbn [normalizedText].
    destruct (isZero n); [reflexivity|discriminate].
Qed.

Lemma listField_object (members : list (jsstring * json)) (k : key) :
  listField (JObject members) k
  = if listConvertible (ownMember members (keyName k))
    then Ok (normalizedList (ownMember members (keyName k)))
    else Err TypeError.
Proof.
  unfold listField, guardedMember. cbn [truthy getMember].
  destruct (ownMember members (keyName k)) as [[| b | n | s | items | ms]|];
    try reflexivity.
  cbn [listConvertible normalizedList].
  apply traverse_each. apply Forall_forall. intros entry _.
  apply trimmedString_convertible.
Qed.

Lemma textField_not_object (raw : json) (k : key) (fallback : jsstring) :
  notAnObject raw = true ->
  k = k_drinkName \/ k = k_reason \/ k = k_compatibility ->
  textField raw k fallback = Ok fallback.
Proof.
  intros Hraw Hk. unfold textField, guardedMember.
  destruct raw as [| [|] | n | [|c s] | items | ms]; simpl in *;
    try discriminate; try reflexivity;
    try (destruct Hk as [-> | [-> | ->]]; reflexivity).
  destruct (isZero n) eqn:Hzero; simpl; rewrite ?Hzero; simpl;
    destruct Hk as [-> | [-> | ->]]; reflexivity.
Qed.

Lemma listField_not_object (raw : json) (k : key) :
  notAnObject raw = true ->
  k = k_ingredients \/ k = k_instructions ->
  listField raw k = Ok [].
Proof.
  intros Hraw Hk. unfold listField, guardedMember.
  destruct raw as [| [|] | n | [|c s] | items | ms]; simpl in *;
    try discriminate; try reflexivity;
    try (destruct Hk as [-> | ->]; reflexivity).
  destruct (isZero n) eqn:Hzero; simpl; rewrite ?Hzero; simpl;
    destruct Hk as [-> | ->]; reflexivity.
Qed.

(** A raw object is normalised by the rules when its five fields can be
    converted, and makes the function throw otherwise. *)
Lemma normalizeOpenAiBlueprint_object (members : list (jsstring * json))
  (context : Context) :
  normalizeOpenAiBlueprint_ (JObject members) context
  = if fieldsConvertible members
    then Ok (normalizedBlueprint members context)
    else Err TypeError.
Proof.
  unfold normalizeOpenAiBlueprint_, fieldsConvertible, normalizedBlueprint.
  rewrite !textField_object, !listField_object. cbn [keyName].
  destruct (textConvertible (ownMember members (js "drinkName"))); [|reflexivity].
  destruct (textConvertible (ownMember members (js "reason"))); [|reflexivity].
  destruct (listConvertible (ownMember members (js "ingredients"))); [|reflexivity].
  destruct (listConvertible (ownMember members (js "instructions"))); [|reflexivity].
  destruct (textConvertible (ownMember members (js "compatibility"))); reflexivity.
Qed.

(** A raw value that is not an object has none of the five members. *)
Lemma normalizeOpenAiBlueprint_not_object (raw : json) (context : Context) :
  notAnObject raw = true ->
  normalizeOpenAiBlueprint_ raw context = Ok (defaultBlueprint context).
Proof.
  intros Hraw. unfold normalizeOpenAiBlueprint_.
  rewrite !textField_not_object, !listField_not_object by auto.
  reflexivity.
Qed.

(** The normalisation throws nothing but the [TypeError] of a conversion. *)
Lemma normalizeOpenAiBlueprint_throws (raw : json) (context : Context) (e : error) :
  normalizeOpenAiBlueprint_ raw context = Err e ->
  e = TypeError
  /\ exists members, raw = JObject members /\ fieldsConvertible members = false.
Proof.
  destruct (notAnObject raw) eqn:Hraw.
  - rewrite normalizeOpenAiBlueprint_not_object by exact Hraw. discriminate.
  - destruct raw as [| b | n | s | items | members]; try discriminate.
    rewrite normalizeOpenAiBlueprint_object.
    destruct (fieldsConvertible members) eqn:Hfields; [discriminate|].
    intros H. injection H as <-. eauto.
Qed.

End NormalizeFacts.

(** C3, as stated, fails: a member that is not a string, here [true], is
    not replaced by the default but printed; an empty string is replaced by
    the default; and a raw object without [ingredients] whose [drinkName] is
    an object with a member [toString] makes the function throw. *)
Lemma normalizeOpenAiBlueprint_claimed_text_rule_fails :
  let context := buildGenerationContext_ sampleRequest in
  let fallback := ctx_firstName context ++ js " Signature Sip" in
  let raw1 := [(js "drinkName", JBool true)] in
  let raw2 := [(js "drinkName", JString [])] in
  let raw3 :=
    [(js "drinkName", JObject [(js "toString", JNumber (numberOfZ 1))])] in
  normalizeOpenAiBlueprint_ (JObject raw1) context
  = Ok {| drinkName := js "true";
          reason := js "A bespoke creation blending celestial and personal motifs.";
          ingredients := [];
          instructions := [];
          compatibility := js "Tailored compatibility insight unavailable." |}
  /\ js "true" <> claimedText (ownMember raw1 (js "drinkName")) fallback
  /\ normalizeOpenAiBlueprint_ (JObject raw2) context
     = Ok (defaultBlueprint context)
  /\ claimedText (ownMember raw2 (js "drinkName")) fallback = []
  /\ drinkName (defaultBlueprint context) = js "Ada Signature Sip"
  /\ ownMember raw3 (js "ingredients") = None
  /\ normalizeOpenAiBlueprint_ (JObject raw3) context = Err TypeError.
Proof.
  vm_compute. repeat split; try reflexivity; discriminate.
Qed.

(** C3, amended. For a raw object whose fields can be converted (see
    [fieldsConvertible]: no truthy [drinkName], [reason] or [compatibility],
    and no element of an array [ingredients] or [instructions], is an object
    with a member [toString] of its own, or an array holding such an object
    at any depth) the function returns a blueprint.  In it each of
    [drinkName], [reason] and [compatibility] follows [normalizedText] on the
    raw member, with fallbacks that are the first name followed by
    " Signature Sip" and two fixed sentences; [ingredients] and
    [instructions] follow [normalizedList]; a raw object without
    [ingredients] gives the empty sequence.  For any other raw object the
    function throws a [TypeError]; a missing [ingredients] is never what
    makes it throw.  A raw value that is not an object gives the three
    fallbacks and two empty sequences. *)
Theorem normalizeOpenAiBlueprint_field_rules
  (members : list (jsstring * json)) (other : json) (context : Context) :
  let member := fun k => ownMember members (keyName k) in
  let fallbackName := ctx_firstName context ++ js " Signature Sip" in
  let fallbackReason :=
    js "A bespoke creation blending celestial and personal motifs." in
  let fallbackCompatibility := js "Tailored compatibility insight unavailable." in
  (fieldsConvertible members = true ->
   exists blueprint,
     normalizeOpenAiBlueprint_ (JObject members) context = Ok blueprint
     /\ drinkName blueprint = normalizedText (member k_drinkName) fallbackName
     /\ reason blueprint = normalizedText (member k_reason) fallbackReason
     /\ compatibility blueprint
        = normalizedText (member k_compatibility) fallbackCompatibility
     /\ ingredients blueprint = normalizedList (member k_ingredients)
     /\ instructions blueprint = normalizedList (member k_instructions)
     /\ (member k_ingredients = None -> ingredients blueprint = []))
  /\ (fieldsConvertible members = false ->
      normalizeOpenAiBlueprint_ (JObject members) context = Err TypeError)
  /\ (member k_ingredients = None ->
      fieldsConvertible members
      = textConvertible (member k_drinkName)
        && textConvertible (member k_reason)
        && listConvertible (member k_instructions)
        && textConvertible (member k_compatibility))
  /\ (notAnObject other = true ->
      normalizeOpenAiBlueprint_ other context
      = Ok {| drinkName := fallbackName;
              reason := fallbackReason;
              ingredients := [];
              instructions := [];
              compatibility := fallbackCompatibility |}).
Proof.
  cbv zeta. rewrite normalizeOpenAiBlueprint_object. cbn [keyName].
  split; [|split; [|split]].
  - intros ->. exists (normalizedBlueprint members context).
    unfold normalizedBlueprint.
    cbn [drinkName reason ingredients instructions compatibility].
    repeat split; try reflexivity.
    intros ->. reflexivity.
  - intros ->. reflexivity.
  - intros Hnone. unfold fieldsConvertible. rewrite Hnone.
    cbn [listConvertible]. rewrite andb_true_r. reflexivity.
  - intros Hother. apply normalizeOpenAiBlueprint_not_object. exact Hother.
Qed.

Example normalize_missing_ingredients :
  normalizeOpenAiBlueprint_
    (JObject [(js "drinkName", JString (js "  Nebula  "))])
    (buildGenerationContext_ sampleRequest)
  = Ok {| drinkName := js "Nebula";
          reason := js "A bespoke creation blending celestial and personal motifs.";
          ingredients := [];
          instructions := [];
          compatibility := js "Tailored compatibility insight unavailable." |}.
Proof. vm_compute. reflexivity. Qed.

(** An object with a member [toString] of its own stops the conversion also
    inside an array; [null] in an array is printed as nothing. *)
Example stringOf_arrays :
  stringOf (JArray [JNumber (numberOfZ 1); JNull; JArray [JBool true; JObject []]])
  = Ok (js "1,,true,[object Object]")
  /\ stringOf (JArray [JArray [JObject [(js "toString", JNull)]]]) = Err TypeError
  /\ normalizeOpenAiBlueprint_
       (JObject [(js "ingredients",
                  JArray [JString (js " gin "); JObject [(js "toString", JNull)]])])
       (buildGenerationContext_ sampleRequest) = Err TypeError.
Proof. vm_compute. repeat split; reflexivity. Qed.

(** * Request validation *)

Section ValidationFacts.

Lemma isRecognizedKey_cases (key : jsstring) :
  isRecognizedKey key = true ->
  key = js "astro" \/ key = js "numerology" \/ key = js "chrono"
  \/ key = js "oracle" \/ key = js "dynasty".
Proof.
  unfold isRecognizedKey, recognizedKeys. intros H.
  apply existsb_exists in H as (k & Hin & Hk).
  apply jsstring_eqb_eq in Hk. subst k.
  cbn [In] in Hin. intuition.
Qed.

(** A recognised key has a label of its own, which is truthy. *)
Lemma recognized_label_truthy (key : jsstring) :
  isRecognizedKey key = true ->
  truthyProperty (readProperty GENERATOR_LABELS key) = true.
Proof.
  intros H. apply isRecognizedKey_cases in H.
  destruct H as [-> | [-> | [-> | [-> | ->]]]]; vm_compute; reflexivity.
Qed.

(** The keys the generator check lets through: the five, and the names of
    the members every object inherits. *)
Lemma label_truthy_keys (key : jsstring) :
  truthyProperty (readProperty GENERATOR_LABELS key)
  = isRecognizedKey key || existsb (jsstring_eqb key) objectPrototypeMembers.
Proof.
  unfold readProperty, isRecognizedKey, recognizedKeys, GENERATOR_LABELS.
  cbn [ownProperty existsb].
  rewrite !(jsstring_eqb_sym key).
  destruct (jsstring_eqb (js "astro") key); [reflexivity|].
  destruct (jsstring_eqb (js "numerology") key); [reflexivity|].
  destruct (jsstring_eqb (js "chrono") key); [reflexivity|].
  destruct (jsstring_eqb (js "oracle") key); [reflexivity|].
  destruct (jsstring_eqb (js "dynasty") key); [reflexivity|].
  cbn [orb].
  match goal with |- context [if ?b then _ else _] => destruct b end; reflexivity.
Qed.

(** For a payload whose key is one of the five, or names no member of
    [Object.prototype], the validation reports the first violated check
    and otherwise returns the sanitized fields. *)
Lemma sanitizeGenerationRequest_first_violation (now : Z) (payload : Payload) :
  isRecognizedKey (trim (payload_generatorKey payload))
  = truthyProperty (readProperty GENERATOR_LABELS (trim (payload_generatorKey payload))) ->
  sanitizeGenerationRequest_ now (Some payload)
  = match firstViolation now payload with
    | Some message => Err (Thrown message)
    | None => Ok (sanitizedFields payload)
    end.
Proof.
  intros Hkey. unfold sanitizeGenerationRequest_, firstViolation.
  rewrite <- Hkey.
  destruct (isRecognizedKey _); simpl; [|reflexivity].
  destruct (outside (payload_birthMonth payload) 1 12); [reflexivity|].
  destruct (outside (payload_birthDay payload) 1 31); [reflexivity|].
  destruct (outside (payload_birthYear payload) 1900 _); [reflexivity|].
  unfold sanitizedFields.
  destruct (trim (payload_firstName payload)) as [|c1 s1];
    destruct (trim (payload_lastName payload)) as [|c2 s2]; reflexivity.
Qed.

Lemma sanitizeGenerationRequest_missing (now : Z) :
  sanitizeGenerationRequest_ now None = Err (Thrown (js "Generation payload is missing.")).
Proof. reflexivity. Qed.

End ValidationFacts.

(** C5, the failing input. The key "constructor" is not one of the five,
    yet [GENERATOR_LABELS["constructor"]] is the member inherited from
    [Object.prototype], which is truthy: the validation returns a request
    with that key, and when the month is 13 as well it reports the month,
    not the generator.  [getGeneratorByKey_], reached later in
    [generateDrink], does refuse the key. *)
Theorem sanitizeGenerationRequest_inherited_key_passes :
  sanitizeGenerationRequest_ sampleNow (Some (samplePayload (js "constructor")))
  = Ok {| generatorKey := js "constructor";
          birthMonth := 6;
          birthDay := 15;
          birthYear := 1990;
          firstName := js "Ada";
          lastName := js "Lovelace" |}
  /\ firstViolation sampleNow (samplePayload (js "constructor"))
     = Some (js "An unsupported generator was selected.")
  /\ sanitizeGenerationRequest_ sampleNow
       (Some {| payload_generatorKey := js "constructor";
                payload_birthMonth := Integer 13;
                payload_birthDay := Integer 15;
                payload_birthYear := Integer 1990;
                payload_firstName := js "Ada";
                payload_lastName := js "Lovelace" |})
     = Err (Thrown (js "Birth month must be an integer between 1 and 12."))
  /\ getGeneratorByKey_ (js "constructor")
     = Err (Thrown (js "Unsupported generator key: constructor")).
Proof. vm_compute. repeat split; reflexivity. Qed.

(** The rejections the claim lists, on payloads with a recognised key. *)
Example sanitize_rejections :
  let with_ := fun month day year first =>
    sanitizeGenerationRequest_ sampleNow
      (Some {| payload_generatorKey := js "astro";
               payload_birthMonth := month;
               payload_birthDay := day;
               payload_birthYear := year;
               payload_firstName := first;
               payload_lastName := js "Lovelace" |}) in
  with_ (Integer 13) (Integer 15) (Integer 1990) (js "Ada")
  = Err (Thrown (js "Birth month must be an integer between 1 and 12."))
  /\ with_ (Integer 6) (Integer 0) (Integer 1990) (js "Ada")
     = Err (Thrown (js "Birth day must be an integer between 1 and 31."))
  /\ with_ (Integer 6) (Integer 15) (Integer 1899) (js "Ada")
     = Err (Thrown (js "Birth year is invalid or not provided."))
  /\ with_ (Integer 6) (Integer 15) (Integer 2027) (js "Ada")
     = Err (Thrown (js "Birth year is invalid or not provided."))
  /\ with_ NotInteger (Integer 15) (Integer 1990) (js "Ada")
     = Err (Thrown (js "Birth month must be an integer between 1 and 12."))
  /\ with_ (Integer 6) (Integer 15) (Integer 1990) (js "  ")
     = Err (Thrown (js "First name and last name are required for drink generation."))
  /\ sanitizeGenerationRequest_ sampleNow (Some (samplePayload (js "tarot")))
     = Err (Thrown (js "An unsupported generator was selected.")).
Proof. vm_compute. repeat split; reflexivity. Qed.

(** An inherited member in a concatenation: a function prints as its
    source, [Object.prototype] as an object. *)
Example propertyText_inherited :
  propertyText (readProperty GENERATOR_LABELS (js "constructor"))
  = js "function Object() { [native code] }"
  /\ propertyText (readProperty GENERATOR_LABELS (js "valueOf"))
     = js "function valueOf() { [native code] }"
  /\ propertyText (readProperty GENERATOR_LABELS (js "__proto__"))
     = js "[object Object]"
  /\ propertyText (readProperty GENERATOR_LABELS (js "astro"))
     = js "Astrological Elixir Generator".
Proof. vm_compute. repeat split; reflexivity. Qed.

(** * Vote registration *)

Section VoteFacts.

Lemma findVotes_none (values : list Row) (drinkId : jsstring) (i : nat) :
  Forall (fun row => row_drinkId row <> drinkId) values ->
  findVotes values drinkId i = None.
Proof.
  intros Hall. revert i. induction Hall as [|row values Hrow _ IH]; intros i.
  - reflexivity.
  - simpl. apply jsstring_eqb_neq in Hrow. rewrite Hrow. apply IH.
Qed.

Lemma findVotes_first (before after : list Row) (row : Row)
  (drinkId : jsstring) (i : nat) :
  Forall (fun r => row_drinkId r <> drinkId) before ->
  row_drinkId row = drinkId ->
  findVotes (before ++ row :: after) drinkId i
  = Some ((i + length before)%nat, row_voteCount row).
Proof.
  intros Hbefore Hrow. revert i.
  induction Hbefore as [|r before Hr _ IH]; intros i.
  - simpl. rewrite Hrow, jsstring_eqb_refl. do 2 f_equal. lia.
  - simpl. apply jsstring_eqb_neq in Hr. rewrite Hr.
    rewrite IH. do 2 f_equal. lia.
Qed.

Lemma alter_middle (f : Row -> Row) (before after : list Row) (row : Row) :
  alter f (length before) (before ++ row :: after) = before ++ f row :: after.
Proof.
  induction before as [|r before IH]; simpl; [reflexivity|].
  f_equal. exact IH.
Qed.

End VoteFacts.

(** C2, as stated, fails on the empty identifier: it matches no row of the
    empty store, and the error raised is not the not-found error. *)
Lemma registerVote_empty_identifier_not_notFound :
  Forall (fun row => row_drinkId row <> []) (primarySheet emptyStore)
  /\ registerVote 0 [] emptyStore = (Err identifierRequired, emptyStore)
  /\ fst (registerVote 0 [] emptyStore) <> Err notFound.
Proof.
  split; [constructor|]. split; [reflexivity|].
  vm_compute. discriminate.
Qed.

(** C2, amended. For a non-empty identifier: when no stored row has it,
    [registerVote] raises the not-found error and leaves both sheets as
    they were; when some row has it, the first such row gets its previous
    vote count plus 1, every other row is untouched, one audit row is
    appended with that previous count and the new one, and the new count is
    returned.  The empty identifier raises the identifier-required error
    and leaves both sheets as they were. *)
Theorem registerVote_spec (now : Z) (drinkId : jsstring) (store : Store)
  (Hid : drinkId <> []) :
  (Forall (fun row => row_drinkId row <> drinkId) (primarySheet store) ->
   registerVote now drinkId store = (Err notFound, store))
  /\ (forall (before after : list Row) (row : Row),
        primarySheet store = before ++ row :: after ->
        Forall (fun r => row_drinkId r <> drinkId) before ->
        row_drinkId row = drinkId ->
        registerVote now drinkId store
        = (Ok {| vote_drinkId := drinkId; vote_voteCount := row_voteCount row + 1 |},
           {| primarySheet :=
                before ++ setVoteCount (row_voteCount row + 1) row :: after;
              votesSheet :=
                votesSheet store ++ [incrementAudit now drinkId (row_voteCount row)] |})
        /\ row_voteCount (setVoteCount (row_voteCount row + 1) row)
           = row_voteCount row + 1)
  /\ registerVote now [] store = (Err identifierRequired, store).
Proof.
  destruct drinkId as [|c drinkId]; [contradiction|].
  split; [|split].
  - intros Hnone. unfold registerVote, ensureSpreadsheetStructure_.
    rewrite findVotes_none by exact Hnone. reflexivity.
  - intros before after row Hrows Hbefore Hrow.
    split; [|reflexivity].
    unfold registerVote, ensureSpreadsheetStructure_.
    rewrite Hrows, (findVotes_first before after row _ 0 Hbefore Hrow).
    cbn [Nat.add]. rewrite alter_middle. reflexivity.
  - reflexivity.
Qed.

Lemma registerVote_spec_witness :
  js "b" <> []
  /\ registerVote 7 (js "b")
       {| primarySheet := [sampleRow (js "a") 3; sampleRow (js "b") 4];
          votesSheet := [] |}
     = (Ok {| vote_drinkId := js "b"; vote_voteCount := 5 |},
        {| primarySheet := [sampleRow (js "a") 3; sampleRow (js "b") 5];
           votesSheet := [incrementAudit 7 (js "b") 4] |}).
Proof.
  assert (Hid : js "b" <> []) by discriminate.
  split; [exact Hid|].
  destruct (registerVote_spec 7 (js "b")
              {| primarySheet := [sampleRow (js "a") 3; sampleRow (js "b") 4];
                 votesSheet := [] |} Hid) as (_ & Hfound & _).
  destruct (Hfound [sampleRow (js "a") 3] [] (sampleRow (js "b") 4)) as [Hvote _].
  - reflexivity.
  - constructor; [discriminate | constructor].
  - reflexivity.
  - exact Hvote.
Defined.

(** * Persist, then list *)

Section RoundTripFacts.

Lemma trimStart_length (s : jsstring) : (length (trimStart s) <= length s)%nat.
Proof.
  induction s as [|c s IH]; simpl; [lia|].
  destruct (isWhiteSpace c); simpl; lia.
Qed.

Lemma trimEnd_length (s : jsstring) : (length (trimEnd s) <= length s)%nat.
Proof.
  unfold trimEnd. rewrite length_rev.
  pose proof (trimStart_length (rev s)) as H. rewrite length_rev in H. exact H.
Qed.

Lemma trimStart_fixed (s : jsstring) :
  length (trimStart s) = length s -> trimStart s = s.
Proof.
  destruct s as [|c s]; simpl; [reflexivity|].
  destruct (isWhiteSpace c); [|reflexivity].
  pose proof (trimStart_length s). lia.
Qed.

(** An entry equal to its trimmed form is trimmed at neither end. *)
Lemma trim_fixed (s : jsstring) :
  trim s = s -> trimStart s = s /\ trimEnd s = s.
Proof.
  intros H. unfold trim in H.
  assert (Hs : trimStart s = s).
  { apply trimStart_fixed.
    pose proof (trimEnd_length (trimStart s)) as H1.
    pose proof (trimStart_length s) as H2.
    rewrite H in H1. lia. }
  split; [exact Hs|]. rewrite Hs in H. exact H.
Qed.

Lemma trimStart_space (s : jsstring) : trimStart (32 :: s) = trimStart s.
Proof. reflexivity. Qed.

Lemma trimEnd_space (s : jsstring) : trimEnd (s ++ [32]) = trimEnd s.
Proof. unfold trimEnd. rewrite rev_app_distr. reflexivity. Qed.

Lemma trimStart_app (s t : jsstring) :
  s <> [] -> trimStart s = s -> trimStart (s ++ t) = s ++ t.
Proof.
  destruct s as [|c s]; [contradiction|]. intros _. simpl.
  destruct (isWhiteSpace c); [|reflexivity].
  intros H. pose proof (trimStart_length s) as Hl. rewrite H in Hl.
  simpl in Hl. lia.
Qed.

Lemma trim_padded_end (s : jsstring) : trim s = s -> trim (s ++ [32]) = s.
Proof.
  intros H. apply trim_fixed in H as [Hs He]. unfold trim.
  destruct s as [|c s]; [reflexivity|].
  rewrite trimStart_app by (discriminate || exact Hs).
  rewrite trimEnd_space. exact He.
Qed.

Lemma trim_padded_start (s : jsstring) : trim s = s -> trim (32 :: s) = s.
Proof. intros H. unfold trim. rewrite trimStart_space. exact H. Qed.

Lemma trim_padded (s : jsstring) : trim s = s -> trim (32 :: s ++ [32]) = s.
Proof.
  intros H. unfold trim. rewrite trimStart_space.
  apply trim_padded_end. exact H.
Qed.

Lemma splitAcc_piece (c : Z) (a piece rest : jsstring) :
  ~ In c a ->
  splitAcc c piece (a ++ rest) = splitAcc c (rev a ++ piece) rest.
Proof.
  revert piece. induction a as [|x a IH]; intros piece Hnot; [reflexivity|].
  simpl. destruct (x =? c) eqn:Hx.
  - apply Z.eqb_eq in Hx. exfalso. apply Hnot. left. exact Hx.
  - rewrite IH by (intros Hin; apply Hnot; right; exact Hin).
    rewrite <- app_assoc. reflexivity.
Qed.

(** A text without the separator unit is one piece. *)
Lemma split_whole (c : Z) (a : jsstring) : ~ In c a -> split c a = [a].
Proof.
  intros Hnot. unfold split.
  rewrite <- (app_nil_r a) at 1. rewrite splitAcc_piece by exact Hnot.
  simpl. rewrite app_nil_r, rev_involutive. reflexivity.
Qed.

(** The first piece ends at the first separator unit. *)
Lemma split_first (c : Z) (a rest : jsstring) :
  ~ In c a -> split c (a ++ c :: rest) = a :: split c rest.
Proof.
  intros Hnot. unfold split. rewrite splitAcc_piece by exact Hnot.
  simpl. rewrite Z.eqb_refl, app_nil_r, rev_involutive. reflexivity.
Qed.

Lemma join_cons2 (sep x y : jsstring) (l : list jsstring) :
  join sep (x :: y :: l) = x ++ sep ++ join sep (y :: l).
Proof. reflexivity. Qed.

Lemma not_in_space_entry (entry : jsstring) :
  ~ In bullet entry -> ~ In bullet (32 :: entry).
Proof. intros H [Hc|Hin]; [discriminate | contradiction]. Qed.

(** After the bullet of a separator: the remaining items, each behind a
    space. *)
Lemma split_tail (l : list jsstring) (entry : jsstring) :
  Forall cleanEntry (entry :: l) ->
  List.map trim (split bullet (32 :: join separator (entry :: l))) = entry :: l.
Proof.
  revert entry. induction l as [|next l IH]; intros entry Hclean.
  - apply Forall_inv in Hclean as [Hnot Htrim]. simpl join.
    rewrite split_whole by (apply not_in_space_entry; exact Hnot).
    simpl. rewrite trim_padded_start by exact Htrim. reflexivity.
  - pose proof (Forall_inv Hclean) as [Hnot Htrim].
    apply Forall_inv_tail in Hclean.
    rewrite join_cons2. unfold separator at 1.
    change (32 :: entry ++ (js " " ++ [bullet] ++ js " ") ++ join separator (next :: l))
      with ((32 :: entry) ++ 32 :: bullet :: 32 :: join separator (next :: l)).
    replace ((32 :: entry) ++ 32 :: bullet :: 32 :: join separator (next :: l))
      with ((32 :: entry ++ [32]) ++ bullet :: 32 :: join separator (next :: l))
      by (simpl; rewrite <- app_assoc; reflexivity).
    rewrite split_first.
    + rewrite map_cons, IH by exact Hclean.
      rewrite trim_padded by exact Htrim. reflexivity.
    + intros [Hc|Hin]; [discriminate|].
      apply in_app_or in Hin as [Hin|[Hc|[]]]; [contradiction | discriminate].
Qed.

(** Reading back a cell written from clean entries gives the entries,
    unless the cell is empty. *)
Lemma readLines_join (l : list jsstring) :
  Forall cleanEntry l ->
  l <> [[]] ->
  readLines (join separator l) = l.
Proof.
  intros Hclean Hne.
  destruct l as [|entry [|next l]].
  - reflexivity.
  - apply Forall_inv in Hclean as [Hnot Htrim]. simpl join.
    destruct entry as [|c entry]; [contradiction|].
    unfold readLines. rewrite split_whole by exact Hnot.
    simpl. rewrite Htrim. reflexivity.
  - pose proof (Forall_inv Hclean) as [Hnot Htrim].
    apply Forall_inv_tail in Hclean.
    rewrite join_cons2. unfold separator at 1.
    replace (entry ++ (js " " ++ [bullet] ++ js " ") ++ join separator (next :: l))
      with ((entry ++ [32]) ++ bullet :: 32 :: join separator (next :: l))
      by (rewrite <- app_assoc; reflexivity).
    assert (Hcell : (entry ++ [32]) ++ bullet :: 32 :: join separator (next :: l) <> []).
    { destruct entry; discriminate. }
    unfold readLines.
    destruct ((entry ++ [32]) ++ bullet :: 32 :: join separator (next :: l))
      as [|c cell] eqn:Hcelleq; [contradiction|].
    rewrite <- Hcelleq. rewrite split_first.
    + rewrite map_cons, split_tail by exact Hclean.
      rewrite trim_padded_end by exact Htrim. reflexivity.
    + intros Hin. apply in_app_or in Hin as [Hin|[Hc|[]]];
        [contradiction | discriminate].
Qed.

End RoundTripFacts.

(** C10, as stated, fails on a list holding one empty entry: the entry has
    no bullet and is its own trimmed form, the cell written is empty, and
    the list read back is empty. *)
Lemma persist_then_list_single_empty_entry :
  Forall cleanEntry (ingredients (sampleBlueprint [[]]))
  /\ Forall cleanEntry (instructions (sampleBlueprint [[]]))
  /\ listedAfterPersist sampleEnv sampleRequest (sampleBlueprint [[]]) emptyStore
     = Some ([], [js "Stir."])
  /\ listedAfterPersist sampleEnv sampleRequest (sampleBlueprint [[]]) emptyStore
     <> Some (ingredients (sampleBlueprint [[]]), instructions (sampleBlueprint [[]])).
Proof.
  split; [|split; [|split]].
  - constructor; [|constructor]. split; [intros []|reflexivity].
  - constructor; [|constructor]. split; [|vm_compute; reflexivity].
    vm_compute. intuition discriminate.
  - vm_compute. reflexivity.
  - vm_compute. discriminate.
Qed.

(** C10, amended. When every ingredient and instruction entry holds no
    bullet and is its own trimmed form, and neither list is the list of one
    empty entry, the row appended by [persistBlueprint_] is read back by
    [getStoredDrinks] with the lists that were passed; the rows listed
    before it are those of the store as it was.  An empty list is written
    as an empty cell and read back as an empty list. *)
Theorem persist_then_list_roundtrip (env : Env) (request : Request)
  (blueprint : Blueprint) (store : Store)
  (Hingredients : Forall cleanEntry (ingredients blueprint))
  (Hinstructions : Forall cleanEntry (instructions blueprint))
  (Hing : ingredients blueprint <> [[]])
  (Hins : instructions blueprint <> [[]]) :
  listedAfterPersist env request blueprint store
  = Some (ingredients blueprint, instructions blueprint)
  /\ removelast (fst (getStoredDrinks (snd (persistBlueprint_ env request blueprint store))))
     = fst (getStoredDrinks store)
  /\ join separator [] = []
  /\ readLines [] = [].
Proof.
  unfold listedAfterPersist, persistBlueprint_, getStoredDrinks,
    ensureSpreadsheetStructure_.
  cbn [fst snd primarySheet].
  rewrite map_app. cbn [List.map].
  split; [|split; [|split; reflexivity]].
  - rewrite last_snoc. unfold drinkOfRow.
    cbn [drink_ingredients drink_instructions row_ingredients row_instructions].
    fold separator.
    rewrite !readLines_join by assumption. reflexivity.
  - apply removelast_last.
Qed.

Lemma persist_then_list_roundtrip_witness :
  listedAfterPersist sampleEnv sampleRequest
    (sampleBlueprint [js "gin - 2 oz"; []; js "lemon twist for garnish"]) emptyStore
  = Some ([js "gin - 2 oz"; []; js "lemon twist for garnish"], [js "Stir."]).
Proof.
  apply (persist_then_list_roundtrip sampleEnv sampleRequest
           (sampleBlueprint [js "gin - 2 oz"; []; js "lemon twist for garnish"])
           emptyStore).
  - repeat constructor; try (vm_compute; intuition discriminate);
      vm_compute; reflexivity.
  - repeat constructor; try (vm_compute; intuition discriminate);
      vm_compute; reflexivity.
  - discriminate.
  - discriminate.
Defined.

(** * Remote override: fallback *)

Section FallbackFacts.

Lemma generateDrinkWithOpenAI_factored (env : Env) (request : Request)
  (context : Context) (apiKey : jsstring) :
  generateDrinkWithOpenAI_ env request context apiKey
  = match fetch env apiKey (buildOpenAiPrompt_ request context) with
    | Err e => Err e
    | Ok response =>
        if (status response <? 200) || (300 <=? status response)
        then Err (Thrown (js "OpenAI API returned status "
                          ++ toStringZ (status response) ++ js ": "
                          ++ bodyText response))
        else
          match parse env (bodyText response) with
          | inr message =>
              Err (Thrown (js "Failed to parse OpenAI response JSON: " ++ message))
          | inl responseObject =>
              match envelopeContent responseObject with
              | Err e => Err e
              | Ok content => parseContent env content context
              end
          end
    end.
Proof.
  unfold generateDrinkWithOpenAI_, envelopeContent.
  destruct (fetch env apiKey _) as [response|e]; [|reflexivity].
  destruct ((status response <? 200) || (300 <=? status response)); [reflexivity|].
  destruct (parse env (bodyText response)) as [responseObject|message]; [|reflexivity].
  destruct (getMember (Some responseObject) k_choices) as [choices|e]; [|reflexivity].
  destruct (negb (truthy choices) || _); [reflexivity|].
  destruct (getMember choices k_index0) as [first|e]; [|reflexivity].
  destruct (getMember first k_message) as [message|e]; [|reflexivity].
  destruct (if truthy message then _ else message) as [c|] eqn:Hcontent;
    [|reflexivity].
  destruct (truthy (Some c)); reflexivity.
Qed.

(** The content is parsed when it can be converted to a string. *)
Lemma parseContent_convertible (env : Env) (content : json) (context : Context) :
  parseContent env content context
  = if convertible content
    then match parse env (printed content) with
         | inr message =>
             Err (Thrown (js "OpenAI message content is not valid JSON: "
                          ++ message))
         | inl parsed => normalizeOpenAiBlueprint_ parsed context
         end
    else Err (Thrown (js "OpenAI message content is not valid JSON: "
                      ++ conversionMessage)).
Proof.
  unfold parseContent. rewrite stringOf_convertible.
  destruct (convertible content); reflexivity.
Qed.

Lemma status_in_range (response : HttpResponse) :
  200 <= status response < 300 ->
  (status response <? 200) || (300 <=? status response) = false.
Proof. intros Hs. apply orb_false_iff. lia. Qed.

Lemma status_out_of_range (response : HttpResponse) :
  status response < 200 \/ 300 <= status response ->
  (status response <? 200) || (300 <=? status response) = true.
Proof. intros Hs. apply orb_true_iff. lia. Qed.

(** When the reply got as far as a message content, the call ends as
    [parseContent] does. *)
Lemma generateDrinkWithOpenAI_content (env : Env) (request : Request)
  (context : Context) (apiKey : jsstring) (content : json) :
  contentOfReply env apiKey (buildOpenAiPrompt_ request context) content ->
  generateDrinkWithOpenAI_ env request context apiKey
  = parseContent env content context.
Proof.
  intros (response & responseObject & Hf & Hs & Hp & He).
  rewrite generateDrinkWithOpenAI_factored, Hf, status_in_range, Hp, He by exact Hs.
  reflexivity.
Qed.

(** Every listed failure makes [generateDrinkWithOpenAI_] throw. *)
Lemma remote_failure_throws (env : Env) (request : Request) (context : Context)
  (apiKey : jsstring) :
  RemoteFailure env apiKey (buildOpenAiPrompt_ request context) ->
  exists e, generateDrinkWithOpenAI_ env request context apiKey = Err e.
Proof.
  intros Hfail.
  destruct Hfail as [e Hf | response Hf Hs | response message Hf Hp
                    | response obj e Hf Hp He
                    | content Hreply Hc
                    | content message Hreply Hc Hp
                    | content members Hreply Hc Hp Hfields].
  - rewrite generateDrinkWithOpenAI_factored, Hf. eauto.
  - rewrite generateDrinkWithOpenAI_factored, Hf, status_out_of_range by exact Hs.
    eauto.
  - rewrite generateDrinkWithOpenAI_factored, Hf.
    destruct (_ || _); [eauto|]. rewrite Hp. eauto.
  - rewrite generateDrinkWithOpenAI_factored, Hf.
    destruct (_ || _); [eauto|]. rewrite Hp, He. eauto.
  - rewrite (generateDrinkWithOpenAI_content _ _ _ _ _ Hreply).
    rewrite parseContent_convertible, Hc. eauto.
  - rewrite (generateDrinkWithOpenAI_content _ _ _ _ _ Hreply).
    rewrite parseContent_convertible, Hc, Hp. eauto.
  - rewrite (generateDrinkWithOpenAI_content _ _ _ _ _ Hreply).
    rewrite parseContent_convertible, Hc, Hp.
    rewrite normalizeOpenAiBlueprint_object, Hfields. eauto.
Qed.

(** And [generateDrinkWithOpenAI_] throws on nothing else. *)
Lemma remote_throw_is_failure (env : Env) (request : Request) (context : Context)
  (apiKey : jsstring) (e : error) :
  generateDrinkWithOpenAI_ env request context apiKey = Err e ->
  RemoteFailure env apiKey (buildOpenAiPrompt_ request context).
Proof.
  rewrite generateDrinkWithOpenAI_factored.
  destruct (fetch env apiKey _) as [response|e'] eqn:Hf;
    [|intros _; eapply fails_on_fetch; exact Hf].
  destruct ((status response <? 200) || (300 <=? status response)) eqn:Hs.
  { intros _. eapply fails_on_status; [exact Hf|].
    apply orb_true_iff in Hs. lia. }
  destruct (parse env (bodyText response)) as [responseObject|message] eqn:Hp;
    [|intros _; eapply fails_on_body; eassumption].
  destruct (envelopeContent responseObject) as [content|e'] eqn:He;
    [|intros _; eapply fails_on_envelope; eassumption].
  assert (Hreply : contentOfReply env apiKey (buildOpenAiPrompt_ request context)
                     content).
  { exists response, responseObject. apply orb_false_iff in Hs.
    repeat split; try assumption; lia. }
  rewrite parseContent_convertible.
  destruct (convertible content) eqn:Hc;
    [|intros _; eapply fails_on_content_conversion; eassumption].
  destruct (parse env (printed content)) as [parsed|message] eqn:Hparsed;
    [|intros _; eapply fails_on_content; eassumption].
  intros Hthrow.
  destruct (normalizeOpenAiBlueprint_throws _ _ _ Hthrow)
    as (_ & members & -> & Hfields).
  eapply fails_on_field_conversion; eassumption.
Qed.

(** A request that passed the validation has non-empty names. *)
Lemma sanitized_names (now : Z) (payload : option Payload) (request : Request) :
  sanitizeGenerationRequest_ now payload = Ok request ->
  firstName request <> [] /\ lastName request <> [].
Proof.
  unfold sanitizeGenerationRequest_.
  destruct payload as [payload|]; [|discriminate].
  destruct (negb _); [discriminate|].
  destruct (outside (payload_birthMonth payload) 1 12); [discriminate|].
  destruct (outside (payload_birthDay payload) 1 31); [discriminate|].
  destruct (outside (payload_birthYear payload) 1900 _); [discriminate|].
  destruct (trim (payload_firstName payload)) as [|c1 s1];
    destruct (trim (payload_lastName payload)) as [|c2 s2]; try discriminate.
  intros H. injection H as <-. simpl. split; discriminate.
Qed.

Ltac split_pairs :=
  repeat match goal with
         | |- context [let '(_, _) := ?x in _] => destruct x
         end.

Lemma astro_returns (context : Context) :
  ctx_firstName context <> [] ->
  exists blueprint, generateAstrologicalElixir_ context = Ok blueprint.
Proof.
  intros Hname. unfold generateAstrologicalElixir_. split_pairs.
  destruct (ctx_firstName context); [contradiction|]. eauto.
Qed.

Lemma numerology_returns (context : Context) :
  exists blueprint, generateNameNumerologyMixer_ context = Ok blueprint.
Proof. unfold generateNameNumerologyMixer_. split_pairs. eauto. Qed.

Lemma chrono_returns (context : Context) (today : Z) :
  exists blueprint, generateBirthdayChronoCocktail_ context today = Ok blueprint.
Proof. unfold generateBirthdayChronoCocktail_. split_pairs. eauto. Qed.

Lemma oracle_returns (context : Context) :
  exists blueprint, generatePersonalizedPalateOracle_ context = Ok blueprint.
Proof. unfold generatePersonalizedPalateOracle_. split_pairs. eauto. Qed.

Lemma dynasty_returns (context : Context) :
  exists blueprint, generateDynasticDrinkDynasty_ context = Ok blueprint.
Proof. unfold generateDynasticDrinkDynasty_. split_pairs. eauto. Qed.

(** The generator of a validated request returns a blueprint. *)
Lemma generator_returns (request : Request) (generator : Generator) (today : Z) :
  firstName request <> [] ->
  getGeneratorByKey_ (generatorKey request) = Ok generator ->
  exists blueprint, generator (buildGenerationContext_ request) today = Ok blueprint.
Proof.
  intros Hname. unfold getGeneratorByKey_.
  repeat match goal with
         | |- context [if ?b then _ else _] => destruct b
         end; intros H; try discriminate; injection H as <-.
  - apply astro_returns. exact Hname.
  - apply numerology_returns.
  - apply chrono_returns.
  - apply oracle_returns.
  - apply dynasty_returns.
Qed.

End FallbackFacts.

(** C4. For a payload that passes the validation with a key that has a
    generator, when a key for the remote service is configured and
    [generateDrinkWithOpenAI_] throws, whatever the error, [generateDrink]
    does not throw: the generator of the request's key returns a blueprint,
    and [generateDrink] stores and returns that blueprint.
    [generateDrinkWithOpenAI_] throws exactly on a failed request, a status
    outside 200..299, a body that does not parse, a response without the
    choices or the message content, a content that does not parse, and a
    content, or a field of the parsed content, that cannot be converted to
    a string. *)
Theorem generateDrink_falls_back_on_remote_failure
  (env : Env) (payload : option Payload) (store : Store)
  (request : Request) (generator : Generator) (apiKey : jsstring) (e : error)
  (Hvalid : sanitizeGenerationRequest_ (validationTime env) payload = Ok request)
  (Hgenerator : getGeneratorByKey_ (generatorKey request) = Ok generator)
  (Hkey : getOpenAiApiKey_ env = Value apiKey)
  (Hremote : generateDrinkWithOpenAI_ env request
               (buildGenerationContext_ request) apiKey = Err e) :
  (exists blueprint,
     generator (buildGenerationContext_ request) (generationTime env) = Ok blueprint
     /\ generateDrink env payload store
        = (Ok (fst (persistBlueprint_ env request blueprint store)),
           snd (persistBlueprint_ env request blueprint store)))
  /\ generateDrink env payload store = deterministicOutcome env request store
  /\ (forall apiKey',
        RemoteFailure env apiKey'
          (buildOpenAiPrompt_ request (buildGenerationContext_ request))
        <-> exists e', generateDrinkWithOpenAI_ env request
                         (buildGenerationContext_ request) apiKey' = Err e').
Proof.
  pose proof (sanitized_names _ _ _ Hvalid) as [Hfirst _].
  destruct (generator_returns request generator (generationTime env) Hfirst Hgenerator)
    as [blueprint Hblueprint].
  assert (Hrun : generateDrink env payload store
                 = (Ok (fst (persistBlueprint_ env request blueprint store)),
                    snd (persistBlueprint_ env request blueprint store))).
  { unfold generateDrink, ensureSpreadsheetStructure_.
    rewrite Hvalid, Hgenerator, Hkey, Hremote, Hblueprint.
    destruct (persistBlueprint_ env request blueprint store). reflexivity. }
  split; [exists blueprint; split; assumption|]. split.
  - rewrite Hrun. unfold deterministicOutcome.
    rewrite Hgenerator, Hblueprint.
    destruct (persistBlueprint_ env request blueprint store). reflexivity.
  - intros apiKey'. split.
    + apply remote_failure_throws.
    + intros [e' He']. eapply remote_throw_is_failure. exact He'.
Qed.

Lemma generateDrink_falls_back_on_remote_failure_witness :
  generateDrinkWithOpenAI_ unconvertibleReplyEnv oracleRequest
    (buildGenerationContext_ oracleRequest) (js "sk-test")
  = Err TypeError
  /\ generateDrink unconvertibleReplyEnv (Some (samplePayload (js "oracle")))
       emptyStore
     = deterministicOutcome unconvertibleReplyEnv oracleRequest emptyStore.
Proof.
  assert (Hremote : generateDrinkWithOpenAI_ unconvertibleReplyEnv oracleRequest
                      (buildGenerationContext_ oracleRequest) (js "sk-test")
                    = Err TypeError).
  { vm_compute. reflexivity. }
  split; [exact Hremote|].
  apply (generateDrink_falls_back_on_remote_failure unconvertibleReplyEnv
           (Some (samplePayload (js "oracle"))) emptyStore oracleRequest
           (fun context _ => generatePersonalizedPalateOracle_ context)
           (js "sk-test") TypeError).
  - vm_compute. reflexivity.
  - reflexivity.
  - vm_compute. reflexivity.
  - exact Hremote.
Defined.

(** A status outside 200..299 is a failure of the remote path, and the
    generator's blueprint is stored. *)
Example generateDrink_status_500 :
  generateDrinkWithOpenAI_ failingEnv oracleRequest
    (buildGenerationContext_ oracleRequest) (js "sk-test")
  = Err (Thrown (js "OpenAI API returned status 500: oops"))
  /\ generateDrink failingEnv (Some (samplePayload (js "oracle"))) emptyStore
     = deterministicOutcome failingEnv oracleRequest emptyStore.
Proof. split; vm_compute; reflexivity. Qed.

(** A content that is an object with a member [toString] is reported as
    content that is not valid JSON. *)
Example parseContent_unconvertible :
  parseContent sampleEnv (JObject [(js "toString", JBool true)])
    (buildGenerationContext_ sampleRequest)
  = Err (Thrown (js "OpenAI message content is not valid JSON: Cannot convert object to primitive value")).
Proof. vm_compute. reflexivity. Qed.

Example envelope_failures :
  envelopeContent (JObject []) = Err missingChoices
  /\ envelopeContent (JObject [(js "choices", JArray [])]) = Err missingChoices
  /\ envelopeContent (JObject [(js "choices", JArray [JObject []])])
     = Err missingContent
  /\ envelopeContent
       (JObject [(js "choices",
                  JArray [JObject [(js "message",
                                    JObject [(js "content", JString [])])]])])
     = Err missingContent
  /\ envelopeContent JNull = Err TypeError
  /\ envelopeContent (JObject [(js "choices", JArray [JNull])]) = Err TypeError.
Proof. vm_compute. repeat split; reflexivity. Qed.

(** * Generator table: reproducibility *)

Section ReproducibilityFacts.

Lemma ageInDaysAt_day (context : Context) (today : Z) :
  ageInDaysAt context today
  = today / JsDate.msPerDay
    - JsDate.daysFromCivil
        ((if (0 <=? ctx_birthYear context) && (ctx_birthYear context <=? 99)
          then 1900 + ctx_birthYear context else ctx_birthYear context)
         + (ctx_birthMonth context - 1) / 12)
        ((ctx_birthMonth context - 1) mod 12 + 1)
        (ctx_birthDay context).
Proof.
  unfold ageInDaysAt, JsDate.newDate.
  set (d := JsDate.daysFromCivil _ _ _).
  replace (today - d * JsDate.msPerDay) with (today + (- d) * JsDate.msPerDay) by lia.
  rewrite Z.div_add by (unfold JsDate.msPerDay; lia). lia.
Qed.

(** The chrono generator reads the clock only through the day it shows. *)
Lemma chrono_same_day (context : Context) (today1 today2 : Z) :
  today1 / JsDate.msPerDay = today2 / JsDate.msPerDay ->
  generateBirthdayChronoCocktail_ context today1
  = generateBirthdayChronoCocktail_ context today2.
Proof.
  intros Hday. unfold generateBirthdayChronoCocktail_.
  rewrite !ageInDaysAt_day.
  unfold JsDate.getMonth, JsDate.getDate. rewrite Hday. reflexivity.
Qed.

Lemma getGeneratorByKey_clock_free (key : jsstring) (generator : Generator)
  (context : Context) (today1 today2 : Z) :
  In key clockFreeKeys ->
  getGeneratorByKey_ key = Ok generator ->
  generator context today1 = generator context today2.
Proof.
  intros Hin Hg. unfold clockFreeKeys in Hin. cbn [In] in Hin.
  destruct Hin as [<- | [<- | [<- | [<- | []]]]].
  - change (getGeneratorByKey_ (js "astro"))
      with (Ok (fun context (_ : Z) => generateAstrologicalElixir_ context)) in Hg.
    injection Hg as <-. reflexivity.
  - change (getGeneratorByKey_ (js "numerology"))
      with (Ok (fun context (_ : Z) => generateNameNumerologyMixer_ context)) in Hg.
    injection Hg as <-. reflexivity.
  - change (getGeneratorByKey_ (js "oracle"))
      with (Ok (fun context (_ : Z) => generatePersonalizedPalateOracle_ context)) in Hg.
    injection Hg as <-. reflexivity.
  - change (getGeneratorByKey_ (js "dynasty"))
      with (Ok (fun context (_ : Z) => generateDynasticDrinkDynasty_ context)) in Hg.
    injection Hg as <-. reflexivity.
Qed.

End ReproducibilityFacts.

(** C1, as stated, fails for the key chrono: the same request run on two
    days gives two blueprints. *)
Lemma chrono_depends_on_the_clock :
  runGenerator chronoRequest sampleNow
  <> runGenerator chronoRequest (sampleNow + JsDate.msPerDay).
Proof. vm_compute. discriminate. Qed.

(** C1, amended. Two invocations on contexts built from the same request
    fields give the same blueprint, field for field, whatever the clock
    reads, for the keys astro, numerology, oracle and dynasty.  For the key
    chrono they give the same blueprint when the clock shows the same day at
    both invocations (the generator puts the age in days and a mixer chosen
    by today's month and day into the blueprint).  Each of the five keys
    selects a generator. *)
Theorem generators_reproducible (request : Request) (today1 today2 : Z) :
  (In (generatorKey request) clockFreeKeys ->
   runGenerator request today1 = runGenerator request today2)
  /\ (generatorKey request = js "chrono" ->
      today1 / JsDate.msPerDay = today2 / JsDate.msPerDay ->
      runGenerator request today1 = runGenerator request today2)
  /\ Forall (fun key => exists generator, getGeneratorByKey_ key = Ok generator)
       recognizedKeys.
Proof.
  split; [|split].
  - intros Hin. unfold runGenerator.
    destruct (getGeneratorByKey_ (generatorKey request)) as [generator|e] eqn:Hg;
      [|reflexivity].
    eapply getGeneratorByKey_clock_free; eassumption.
  - intros Hkey Hday. unfold runGenerator. rewrite Hkey.
    change (getGeneratorByKey_ (js "chrono")) with (Ok generateBirthdayChronoCocktail_).
    apply chrono_same_day. exact Hday.
  - repeat constructor; eexists; reflexivity.
Qed.

Example astro_blueprint :
  runGenerator sampleRequest sampleNow
  = Ok {| drinkName := js "Gemini Starfall A";
          reason :=
            js "The Gemini constellation crowns you with Air energy, so your elixir leans on gin. Your first initial invites amber agave warmth, while the length of the Lovelace lineage calls for 3 cosmic layers.";
          ingredients :=
            [js "gin - 2 oz"; js "white tea liqueur - 0.75 oz";
             js "sparkling tonic - 1 oz"; js "sugar shard for garnish"];
          instructions :=
            [js "Stir the gin and white tea with ice to honor your celestial patience.";
             js "Cascade in sparkling tonic to echo the air element.";
             js "Strain into a chilled coupe and float sugar shard as your guiding star."];
          compatibility := js "Cosmic compatibility: 86%" |}.
Proof. vm_compute. reflexivity. Qed.

(** * Further properties of the boundary handler and the store *)

Section HandlerFacts.

Lemma trimStart_idempotent (s : jsstring) : trimStart (trimStart s) = trimStart s.
Proof.
  induction s as [|c s IH]; [reflexivity|].
  simpl. destruct (isWhiteSpace c) eqn:Hc; [exact IH|].
  simpl. rewrite Hc. reflexivity.
Qed.

Lemma trimStart_head (s : jsstring) (c : Z) (rest : jsstring) :
  trimStart s = c :: rest -> isWhiteSpace c = false.
Proof.
  induction s as [|x s IH]; [discriminate|].
  simpl. destruct (isWhiteSpace x) eqn:Hx; [exact IH|].
  intros H. injection H as <- _. exact Hx.
Qed.

Lemma trimStart_keeps (s : jsstring) :
  match s with c :: _ => isWhiteSpace c = false | [] => True end ->
  trimStart s = s.
Proof. destruct s as [|c s]; [reflexivity|]. simpl. intros ->. reflexivity. Qed.

Lemma trimStart_app_keeps (s t : jsstring) (c : Z) :
  isWhiteSpace c = false -> In c s -> trimStart (s ++ t) = trimStart s ++ t.
Proof.
  intros Hc. induction s as [|x s IH]; [intros []|].
  intros Hin. simpl. destruct (isWhiteSpace x) eqn:Hx; [|reflexivity].
  destruct Hin as [->|Hin]; [congruence|]. apply IH. exact Hin.
Qed.

(** Trimming twice is trimming once. *)
Lemma trim_idempotent (s : jsstring) : trim (trim s) = trim s.
Proof.
  unfold trim, trimEnd.
  destruct (trimStart (rev (trimStart s))) as [|c r] eqn:Hr.
  - reflexivity.
  - assert (Hc : isWhiteSpace c = false) by (eapply trimStart_head; exact Hr).
    assert (Hfirst : trimStart (rev (c :: r)) = rev (c :: r)).
    { (* the first unit of the reversed text is the first unit kept by the
         first trimStart *)
      assert (Hsuffix : exists pre, rev (trimStart s) = pre ++ c :: r).
      { clear Hc. revert Hr. generalize (rev (trimStart s)) as l.
        induction l as [|x l IH]; [discriminate|].
        simpl. destruct (isWhiteSpace x).
        - intros H. destruct (IH H) as [pre Hpre]. exists (x :: pre).
          rewrite Hpre. reflexivity.
        - intros H. exists []. rewrite <- H. reflexivity. }
      destruct Hsuffix as [pre Hpre].
      assert (Hs : trimStart s = rev r ++ c :: rev pre).
      { rewrite <- (rev_involutive (trimStart s)), Hpre.
        rewrite rev_app_distr. simpl. rewrite <- app_assoc. reflexivity. }
      simpl rev.
      destruct (rev r) as [|y l] eqn:Hrev.
      - simpl. rewrite Hc. reflexivity.
      - apply trimStart_keeps. simpl.
        rewrite Hs in *. simpl in *.
        assert (Hidem := trimStart_idempotent s). rewrite Hs in Hidem.
        simpl in Hidem. destruct (isWhiteSpace y) eqn:Hy; [|reflexivity].
        exfalso.
        assert (Hlen := f_equal (@length Z) Hidem).
        pose proof (trimStart_length (l ++ c :: rev pre)) as Hle.
        simpl in Hlen. lia. }
    rewrite Hfirst, rev_involutive.
    assert (Hkeep : trimStart (c :: r) = c :: r)
      by (simpl; rewrite Hc; reflexivity).
    rewrite Hkeep. reflexivity.
Qed.

End HandlerFacts.

(** X1. A request that passed the validation has a birth month from 1 to
    12, a birth day from 1 to 31, a birth year from 1900 to the current
    year, and names that are non-empty and equal to their trimmed form; its
    key is the trimmed key of the payload and has a truthy label. *)
Theorem sanitizeGenerationRequest_postconditions
  (now : Z) (payload : Payload) (request : Request)
  (Hvalid : sanitizeGenerationRequest_ now (Some payload) = Ok request) :
  1 <= birthMonth request <= 12
  /\ 1 <= birthDay request <= 31
  /\ 1900 <= birthYear request <= JsDate.getFullYear now
  /\ firstName request <> [] /\ trim (firstName request) = firstName request
  /\ lastName request <> [] /\ trim (lastName request) = lastName request
  /\ generatorKey request = trim (payload_generatorKey payload)
  /\ truthyProperty (readProperty GENERATOR_LABELS (generatorKey request)) = true.
Proof.
  unfold sanitizeGenerationRequest_ in Hvalid.
  destruct (truthyProperty _) eqn:Hlabel; [|discriminate]. cbn [negb] in Hvalid.
  destruct (payload_birthMonth payload) as [month|]; [|discriminate].
  destruct (outside (Integer month) 1 12) eqn:Hmonth; [discriminate|].
  destruct (payload_birthDay payload) as [day|]; [|discriminate].
  destruct (outside (Integer day) 1 31) eqn:Hday; [discriminate|].
  destruct (payload_birthYear payload) as [year|]; [|discriminate].
  destruct (outside (Integer year) 1900 _) eqn:Hyear; [discriminate|].
  destruct (trim (payload_firstName payload)) as [|c1 s1] eqn:Hfirst;
    [discriminate|].
  destruct (trim (payload_lastName payload)) as [|c2 s2] eqn:Hlast;
    [discriminate|].
  injection Hvalid as <-.
  cbn [birthMonth birthDay birthYear firstName lastName generatorKey integerValue].
  unfold outside in *. apply orb_false_iff in Hmonth, Hday, Hyear.
  rewrite <- Hfirst, <- Hlast, !trim_idempotent.
  repeat split; try lia; try (rewrite ?Hfirst, ?Hlast; discriminate).
  exact Hlabel.
Qed.

Lemma sanitizeGenerationRequest_postconditions_witness :
  sanitizeGenerationRequest_ sampleNow (Some (samplePayload (js "  astro ")))
  = Ok sampleRequest
  /\ 1 <= birthMonth sampleRequest <= 12.
Proof.
  assert (Hvalid : sanitizeGenerationRequest_ sampleNow
                     (Some (samplePayload (js "  astro "))) = Ok sampleRequest)
    by (vm_compute; reflexivity).
  split; [exact Hvalid|].
  apply (sanitizeGenerationRequest_postconditions sampleNow
           (samplePayload (js "  astro ")) sampleRequest Hvalid).
Defined.

Section StoreFacts.

Lemma persistBlueprint_store (env : Env) (request : Request) (blueprint : Blueprint)
  (store : Store) :
  exists row,
    snd (persistBlueprint_ env request blueprint store)
    = {| primarySheet := primarySheet store ++ [row];
         votesSheet := votesSheet store |}
    /\ row_drinkId row = uuid env
    /\ row_timestamp row = persistTime env
    /\ row_voteCount row = 0
    /\ p_drinkId (fst (persistBlueprint_ env request blueprint store)) = uuid env
    /\ p_voteCount (fst (persistBlueprint_ env request blueprint store)) = 0.
Proof. eexists. unfold persistBlueprint_. cbn. repeat split. Qed.

Lemma findVotes_app_fresh (values : list Row) (row : Row) (drinkId : jsstring)
  (i : nat) :
  Forall (fun r => row_drinkId r <> drinkId) values ->
  row_drinkId row = drinkId ->
  findVotes (values ++ [row]) drinkId i
  = Some ((i + length values)%nat, row_voteCount row).
Proof.
  intros Hfresh Hid. revert i.
  induction Hfresh as [|r values Hr _ IH]; intros i.
  - simpl. rewrite Hid, jsstring_eqb_refl. f_equal. f_equal. lia.
  - simpl. apply jsstring_eqb_neq in Hr. rewrite Hr, IH. f_equal. f_equal. lia.
Qed.

Lemma findVotes_lookup (values : list Row) (drinkId : jsstring) (k i : nat) (v : Z) :
  findVotes values drinkId k = Some (i, v) ->
  exists row,
    (k <= i)%nat
    /\ values !! (i - k)%nat = Some row
    /\ row_drinkId row = drinkId
    /\ row_voteCount row = v.
Proof.
  revert k. induction values as [|r values IH]; intros k; [discriminate|].
  simpl. destruct (jsstring_eqb (row_drinkId r) drinkId) eqn:Hr.
  - intros H. injection H as <- <-. exists r.
    apply jsstring_eqb_eq in Hr. rewrite Nat.sub_diag. auto.
  - intros H. destruct (IH _ H) as (row & Hk & Hrow & Hid & Hv).
    exists row. repeat split; try assumption; try lia.
    replace (i - k)%nat with (S (i - S k)) by lia. exact Hrow.
Qed.

(** Setting the count of the row found keeps it the row found. *)
Lemma findVotes_alter (values : list Row) (drinkId : jsstring) (k i : nat) (v n : Z) :
  findVotes values drinkId k = Some (i, v) ->
  findVotes (alter (setVoteCount n) (i - k)%nat values) drinkId k = Some (i, n).
Proof.
  revert k. induction values as [|r values IH]; intros k; [discriminate|].
  simpl. destruct (jsstring_eqb (row_drinkId r) drinkId) eqn:Hr.
  - intros H. injection H as <- <-. rewrite Nat.sub_diag. simpl.
    rewrite Hr. reflexivity.
  - intros H. pose proof (findVotes_lookup _ _ _ _ _ H) as (_ & Hk & _).
    replace (i - k)%nat with (S (i - S k)) by lia. simpl. rewrite Hr.
    apply IH. exact H.
Qed.

Lemma alter_keeps_identifiers (n : Z) (i : nat) (values : list Row) :
  List.map row_drinkId (alter (setVoteCount n) i values)
  = List.map row_drinkId values.
Proof.
  revert i. induction values as [|row values IH]; intros [|i]; try reflexivity.
  simpl. f_equal. apply IH.
Qed.

(** The key of a request that passed the validation is the trimmed key of
    the payload. *)
Lemma sanitized_key (now : Z) (payload : Payload) (request : Request) :
  sanitizeGenerationRequest_ now (Some payload) = Ok request ->
  generatorKey request = trim (payload_generatorKey payload).
Proof.
  unfold sanitizeGenerationRequest_.
  destruct (negb _); [discriminate|].
  destruct (outside (payload_birthMonth payload) 1 12); [discriminate|].
  destruct (outside (payload_birthDay payload) 1 31); [discriminate|].
  destruct (outside (payload_birthYear payload) 1900 _); [discriminate|].
  destruct (trim (payload_firstName payload)) as [|c1 s1];
    destruct (trim (payload_lastName payload)) as [|c2 s2]; try discriminate.
  intros H. injection H as <-. reflexivity.
Qed.

End StoreFacts.

(** X2. Whatever the payload and the environment, [generateDrink] leaves
    the audit sheet alone; when it throws, the store is as it was; when it
    returns, exactly one row has been appended to the primary sheet, with
    the identifier returned to the caller and no vote. *)
Theorem generateDrink_store_effect
  (env : Env) (payload : option Payload) (store : Store) :
  votesSheet (snd (generateDrink env payload store)) = votesSheet store
  /\ match fst (generateDrink env payload store) with
     | Err _ => snd (generateDrink env payload store) = store
     | Ok persisted =>
         exists row,
           primarySheet (snd (generateDrink env payload store))
           = primarySheet store ++ [row]
           /\ row_drinkId row = p_drinkId persisted
           /\ p_drinkId persisted = uuid env
           /\ row_voteCount row = 0
           /\ p_voteCount persisted = 0
     end.
Proof.
  unfold generateDrink, ensureSpreadsheetStructure_.
  destruct (sanitizeGenerationRequest_ _ payload) as [request|e];
    [|split; reflexivity].
  destruct (getGeneratorByKey_ (generatorKey request)) as [generator|e];
    [|split; reflexivity].
  set (remote := match getOpenAiApiKey_ env with
                 | Value openAiKey => _
                 | _ => None
                 end).
  destruct (match remote with
            | Some blueprint => Ok blueprint
            | None => generator (buildGenerationContext_ request) (generationTime env)
            end) as [blueprint|e]; [|split; reflexivity].
  destruct (persistBlueprint_store env request blueprint store)
    as (row & Hstore & Hid & _ & Hvotes & Hpid & Hpvotes).
  destruct (persistBlueprint_ env request blueprint store) as [persisted store'].
  cbn [fst snd] in *. subst store'. cbn [votesSheet primarySheet].
  split; [reflexivity|]. exists row. rewrite Hpid. auto.
Qed.

(** X3. A payload whose key is a name inherited from [Object.prototype]
    passes the validation, but no row comes of it: [getGeneratorByKey_]
    throws, [generateDrink] throws its error and the store is as it was. *)
Theorem generateDrink_inherited_key_rejected
  (env : Env) (payload : Payload) (store : Store) (request : Request)
  (Hkey : In (trim (payload_generatorKey payload)) objectPrototypeMembers)
  (Hvalid : sanitizeGenerationRequest_ (validationTime env) (Some payload)
            = Ok request) :
  generateDrink env (Some payload) store
  = (Err (Thrown (js "Unsupported generator key: "
                  ++ trim (payload_generatorKey payload))),
     store).
Proof.
  pose proof (sanitized_key _ _ _ Hvalid) as Hgk.
  unfold generateDrink, ensureSpreadsheetStructure_. rewrite Hvalid, Hgk.
  assert (Hthrow : getGeneratorByKey_ (trim (payload_generatorKey payload))
                   = Err (Thrown (js "Unsupported generator key: "
                                  ++ trim (payload_generatorKey payload)))).
  { unfold objectPrototypeMembers in Hkey. cbn [In] in Hkey.
    repeat (destruct Hkey as [<-|Hkey]; [reflexivity|]). destruct Hkey. }
  rewrite Hthrow. reflexivity.
Qed.

Lemma generateDrink_inherited_key_rejected_witness :
  generateDrink sampleEnv (Some (samplePayload (js "constructor"))) emptyStore
  = (Err (Thrown (js "Unsupported generator key: constructor")), emptyStore).
Proof.
  apply (generateDrink_inherited_key_rejected sampleEnv
           (samplePayload (js "constructor")) emptyStore
           {| generatorKey := js "constructor";
              birthMonth := 6;
              birthDay := 15;
              birthYear := 1990;
              firstName := js "Ada";
              lastName := js "Lovelace" |}).
  - vm_compute. tauto.
  - vm_compute. reflexivity.
Defined.

(** X4. Votes add up: after [n] votes on an identifier found in the primary
    sheet, the row first found with it is still the one found, its count is
    [n] higher, the identifiers of the rows are what they were and [n] audit
    rows have been appended. *)
Theorem registerVotes_accumulate
  (times : list Z) (drinkId : jsstring) (store : Store) (index : nat) (votes : Z)
  (Hid : drinkId <> [])
  (Hfound : findVotes (primarySheet store) drinkId 0 = Some (index, votes)) :
  findVotes (primarySheet (registerVotes times drinkId store)) drinkId 0
  = Some (index, votes + Z.of_nat (length times))
  /\ List.map row_drinkId (primarySheet (registerVotes times drinkId store))
     = List.map row_drinkId (primarySheet store)
  /\ length (votesSheet (registerVotes times drinkId store))
     = (length (votesSheet store) + length times)%nat.
Proof.
  revert store votes Hfound.
  induction times as [|now times IH]; intros store votes Hfound.
  - cbn [registerVotes length]. rewrite Hfound. repeat split; f_equal; f_equal; lia.
  - cbn [registerVotes].
    assert (Hstep : snd (registerVote now drinkId store)
                    = {| primarySheet :=
                           alter (setVoteCount (votes + 1)) index (primarySheet store);
                         votesSheet :=
                           votesSheet store
                           ++ [incrementAudit now drinkId votes] |}).
    { unfold registerVote, ensureSpreadsheetStructure_.
      destruct drinkId as [|c rest]; [contradiction|].
      rewrite Hfound. reflexivity. }
    rewrite Hstep.
    pose proof (findVotes_alter _ _ _ _ _ (votes + 1) Hfound) as Halter.
    rewrite Nat.sub_0_r in Halter.
    destruct (IH {| primarySheet :=
                      alter (setVoteCount (votes + 1)) index (primarySheet store);
                    votesSheet :=
                      votesSheet store ++ [incrementAudit now drinkId votes] |}
                (votes + 1) Halter) as (Hcount & Hids & Haudit).
    cbn [primarySheet votesSheet] in *.
    rewrite Hcount, Hids, Haudit. repeat split.
    + f_equal. f_equal. cbn [length]. lia.
    + apply alter_keeps_identifiers.
    + rewrite length_app. cbn [length]. lia.
Qed.

Lemma registerVotes_accumulate_witness :
  findVotes
    (primarySheet
       (registerVotes [1; 2; 3] (js "b")
          {| primarySheet := [sampleRow (js "a") 0; sampleRow (js "b") 4];
             votesSheet := [] |}))
    (js "b") 0
  = Some (1%nat, 4 + Z.of_nat (length [1; 2; 3])).
Proof.
  apply (registerVotes_accumulate [1; 2; 3] (js "b")
           {| primarySheet := [sampleRow (js "a") 0; sampleRow (js "b") 4];
              votesSheet := [] |} 1%nat 4).
  - discriminate.
  - vm_compute. reflexivity.
Defined.

(** X5. A vote on the identifier [persistBlueprint_] has just returned is
    registered as the first vote of the new row, when that identifier is
    not empty and no older row has it: the count returned is 1 and the
    audit row records the step from 0 to 1. *)
Theorem vote_after_persist
  (env : Env) (request : Request) (blueprint : Blueprint) (store : Store) (now : Z)
  (Hid : uuid env <> [])
  (Hfresh : Forall (fun row => row_drinkId row <> uuid env) (primarySheet store)) :
  let persisted := fst (persistBlueprint_ env request blueprint store) in
  let store' := snd (persistBlueprint_ env request blueprint store) in
  fst (registerVote now (p_drinkId persisted) store')
  = Ok {| vote_drinkId := uuid env; vote_voteCount := 1 |}
  /\ votesSheet (snd (registerVote now (p_drinkId persisted) store'))
     = votesSheet store ++ [incrementAudit now (uuid env) 0]
  /\ List.map row_voteCount
       (primarySheet (snd (registerVote now (p_drinkId persisted) store')))
     = List.map row_voteCount (primarySheet store) ++ [1].
Proof.
  cbv zeta.
  destruct (persistBlueprint_store env request blueprint store)
    as (row & Hstore & Hrow & _ & Hvotes & Hpid & _).
  rewrite Hstore, Hpid.
  unfold registerVote, ensureSpreadsheetStructure_.
  destruct (uuid env) as [|c rest] eqn:Huuid; [contradiction|].
  cbn [primarySheet votesSheet].
  rewrite (findVotes_app_fresh _ row (c :: rest) 0 Hfresh Hrow), Hvotes.
  cbn [fst snd primarySheet votesSheet]. repeat split.
  rewrite Nat.add_0_l.
  replace (alter (setVoteCount (0 + 1)) (length (primarySheet store))
             (primarySheet store ++ [row]))
    with (primarySheet store ++ [setVoteCount (0 + 1) row]).
  - rewrite map_app. reflexivity.
  - symmetry. apply alter_middle.
Qed.

Lemma vote_after_persist_witness :
  fst (registerVote sampleNow
         (p_drinkId (fst (persistBlueprint_ sampleEnv sampleRequest
                            (sampleBlueprint [js "gin - 2 oz"]) emptyStore)))
         (snd (persistBlueprint_ sampleEnv sampleRequest
                 (sampleBlueprint [js "gin - 2 oz"]) emptyStore)))
  = Ok {| vote_drinkId := js "id-1"; vote_voteCount := 1 |}.
Proof.
  apply (vote_after_persist sampleEnv sampleRequest
           (sampleBlueprint [js "gin - 2 oz"]) emptyStore sampleNow).
  - discriminate.
  - constructor.
Defined.

(** X6. [getOpenAiApiKey_] never throws and never gives [undefined]; a key
    it returns is the trimmed text of the script property and is not empty;
    it gives [null] when reading the property throws and when the property
    is missing or blank. *)
Theorem getOpenAiApiKey_trimmed (env : Env) :
  match getOpenAiApiKey_ env with
  | Value key =>
      key <> [] /\ trim key = key
      /\ exists property,
           openAiKeyProperty env = Ok property /\ key = trim (orElse property [])
  | Null =>
      (exists e, openAiKeyProperty env = Err e)
      \/ (exists property,
            openAiKeyProperty env = Ok property /\ trim (orElse property []) = [])
  | Undefined => False
  end.
Proof.
  unfold getOpenAiApiKey_.
  destruct (openAiKeyProperty env) as [property|e]; [|left; eauto].
  destruct (trim (orElse property [])) as [|c rest] eqn:Hkey.
  - right. eauto.
  - split; [discriminate|]. split.
    + rewrite <- Hkey. apply trim_idempotent.
    + exists property. split; [reflexivity|]. symmetry. exact Hkey.
Qed.

(** X7. Without a key for the remote service the remote service is not
    asked: for a payload that passes the validation, [generateDrink] stores
    and returns what the generator table gives, whatever [fetch] and
    [parse] would do. *)
Theorem generateDrink_without_key
  (env : Env) (payload : option Payload) (store : Store) (request : Request)
  (Hvalid : sanitizeGenerationRequest_ (validationTime env) payload = Ok request)
  (Hkey : getOpenAiApiKey_ env = Null) :
  generateDrink env payload store = deterministicOutcome env request store.
Proof.
  unfold generateDrink, deterministicOutcome, ensureSpreadsheetStructure_.
  rewrite Hvalid, Hkey.
  destruct (getGeneratorByKey_ (generatorKey request)) as [generator|e];
    reflexivity.
Qed.

Lemma generateDrink_without_key_witness :
  generateDrink sampleEnv (Some (samplePayload (js "oracle"))) emptyStore
  = deterministicOutcome sampleEnv oracleRequest emptyStore.
Proof.
  apply (generateDrink_without_key sampleEnv (Some (samplePayload (js "oracle")))
           emptyStore oracleRequest).
  - vm_compute. reflexivity.
  - reflexivity.
Defined.

(** X8. When the remote service gives a blueprint, that blueprint is what
    [generateDrink] stores and returns; the generator of the table is not
    run, so the clock read for it does not matter. *)
Theorem generateDrink_remote_success
  (env : Env) (payload : option Payload) (store : Store)
  (request : Request) (generator : Generator) (apiKey : jsstring)
  (blueprint : Blueprint)
  (Hvalid : sanitizeGenerationRequest_ (validationTime env) payload = Ok request)
  (Hgenerator : getGeneratorByKey_ (generatorKey request) = Ok generator)
  (Hkey : getOpenAiApiKey_ env = Value apiKey)
  (Hremote : generateDrinkWithOpenAI_ env request
               (buildGenerationContext_ request) apiKey = Ok blueprint) :
  generateDrink env payload store
  = (Ok (fst (persistBlueprint_ env request blueprint store)),
     snd (persistBlueprint_ env request blueprint store))
  /\ p_drinkName (fst (persistBlueprint_ env request blueprint store))
     = drinkName blueprint
  /\ p_ingredients (fst (persistBlueprint_ env request blueprint store))
     = ingredients blueprint.
Proof.
  split; [|split; reflexivity].
  unfold generateDrink, ensureSpreadsheetStructure_.
  rewrite Hvalid, Hgenerator, Hkey, Hremote.
  destruct (persistBlueprint_ env request blueprint store). reflexivity.
Qed.

Lemma generateDrink_remote_success_witness :
  generateDrinkWithOpenAI_ replyEnv oracleRequest
    (buildGenerationContext_ oracleRequest) (js "sk-test")
  = Ok nebulaBlueprint
  /\ generateDrink replyEnv (Some (samplePayload (js "oracle"))) emptyStore
     = (Ok (fst (persistBlueprint_ replyEnv oracleRequest nebulaBlueprint emptyStore)),
        snd (persistBlueprint_ replyEnv oracleRequest nebulaBlueprint emptyStore)).
Proof.
  assert (Hremote : generateDrinkWithOpenAI_ replyEnv oracleRequest
                      (buildGenerationContext_ oracleRequest) (js "sk-test")
                    = Ok nebulaBlueprint) by (vm_compute; reflexivity).
  split; [exact Hremote|].
  apply (generateDrink_remote_success replyEnv (Some (samplePayload (js "oracle")))
           emptyStore oracleRequest
           (fun context _ => generatePersonalizedPalateOracle_ context)
           (js "sk-test") nebulaBlueprint).
  - vm_compute. reflexivity.
  - reflexivity.
  - vm_compute. reflexivity.
  - exact Hremote.
Defined.

(** * Further properties of the generators *)

Section SlotFacts.

(** Reading an array inside and below its bounds. *)
Lemma at_entry {A : Type} (l : list A) (i : Z) :
  0 <= i < Z.of_nat (length l) -> exists x, at_ l i = Value x /\ In x l.
Proof.
  intros Hi. unfold at_.
  replace (i <? 0) with false by (symmetry; apply Z.ltb_ge; lia).
  destruct (lookup_lt_is_Some_2 l (Z.to_nat i)) as [x Hx]; [lia|].
  rewrite Hx. exists x. split; [reflexivity|].
  apply list_elem_of_In. eapply list_elem_of_lookup_2. exact Hx.
Qed.

Lemma at_negative {A : Type} (l : list A) (i : Z) : i < 0 -> at_ l i = Undefined.
Proof.
  intros Hi. unfold at_.
  replace (i <? 0) with true by (symmetry; apply Z.ltb_lt; lia). reflexivity.
Qed.

End SlotFacts.

Section PickFacts.

Context {St A : Type}.
Variable rand : St -> Q * St.

Hypothesis rand_unit_interval :
  forall s, (0 <= fst (rand s) /\ fst (rand s) < 1)%Q.

(** A pick from a collection that is not empty is one of its elements, at
    the cost of one draw. *)
Lemma randomPick_in (collection : list A) (s : St) :
  collection <> [] ->
  exists x,
    randomPick_ rand collection s = (Value x, snd (rand s)) /\ In x collection.
Proof.
  intros Hne. destruct collection as [|a rest]; [contradiction|].
  unfold randomPick_.
  pose proof (drawIndex_in_range rand rand_unit_interval (length (a :: rest)) s)
    as Hidx.
  assert (Hstate : snd (drawIndex rand (length (a :: rest)) s) = snd (rand s)).
  { unfold drawIndex. destruct (rand s). reflexivity. }
  destruct (drawIndex rand (length (a :: rest)) s) as [index s'].
  cbn [fst snd] in Hidx, Hstate. subst s'.
  destruct (at_entry (a :: rest) index) as (x & Hx & Hin).
  - apply Hidx. cbn [length]. lia.
  - exists x. rewrite Hx. split; [reflexivity|exact Hin].
Qed.

(** The selection makes one draw for each element it returns. *)
Lemma selectionLoop_state (wanted : nat) :
  forall (available : list A) (s : St),
    snd (selectionLoop rand wanted available s)
    = Nat.iter (Nat.min wanted (length available)) (fun s => snd (rand s)) s.
Proof.
  induction wanted as [|wanted IH]; intros available s; [reflexivity|].
  destruct available as [|a available']; [reflexivity|].
  rewrite selectionLoop_step.
  remember (a :: available') as available eqn:Hav.
  pose proof (drawIndex_in_range rand rand_unit_interval (length available) s) as Hidx.
  assert (Hstate : snd (drawIndex rand (length available) s) = snd (rand s)).
  { unfold drawIndex. destruct (rand s). reflexivity. }
  destruct (drawIndex rand (length available) s) as [index s1].
  cbn [fst snd] in Hidx, Hstate. subst s1.
  assert (Hlen : (0 < length available)%nat) by (rewrite Hav; simpl; lia).
  specialize (Hidx Hlen).
  destruct (lookup_lt_is_Some_2 available (Z.to_nat index)) as [x Hx]; [lia|].
  rewrite (spliceOne_in_range available index x) by (lia || assumption).
  specialize (IH (delete (Z.to_nat index) available) (snd (rand s))).
  destruct (selectionLoop rand wanted (delete (Z.to_nat index) available)
              (snd (rand s))) as [pushed s2].
  cbn [fst snd] in *. rewrite IH.
  rewrite length_delete by (eexists; exact Hx).
  replace (Nat.min (S wanted) (length available))
    with (S (Nat.min wanted (length available - 1))) by lia.
  rewrite Nat.iter_succ_r. reflexivity.
Qed.

End PickFacts.

(** X9. With the script's pseudo-random source, [randomPick_] on a
    collection that is not empty returns one of its elements and makes
    exactly one draw; on an empty collection it returns [null] without a
    draw. *)
Theorem randomPick_member {A : Type} (collection : list A) (h : Z) :
  (collection <> [] ->
   exists x,
     randomPick_ random collection h = (Value x, afterDraws 1 h)
     /\ In x collection)
  /\ randomPick_ random ([] : list A) h = (Null, h).
Proof.
  split; [|reflexivity].
  intros Hne.
  destruct (randomPick_in random random_unit_interval collection h Hne)
    as (x & Hx & Hin).
  exists x. split; [exact Hx|exact Hin].
Qed.

(** X10. With the script's pseudo-random source, [buildUniqueSelection_]
    makes exactly one draw for each element it returns:
    [min (max count 0) (length options)] draws. *)
Theorem buildUniqueSelection_draws {A : Type} (options : list A) (count h : Z) :
  snd (buildUniqueSelection_ random options count h)
  = afterDraws (Nat.min (Z.to_nat count) (length options)) h
  /\ length (fst (buildUniqueSelection_ random options count h))
     = Nat.min (Z.to_nat count) (length options).
Proof.
  unfold buildUniqueSelection_. split.
  - apply (selectionLoop_state random random_unit_interval).
  - destruct (selectionLoop_spec random random_unit_interval (Z.to_nat count)
                options h) as (sel & rest & Hsel & _ & Hlen).
    rewrite Hsel, length_map. exact Hlen.
Qed.

Section GeneratorFacts.

Lemma civilFromDays_ranges (z : Z) :
  1 <= snd (fst (JsDate.civilFromDays z)) <= 12
  /\ 1 <= snd (JsDate.civilFromDays z) <= 31.
Proof.
  unfold JsDate.civilFromDays.
  set (z' := z + 719468). set (era := z' / 146097).
  set (doe := z' - era * 146097).
  assert (Hdoe : 0 <= doe <= 146096).
  { subst doe era. pose proof (Z.mod_pos_bound z' 146097 ltac:(lia)).
    rewrite Z.mod_eq in H by lia. lia. }
  set (yoe := (doe - doe / 1460 + doe / 36524 - doe / 146096) / 365).
  set (doy := doe - (365 * yoe + yoe / 4 - yoe / 100)).
  assert (Hdoy : 0 <= doy <= 365).
  { subst doy yoe. clear - Hdoe. Z.div_mod_to_equations. lia. }
  set (mp := (5 * doy + 2) / 153).
  set (d := doy - (153 * mp + 2) / 5 + 1).
  assert (Hmd : 0 <= mp <= 11 /\ 1 <= d <= 31).
  { subst d mp. clear - Hdoy. Z.div_mod_to_equations. lia. }
  cbn [fst snd]. destruct (mp <? 10) eqn:Hmp; lia.
Qed.

(** The month and the day of a date: [getMonth] is 0 to 11, [getDate] 1 to
    31. *)
Lemma date_field_ranges (t : Z) :
  0 <= JsDate.getMonth t <= 11 /\ 1 <= JsDate.getDate t <= 31.
Proof.
  unfold JsDate.getMonth, JsDate.getDate.
  pose proof (civilFromDays_ranges (t / JsDate.msPerDay)). lia.
Qed.

End GeneratorFacts.

(** X11. The numerology mixer never falls back to its default spirit: the
    numerology value of a context built from a request is 1 to 9, so the
    spirit is one of the nine named ones and never "artisan vodka". *)
Theorem numerology_mixer_named_spirit (request : Request) :
  let numerology := ctx_numerology (buildGenerationContext_ request) in
  1 <= numerology <= 9
  /\ In (spiritMap numerology) namedSpirits
  /\ spiritMap numerology <> js "artisan vodka".
Proof.
  cbv zeta.
  change (ctx_numerology (buildGenerationContext_ request))
    with (computeNumerologyValue_ (firstName request ++ js " " ++ lastName request)).
  pose proof (computeNumerologyValue_range
                (firstName request ++ js " " ++ lastName request)) as Hrange.
  set (n := computeNumerologyValue_ _) in *.
  split; [exact Hrange|].
  assert (Hcases : n = 1 \/ n = 2 \/ n = 3 \/ n = 4 \/ n = 5 \/ n = 6 \/ n = 7
                   \/ n = 8 \/ n = 9) by lia.
  clearbody n.
  repeat (destruct Hcases as [-> | Hcases]);
    try subst n; (split; [vm_compute; tauto|vm_compute; discriminate]).
Qed.

(** X12. The chrono generator always returns a blueprint.  Its first
    ingredient names a spirit of the decade table when the birth date is
    not after today; when it is, the table is read at index -1 and the
    ingredient is "undefined - 1.75 oz".  The mutation, its third
    ingredient, is always an entry of the mixer table. *)
Theorem chrono_spirit_by_age (context : Context) (today : Z) :
  exists blueprint,
    generateBirthdayChronoCocktail_ context today = Ok blueprint
    /\ (0 <= ageInDaysAt context today ->
        exists spirit,
          In spirit decadeSpiritMap
          /\ ingredients blueprint !! 0%nat = Some (spirit ++ js " - 1.75 oz"))
    /\ (ageInDaysAt context today < 0 ->
        ingredients blueprint !! 0%nat = Some (js "undefined - 1.75 oz"))
    /\ (exists mutation,
          In mutation mixerMap
          /\ ingredients blueprint !! 2%nat
             = Some (mutation ++ js " - 0.5 oz (rebirth twist)")).
Proof.
  unfold generateBirthdayChronoCocktail_.
  destruct (randomPick_ random mixerMap (ctx_random context)) as [mixer h].
  eexists. split; [reflexivity|].
  cbn [ingredients lookup list_lookup].
  change (Z.of_nat (length decadeSpiritMap) - 1) with 9.
  change (Z.of_nat (length mixerMap)) with 8.
  split; [|split].
  - intros Hage.
    destruct (at_entry decadeSpiritMap (Z.min 9 (ageInDaysAt context today / 3650)))
      as (spirit & Hspirit & Hin).
    + change (Z.of_nat (length decadeSpiritMap)) with 10.
      pose proof (Z.div_pos (ageInDaysAt context today) 3650 Hage ltac:(lia)). lia.
    + exists spirit. rewrite Hspirit. split; [exact Hin|reflexivity].
  - intros Hage. rewrite at_negative; [reflexivity|].
    assert (ageInDaysAt context today / 3650 < 0)
      by (apply Z.div_lt_upper_bound; lia).
    lia.
  - pose proof (date_field_ranges today) as [Hmonth Hdate].
    destruct (at_entry mixerMap
                (Z.rem (JsDate.getMonth today + 1 + JsDate.getDate today) 8))
      as (mutation & Hmutation & Hin).
    + change (Z.of_nat (length mixerMap)) with 8.
      rewrite Z.rem_mod_nonneg by lia.
      apply Z.mod_pos_bound. lia.
    + exists mutation. rewrite Hmutation. split; [exact Hin|reflexivity].
Qed.

Section AnagramFacts.

(** What one code point adds to the letter sum. *)
Let pointValue (cp : Z) : Z :=
  positionSum (List.filter isUpperAZ (flat_map codeUnits (upperCasePoint cp))).

Lemma pointValue_sum (points : list Z) :
  positionSum
    (List.filter isUpperAZ (flat_map codeUnits (flat_map upperCasePoint points)))
  = fold_right (fun cp acc => pointValue cp + acc) 0 points.
Proof.
  induction points as [|cp points IH]; [reflexivity|].
  cbn [flat_map fold_right].
  rewrite flat_map_app, List.filter_app, positionSum_app, IH. reflexivity.
Qed.

Lemma pointValue_beyond (cp : Z) : 55296 <= cp -> ~ In cp letterSources ->
  pointValue cp = 0.
Proof.
  intros Hcp Hsource. unfold pointValue. rewrite upperCasePoint_other by exact Hsource.
  unfold alphabetPosition, isUpperAZ, isLowerAZ.
  repeat match goal with
         | |- context [if ?b then _ else _] => destruct b eqn:?
         end; lia.
Qed.

Lemma surrogate_no_source (c : Z) :
  isHighSurrogate c = true \/ isLowSurrogate c = true \/ 65536 <= c ->
  55296 <= c /\ ~ In c letterSources.
Proof.
  intros Hc. assert (55296 <= c)
    by (unfold isHighSurrogate, isLowSurrogate in Hc; lia).
  split; [assumption|].
  intros Hin. unfold letterSources in Hin. cbn [In] in Hin.
  unfold isHighSurrogate, isLowSurrogate in Hc. lia.
Qed.

(** Read by code points or by code units, a name has the same letter sum:
    a surrogate pair adds nothing either way. *)
Lemma pointValue_codePoints_le (n : nat) :
  forall name : jsstring,
    (length name <= n)%nat ->
    fold_right (fun cp acc => pointValue cp + acc) 0 (codePoints name)
    = fold_right (fun c acc => pointValue c + acc) 0 name.
Proof.
  induction n as [|n IH]; intros [|c [|d name]] Hlen; simpl in Hlen;
    try reflexivity; try lia.
  cbn [codePoints].
  destruct (isHighSurrogate c && isLowSurrogate d) eqn:Hpair.
  - apply andb_true_iff in Hpair as [Hc Hd].
    cbn [fold_right]. rewrite IH by lia.
    destruct (surrogate_no_source c) as [Hc1 Hc2]; [auto|].
    destruct (surrogate_no_source d) as [Hd1 Hd2]; [auto|].
    destruct (surrogate_no_source (65536 + (c - 55296) * 1024 + (d - 56320)))
      as [Hp1 Hp2].
    { right. right. unfold isHighSurrogate, isLowSurrogate in *. lia. }
    rewrite !pointValue_beyond by assumption. reflexivity.
  - change (fold_right (fun cp acc => pointValue cp + acc) 0
              (c :: codePoints (d :: name))
            = fold_right (fun c acc => pointValue c + acc) 0 (c :: d :: name)).
    cbn [fold_right]. rewrite (IH (d :: name)) by (simpl; lia). reflexivity.
Qed.

Lemma letterSum_by_unit (name : jsstring) :
  positionSum (upperCaseLetters name)
  = fold_right (fun c acc => pointValue c + acc) 0 name.
Proof.
  unfold upperCaseLetters, toUpperCase. rewrite pointValue_sum.
  apply (pointValue_codePoints_le (length name)). lia.
Qed.

Lemma letterSum_permutation (name1 name2 : jsstring) :
  name1 ≡ₚ name2 ->
  positionSum (upperCaseLetters name1) = positionSum (upperCaseLetters name2).
Proof.
  intros Hperm. rewrite !letterSum_by_unit.
  induction Hperm as [|c l1 l2 _ IH|c d l|l1 l2 l3 _ IH1 _ IH2];
    cbn [fold_right]; lia.
Qed.

End AnagramFacts.

(** X13. The numerology value of a name does not depend on the order of its
    characters: two names that are rearrangements of one another, code unit
    by code unit, have the same value. *)
Theorem computeNumerologyValue_anagram (name1 name2 : jsstring)
  (Hanagram : name1 ≡ₚ name2) :
  computeNumerologyValue_ name1 = computeNumerologyValue_ name2.
Proof.
  destruct (computeNumerologyValue_reduces name1) as (-> & _).
  destruct (computeNumerologyValue_reduces name2) as (-> & _).
  rewrite (letterSum_permutation name1 name2 Hanagram). reflexivity.
Qed.

Lemma computeNumerologyValue_anagram_witness :
  computeNumerologyValue_ (js "Ada") = computeNumerologyValue_ (js "aAd").
Proof.
  apply computeNumerologyValue_anagram.
  change (js "Ada") with ([65; 100] ++ [97]).
  change (js "aAd") with ([97] ++ [65; 100]).
  apply Permutation_app_comm.
Defined.

Section ScoreFacts.


End ScoreFacts.

